(** * PdfHtmlProcessor: a shallow embedding of [pdf_split.py]

    The development follows the source file top-down:

    - [Py]        the Python built-ins the source calls ([int], slices,
                  [str.find], [str.join], [filter(None, _)], ...);
    - [DateTime]  [datetime(...)] and [strftime('%Y-%m-%d %H:%M:%S')];
    - [Base64]    [base64.b64decode] as the source calls it (non-strict);
    - [Pdf]       the objects handed over by fitz and BeautifulSoup;
    - [Langchain] the documents the generator yields;
    - [Processor] the class [PdfHtmlProcessor]: its fields, the object
                  store its lists live in, and the generator [process_pdf];
    - [Observe], [DateFields], [Samples]  the vocabulary of the properties
                  and the sample documents;
    - [ProcessorFacts], [DateFacts]  the properties.

    Python strings are modelled by [string]; a character is a code point
    below 256.  Python lists are mutable objects: they live in a store and
    are referred to by address, so that sharing between the processor and
    the documents it yields is visible. *)

From Stdlib Require Import ZArith String Ascii List Bool Lia.
From stdpp Require Import base option list strings gmap.

Open Scope string_scope.
Open Scope list_scope.

(** ** Exceptions and results *)

Inductive Exn : Type :=
| ValueError      (* int() on a bad literal, datetime() out of range, non-ASCII base64 *)
| TypeError       (* str.join over a sequence holding None *)
| KeyError        (* tag["src"] on a tag without that attribute *)
| IndexError      (* list item assignment out of range *)
| BinasciiError   (* binascii.Error: incorrect base64 padding *)
| FileNotFoundError.  (* os.makedirs on the empty directory name *)

Inductive result (A : Type) : Type :=
| Ok (a : A)
| Raise (e : Exn).
Arguments Ok {A} a.
Arguments Raise {A} e.

Definition rbind {A B} (r : result A) (k : A -> result B) : result B :=
  match r with
  | Ok a => k a
  | Raise e => Raise e
  end.

Notation "'do' x <- r ; k" := (rbind r (fun x => k))
  (at level 10, x name, r at level 100, k at level 200).

(** ** Python built-ins *)

Module Py.

(** [s[a:b]] for [0 <= a], [0 <= b]. *)
Definition slice (s : string) (a b : nat) : string := substring a (b - a) s.

(** [s[a:]]. *)
Fixpoint slice_from (s : string) (a : nat) : string :=
  match a, s with
  | O, _ => s
  | S a', String _ r => slice_from r a'
  | S _, EmptyString => EmptyString
  end.

(** [s.startswith(p)]. *)
Definition startswith (s p : string) : bool := String.prefix p s.

(** [s.find(sub, start)]; [None] stands for [-1]. *)
Definition find (s sub : string) (start : nat) : option nat := index start sub s.

(** [sub in s]. *)
Definition contains (sub s : string) : bool :=
  match index 0 sub s with Some _ => true | None => false end.

(** [sep.join(l)] for a list of [str]. *)
Definition join (sep : string) (l : list string) : string := String.concat sep l.

(** [sep.join(l)] where the items may be [None]: the first [None] raises
    [TypeError]. *)
Definition join_items (sep : string) (l : list (option string)) : result string :=
  match mapM id l with
  | Some ss => Ok (join sep ss)
  | None => Raise TypeError
  end.

(** Truth value of a [str]-or-[None] item. *)
Definition truthy (x : option string) : bool :=
  match x with
  | Some s => negb (String.eqb s "")
  | None => false
  end.

(** [filter(None, l)]: the items whose truth value is true. *)
Fixpoint filter_truthy (l : list (option string)) : list string :=
  match l with
  | [] => []
  | Some s :: l' => if String.eqb s "" then filter_truthy l' else s :: filter_truthy l'
  | None :: l' => filter_truthy l'
  end.

(** [s.split(sep)[-1]] for a one-character separator: what follows the
    last separator. *)
Fixpoint split_last_aux (sep : ascii) (s cur : string) : string :=
  match s with
  | EmptyString => cur
  | String c r =>
      if Ascii.eqb c sep then split_last_aux sep r EmptyString
      else split_last_aux sep r (cur +:+ String c EmptyString)
  end.
Definition split_last (sep : ascii) (s : string) : string :=
  split_last_aux sep s EmptyString.

(** *** [int(s)] in base 10

    Leading and trailing whitespace is stripped, one sign is allowed,
    and single underscores may separate digits.  The whitespace [int]
    strips is narrower than [str.isspace]: tab to carriage return and the
    blank among the ASCII characters (the separators 28 to 31 are kept and
    make the literal invalid), and, of the other code points below 256,
    the two Unicode spaces NEL (133) and NBSP (160), which [int] turns
    into blanks before it reads the literal. *)

Definition isspace (c : ascii) : bool :=
  let n := nat_of_ascii c in
  (((9 <=? n) && (n <=? 13)) || (n =? 32) || (n =? 133) || (n =? 160))%nat.

Definition isdigit (c : ascii) : bool :=
  let n := nat_of_ascii c in ((48 <=? n) && (n <=? 57))%nat.

Definition digit_value (c : ascii) : Z := (Z.of_nat (nat_of_ascii c) - 48)%Z.

Fixpoint lstrip (s : string) : string :=
  match s with
  | String c r => if isspace c then lstrip r else s
  | EmptyString => EmptyString
  end.

Fixpoint rstrip (s : string) : string :=
  match s with
  | String c r =>
      match rstrip r with
      | EmptyString => if isspace c then EmptyString else String c EmptyString
      | r' => String c r'
      end
  | EmptyString => EmptyString
  end.

Definition strip (s : string) : string := rstrip (lstrip s).

(** Digits with optional single underscores between them. *)
Fixpoint int_digits (s : string) (acc : Z) (after_digit : bool) : option Z :=
  match s with
  | EmptyString => if after_digit then Some acc else None
  | String c r =>
      if isdigit c then int_digits r (10 * acc + digit_value c)%Z true
      else if Ascii.eqb c "_" then
        (if after_digit then int_digits r acc false else None)
      else None
  end.

Definition int_opt (s : string) : option Z :=
  match strip s with
  | String "-" r => Z.opp <$> int_digits r 0%Z false
  | String "+" r => int_digits r 0%Z false
  | t => int_digits t 0%Z false
  end.

Definition int (s : string) : result Z :=
  match int_opt s with
  | Some z => Ok z
  | None => Raise ValueError
  end.

End Py.

(** ** [datetime] *)

Module DateTime.

Record datetime : Type := mk_datetime {
  year : Z; month : Z; day : Z; hour : Z; minute : Z; second : Z
}.

Local Open Scope Z_scope.

Definition is_leap (y : Z) : bool :=
  ((y mod 4 =? 0) && negb (y mod 100 =? 0)) || (y mod 400 =? 0).

Definition days_in_month (y m : Z) : Z :=
  if (m =? 2) then (if is_leap y then 29 else 28)
  else if (m =? 4) || (m =? 6) || (m =? 9) || (m =? 11) then 30
  else 31.

Definition in_range (lo x hi : Z) : bool := (lo <=? x) && (x <=? hi).

(** The range checks of the [datetime] constructor. *)
Definition valid (y mo d h mi s : Z) : bool :=
  in_range 1 y 9999 && in_range 1 mo 12 && in_range 1 d (days_in_month y mo)
  && in_range 0 h 23 && in_range 0 mi 59 && in_range 0 s 59.

(** [datetime(y, mo, d, h, mi, s)]. *)
Definition make (y mo d h mi s : Z) : result datetime :=
  if valid y mo d h mi s then Ok (mk_datetime y mo d h mi s)
  else Raise ValueError.

Definition digit_char (d : Z) : ascii := ascii_of_nat (48 + Z.to_nat d)%nat.

Definition pad2 (n : Z) : string :=
  String (digit_char (n / 10 mod 10)) (String (digit_char (n mod 10)) EmptyString).

Definition pad4 (n : Z) : string :=
  String (digit_char (n / 1000 mod 10)) (String (digit_char (n / 100 mod 10)) (pad2 n)).

(** [%Y]: the year in decimal and not padded, as the [strftime] of the C
    library (glibc) that CPython calls writes it: [999] for the year 999.
    The years of a [datetime] are between 1 and 9999. *)
Definition year_text (n : Z) : string :=
  if n <? 10 then String (digit_char (n mod 10)) EmptyString
  else if n <? 100 then pad2 n
  else if n <? 1000 then String (digit_char (n / 100 mod 10)) (pad2 n)
  else pad4 n.

(** [dt.strftime('%Y-%m-%d %H:%M:%S')]: the other fields are zero-padded
    on two digits. *)
Definition strftime (dt : datetime) : string :=
  year_text (year dt) +:+ "-" +:+ pad2 (month dt) +:+ "-" +:+ pad2 (day dt) +:+ " "
  +:+ pad2 (hour dt) +:+ ":" +:+ pad2 (minute dt) +:+ ":" +:+ pad2 (second dt).

End DateTime.

(** ** [PdfHtmlProcessor._convert_pdf_date] *)

Definition _convert_pdf_date (pdf_date_str : string) : result string :=
  do year <- Py.int (Py.slice pdf_date_str 2 6);
  do month <- Py.int (Py.slice pdf_date_str 6 8);
  do day <- Py.int (Py.slice pdf_date_str 8 10);
  do hour <- Py.int (Py.slice pdf_date_str 10 12);
  do minute <- Py.int (Py.slice pdf_date_str 12 14);
  do second <- Py.int (Py.slice pdf_date_str 14 16);
  do dt <- DateTime.make year month day hour minute second;
  Ok (DateTime.strftime dt).

(** ** [base64.b64decode]

    The source calls [b64decode(img_data)] on a [str] with the default
    [validate=False]: the text must be ASCII, characters outside the
    alphabet are skipped, and the decoder of [binascii.a2b_base64] runs
    over the remaining ones.  Bytes are integers below 256. *)

Module Base64.

Definition is_ascii (c : ascii) : bool := (nat_of_ascii c <? 128)%nat.

Fixpoint all_ascii (s : string) : bool :=
  match s with
  | EmptyString => true
  | String c r => is_ascii c && all_ascii r
  end.

(** The decoding table: the six-bit value of an alphabet character. *)
Definition table_a2b (c : ascii) : option Z :=
  let n := nat_of_ascii c in
  if ((65 <=? n) && (n <=? 90))%nat then Some (Z.of_nat n - 65)%Z
  else if ((97 <=? n) && (n <=? 122))%nat then Some (Z.of_nat n - 71)%Z
  else if ((48 <=? n) && (n <=? 57))%nat then Some (Z.of_nat n + 4)%Z
  else if (n =? 43)%nat then Some 62%Z
  else if (n =? 47)%nat then Some 63%Z
  else None.

Definition u8 (z : Z) : Z := Z.land z 255.

(** The decoder loop: [quad_pos] counts the characters of the current
    group of four, [leftchar] holds the bits not yet written, [pads]
    counts the pad characters seen since the last data character. *)
Fixpoint a2b_loop (s : string) (quad_pos : nat) (leftchar : Z) (pads : nat)
         (out : list Z) : result (list Z) :=
  match s with
  | EmptyString =>
      if (quad_pos =? 0)%nat then Ok out else Raise BinasciiError
  | String c r =>
      if Ascii.eqb c "=" then
        if (2 <=? quad_pos)%nat then
          if (4 <=? quad_pos + S pads)%nat then Ok out
          else a2b_loop r quad_pos leftchar (S pads) out
        else a2b_loop r quad_pos leftchar pads out
      else
        match table_a2b c with
        | None => a2b_loop r quad_pos leftchar pads out
        | Some this_ch =>
            match quad_pos with
            | 0 => a2b_loop r 1 this_ch 0 out
            | 1 => a2b_loop r 2 (Z.land this_ch 15) 0
                     (out ++ [u8 (Z.lor (Z.shiftl leftchar 2) (Z.shiftr this_ch 4))])
            | 2 => a2b_loop r 3 (Z.land this_ch 3) 0
                     (out ++ [u8 (Z.lor (Z.shiftl leftchar 4) (Z.shiftr this_ch 2))])
            | _ => a2b_loop r 0 0%Z 0
                     (out ++ [u8 (Z.lor (Z.shiftl leftchar 6) this_ch)])
            end
        end
  end.

Definition b64decode (s : string) : result (list Z) :=
  if all_ascii s then a2b_loop s 0 0%Z 0 [] else Raise ValueError.

End Base64.

(** ** The objects handed over by fitz and BeautifulSoup *)

Module Pdf.

(** A BeautifulSoup tag found by [child.find("img")]: its attributes. *)
Record Tag : Type := mk_tag { attrs : gmap string string }.

(** [tag[key]]. *)
Definition getitem (t : Tag) (key : string) : result string :=
  match attrs t !! key with
  | Some v => Ok v
  | None => Raise KeyError
  end.

(** A direct child of the page's [div]: an element with its tag name, its
    [get_text()] and the result of [find("img")], or a bare string, whose
    [name] is [None]. *)
Inductive Child : Type :=
| Element (name : string) (text : string) (img : option Tag)
| NavigableString (text : string).

Definition name_of (c : Child) : option string :=
  match c with
  | Element n _ _ => Some n
  | NavigableString _ => None
  end.

Definition get_text (c : Child) : string :=
  match c with
  | Element _ t _ => t
  | NavigableString t => t
  end.

Definition find_img (c : Child) : option Tag :=
  match c with
  | Element _ _ i => i
  | NavigableString _ => None
  end.

(** A table found by [page.find_tables()]: [header.names] and the text
    [to_pandas().dropna(axis=1).to_json(force_ascii=False)]. *)
Record Table : Type := mk_table {
  header_names : list (option string);
  json_text : string
}.

Record Page : Type := mk_page {
  tables : list Table;
  children : list Child   (* soup.div.children of get_text("xhtml") *)
}.

(** What [fitz.open] returns. *)
Record FitzDocument : Type := mk_pdf {
  metadata : gmap string string;
  pages : list Page
}.

End Pdf.

(** The newline character and [os.path.join] on two components. *)
Definition nl : string := String "010"%char EmptyString.

Definition path_join (a b : string) : string :=
  if Py.startswith b "/" then b
  else if String.eqb a "" then b
  else if String.eqb (Py.slice_from a (String.length a - 1)) "/" then a +:+ b
  else a +:+ "/" +:+ b.

(** ** [langchain_core.documents.Document] *)

Module Langchain.

(** A metadata value: a reference to a list object of the store, or a
    string of the file metadata. *)
Inductive Value : Type :=
| VList (l : nat)
| VStr (s : string).

Record Document : Type := mk_document {
  page_content : string;
  metadata : gmap string Value
}.

End Langchain.

(** ** The class [PdfHtmlProcessor] *)

Module Processor.

Import Pdf.

(** An item of a Python list of the source: a [str] or [None]. *)
Abbreviation item := (option string).
Abbreviation pylist := (list (option string)).

(** The fields of [self], the store holding the list objects the fields
    refer to, and the part of the file system the images are written to. *)
Record State : Type := mk_state {
  pdf_images_dir : string;
  file_metadata : gmap string string;   (* None until process_pdf assigns it *)
  text_titles : nat;
  accumulated_text : string;
  image_paths : nat;
  table_text_list : nat;
  store : list pylist;
  fs_dirs : gset string;
  fs_files : gmap string (list Z)
}.

Definition set_file_metadata (md : gmap string string) (st : State) : State :=
  mk_state (pdf_images_dir st) md (text_titles st) (accumulated_text st)
           (image_paths st) (table_text_list st) (store st) (fs_dirs st) (fs_files st).

Definition set_accumulated_text (s : string) (st : State) : State :=
  mk_state (pdf_images_dir st) (file_metadata st) (text_titles st) s
           (image_paths st) (table_text_list st) (store st) (fs_dirs st) (fs_files st).

Definition set_image_paths (l : nat) (st : State) : State :=
  mk_state (pdf_images_dir st) (file_metadata st) (text_titles st) (accumulated_text st)
           l (table_text_list st) (store st) (fs_dirs st) (fs_files st).

Definition set_store (h : list pylist) (st : State) : State :=
  mk_state (pdf_images_dir st) (file_metadata st) (text_titles st) (accumulated_text st)
           (image_paths st) (table_text_list st) h (fs_dirs st) (fs_files st).

Definition set_fs (d : gset string) (f : gmap string (list Z)) (st : State) : State :=
  mk_state (pdf_images_dir st) (file_metadata st) (text_titles st) (accumulated_text st)
           (image_paths st) (table_text_list st) (store st) d f.

(** *** The store *)

(** The list object at address [l]. *)
Definition deref (st : State) (l : nat) : pylist := default [] (store st !! l).

(** In-place update of the list object at [l]. *)
Definition assign (l : nat) (v : pylist) (st : State) : State :=
  set_store (<[l := v]> (store st)) st.

(** A new list object; its address is the next free one. *)
Definition alloc (v : pylist) (st : State) : nat * State :=
  (length (store st), set_store (store st ++ [v]) st).

(** [xs[i] = x]: raises when [i] is out of range. *)
Definition list_setitem (xs : pylist) (i : nat) (x : item) : result pylist :=
  if (i <? length xs)%nat then Ok (<[i := x]> xs) else Raise IndexError.

(** [xs[i:] = new]. *)
Definition list_set_tail (xs : pylist) (i : nat) (new : pylist) : pylist :=
  take i xs ++ new.

(** [__init__]: three distinct list objects.  ([pdf_path] is what
    [fitz.open] opens, and [process_pdf] below is given the opened
    document; [add_metadata] is never read.) *)
Definition init (pdf_images_dir : string) : State :=
  mk_state pdf_images_dir ∅ 0 "" 1 2 [replicate 6 None; []; []] ∅ ∅.

Section WithDigest.

(** [hashlib.md5(data).hexdigest()]. *)
Variable md5_hexdigest : list Z -> string.

(** *** The file system

    The directories and the files the processor knows of.  Of the
    failures of the operating system the model has the one that the name
    alone decides: the empty directory name, which [os.path.exists] never
    finds and [os.makedirs] refuses.  Permissions, name clashes and the
    limits of the file system are not modelled: every other directory can
    be made and every file written. *)

(** [os.path.exists(path)] for a directory. *)
Definition os_path_exists (path : string) (st : State) : bool :=
  negb (String.eqb path "") && bool_decide (path ∈ fs_dirs st).

(** [os.makedirs(path)]. *)
Definition os_makedirs (path : string) (st : State) : result State :=
  if String.eqb path "" then Raise FileNotFoundError
  else Ok (set_fs (fs_dirs st ∪ {[ path ]}) (fs_files st) st).

(** [with open(path, "wb") as f: f.write(data)]. *)
Definition write_file (path : string) (data : list Z) (st : State) : State :=
  set_fs (fs_dirs st) (<[path := data]> (fs_files st)) st.

(** *** [_check_and_decode_base64_image] *)

Definition data_url_prefix : string := "data:image/".
Definition data_url_suffix : string := ";base64,".

Definition _check_and_decode_base64_image (img_tag : option Tag) (st : State)
  : result (option string * State) :=
  match img_tag with
  | None => Ok (None, st)
  | Some tag =>
      do src <- getitem tag "src";
      if negb (Py.startswith src data_url_prefix) then Ok (None, st)
      else
        let data_url := src in
        match Py.find data_url data_url_prefix 0 with
        | None => Ok (None, st)
        | Some data_url_start =>
            match Py.find data_url data_url_suffix data_url_start with
            | None => Ok (None, st)
            | Some data_url_end =>
                let img_data :=
                  Py.slice_from data_url (data_url_end + String.length data_url_suffix) in
                do image_data <- Base64.b64decode img_data;
                do st1 <-
                  (if negb (os_path_exists (pdf_images_dir st) st)
                   then os_makedirs (pdf_images_dir st) st
                   else Ok st);
                let hash_name := md5_hexdigest image_data in
                let file_extension :=
                  Py.split_last "/"
                    (Py.slice data_url (data_url_start + String.length data_url_prefix)
                              data_url_end) in
                let image_path :=
                  path_join (pdf_images_dir st) (hash_name +:+ "." +:+ file_extension) in
                Ok (Some image_path, write_file image_path image_data st1)
            end
        end
  end.

(** *** The body of [process_pdf] *)

Definition heading_names : list string := ["h1"; "h2"; "h3"; "h4"; "h5"; "h6"].

(** [int(child.name[-1])] when [child.name] is a heading name. *)
Definition heading_level (name : string) : option nat :=
  if bool_decide (name ∈ heading_names) then
    Z.to_nat <$> Py.int_opt (Py.slice_from name (String.length name - 1))
  else None.

(** Lines 143-144: the heading is written into its slot and the deeper
    slots are cleared. *)
Definition apply_heading (level : nat) (text : string) (st : State) : result State :=
  do t1 <- list_setitem (deref st (text_titles st)) (level - 1) (Some text);
  Ok (assign (text_titles st) (list_set_tail t1 level (replicate (6 - level) None)) st).

(** Lines 147-157: the document built when a heading closes a segment. *)
Definition heading_document (embed_titles : bool) (level : nat) (st : State)
  : result (Langchain.Document * State) :=
  let titles := take level (deref st (text_titles st)) in
  do page_content <-
    (if embed_titles then
       do joined <- Py.join_items nl titles;
       Ok (joined +:+ nl +:+ nl +:+ accumulated_text st)
     else Ok (accumulated_text st));
  let '(l_titles, st1) := alloc titles st in
  let metadata : gmap string Langchain.Value :=
    <["images" := Langchain.VList (image_paths st1)]>
      (<["titles" := Langchain.VList l_titles]> ∅) in
  let '(l_table, st2) := alloc (deref st1 (table_text_list st1)) st1 in
  let metadata := <["table" := Langchain.VList l_table]> metadata in
  let metadata := (Langchain.VStr <$> file_metadata st2) ∪ metadata in
  Ok (Langchain.mk_document page_content metadata, st2).

(** Lines 180-190: the document built after the last page. *)
Definition final_document (embed_titles : bool) (st : State) : Langchain.Document :=
  let page_content :=
    if embed_titles then
      Py.join nl (Py.filter_truthy (deref st (text_titles st)))
      +:+ nl +:+ nl +:+ accumulated_text st
    else accumulated_text st in
  let metadata : gmap string Langchain.Value :=
    <["images" := Langchain.VList (image_paths st)]>
      (<["titles" := Langchain.VList (text_titles st)]> ∅) in
  let metadata := <["table" := Langchain.VList (table_text_list st)]> metadata in
  let metadata := (Langchain.VStr <$> file_metadata st) ∪ metadata in
  Langchain.mk_document page_content metadata.

(** Lines 161-163 and 194-196: what runs when the generator is resumed
    after a [yield]. *)
Definition after_yield (st : State) : State :=
  let st1 := set_accumulated_text "" st in
  let '(l_images, st2) := alloc [] st1 in
  let st3 := set_image_paths l_images st2 in
  assign (table_text_list st3) [] st3.

(** Lines 166-176: a [p] element. *)
Definition handle_paragraph (exact_images : bool) (child : Child) (st : State)
  : result State :=
  if exact_images then
    do r <- _check_and_decode_base64_image (find_img child) st;
    let '(image_path, st1) := r in
    if Py.truthy image_path then
      Ok (assign (image_paths st1) (deref st1 (image_paths st1) ++ [image_path]) st1)
    else
      Ok (set_accumulated_text (accumulated_text st1 +:+ get_text child) st1)
  else
    Ok (set_accumulated_text (accumulated_text st +:+ get_text child) st).

(** One iteration of the loop over the children of a page. *)
Inductive Step : Type :=
| Next (st : State)                             (* on to the next child *)
| Yield (d : Langchain.Document) (st : State)   (* suspended at a [yield] *)
| Fail (e : Exn) (st : State).                  (* an exception leaves the generator *)

Definition handle_child (embed_titles exact_images : bool) (child : Child) (st : State)
  : Step :=
  match name_of child with
  | None => Next st
  | Some name =>
      match heading_level name with
      | Some level =>
          match apply_heading level (get_text child) st with
          | Raise e => Fail e st
          | Ok st1 =>
              if negb (String.eqb (accumulated_text st1) "") then
                match heading_document embed_titles level st1 with
                | Ok (d, st2) => Yield d st2
                | Raise e => Fail e st1
                end
              else Next st1
          end
      | None =>
          if String.eqb name "p" then
            match handle_paragraph exact_images child st with
            | Ok st1 => Next st1
            | Raise e => Fail e st
            end
          else Next st
      end
  end.

(** How a run of the generator ends: exhausted, or left by an exception;
    with the state it ends in. *)
Inductive Outcome : Type :=
| Done (st : State)
| Raised (e : Exn) (st : State).

(** The documents yielded, each with the state at its [yield], and the
    outcome. *)
Abbreviation Trace := (list (Langchain.Document * State) * Outcome)%type.

Fixpoint children_loop (embed_titles exact_images : bool) (cs : list Child) (st : State)
  : Trace :=
  match cs with
  | [] => ([], Done st)
  | child :: cs' =>
      match handle_child embed_titles exact_images child st with
      | Next st1 => children_loop embed_titles exact_images cs' st1
      | Yield d st1 =>
          let '(ys, o) := children_loop embed_titles exact_images cs' (after_yield st1) in
          ((d, st1) :: ys, o)
      | Fail e st1 => ([], Raised e st1)
      end
  end.

(** Lines 126-130: the text of the tables of a page. *)
Definition table_name (t : Table) : string :=
  Py.join "_"
    (omap (fun x : option string =>
             match x with
             | Some s => if Py.contains "Col" s then None else Some s
             | None => None
             end) (header_names t)).

Definition page_table_text (p : Page) : string :=
  fold_left (fun table_text t => table_text +:+ table_name t +:+ nl +:+ json_text t +:+ nl)
            (tables p) "".

(** Line 132. *)
Definition append_table_text (table_text : string) (st : State) : State :=
  assign (table_text_list st)
         (deref st (table_text_list st) ++ [Some table_text]) st.

Fixpoint pages_loop (embed_titles exact_images : bool) (ps : list Page) (st : State)
  : Trace :=
  match ps with
  | [] => ([], Done st)
  | page :: ps' =>
      let st1 := append_table_text (page_table_text page) st in
      match children_loop embed_titles exact_images (children page) st1 with
      | (ys, Done st2) =>
          let '(ys', o) := pages_loop embed_titles exact_images ps' st2 in
          (ys ++ ys', o)
      | (ys, Raised e st2) => (ys, Raised e st2)
      end
  end.

(** Lines 115-117: the two date entries are rewritten in place. *)
Definition convert_date_key (key : string) (md : gmap string string)
  : result (gmap string string) :=
  match md !! key with
  | Some v => do v' <- _convert_pdf_date v; Ok (<[key := v']> md)
  | None => Ok md
  end.

Definition convert_dates (md : gmap string string) : result (gmap string string) :=
  do md1 <- convert_date_key "creationDate" md;
  convert_date_key "modDate" md1.

(** Lines 179-196. *)
Definition final_flush (embed_titles : bool) (st : State) : Trace :=
  if negb (String.eqb (accumulated_text st) "") then
    ([(final_document embed_titles st, st)], Done (after_yield st))
  else ([], Done st).

Definition process_pdf (embed_titles exact_images : bool) (pdf : FitzDocument) (st : State)
  : Trace :=
  match convert_dates (Pdf.metadata pdf) with
  | Raise e => ([], Raised e st)
  | Ok md =>
      let st0 := set_file_metadata md st in
      match pages_loop embed_titles exact_images (pages pdf) st0 with
      | (ys, Done st1) =>
          let '(ys', o) := final_flush embed_titles st1 in (ys ++ ys', o)
      | (ys, Raised e st1) => (ys, Raised e st1)
      end
  end.

End WithDigest.

End Processor.

(** ** The class [PDFSplitAgent] *)

Module Agent.

Import Pdf Processor.

Record PDFSplitAgent : Type := mk_agent {
  pdf_path : string;
  chunk_size : Z;
  chunk_overlap : Z
}.

(** [__init__] with its default arguments. *)
Definition new_agent (pdf_path : string) : PDFSplitAgent :=
  mk_agent pdf_path 960 100.

(** The default [pdf_images_dir] of [PdfHtmlProcessor.__init__]. *)
Definition default_images_dir : string := "./pdf_images".

Section WithFiles.

Variable md5_hexdigest : list Z -> string.

(** [fitz.open]: the document stored under a path. *)
Variable fitz_open : string -> FitzDocument.

(** [split_agent_pdf]: a new processor for the path of the agent, with the
    default directory; every document of [process_pdf], called with the
    default [exact_images=False], is yielded in turn. *)
Definition split_agent_pdf (self : PDFSplitAgent) (embed_titles : bool)
  : list (Langchain.Document * State) * Outcome :=
  let pdf_obj := init default_images_dir in
  process_pdf md5_hexdigest embed_titles false (fitz_open (pdf_path self)) pdf_obj.

End WithFiles.

End Agent.

(** * Vocabulary of the properties *)

Module Observe.

Import Pdf Processor.

(** ** Well-formed states

    The three list fields refer to three distinct objects of the store,
    and the heading stack has its six slots. *)

Record wf (st : State) : Prop := mk_wf {
  wf_titles : text_titles st < length (store st);
  wf_images : image_paths st < length (store st);
  wf_tables : table_text_list st < length (store st);
  wf_titles_images : text_titles st ≠ image_paths st;
  wf_titles_tables : text_titles st ≠ table_text_list st;
  wf_images_tables : image_paths st ≠ table_text_list st;
  wf_six : length (deref st (text_titles st)) = 6
}.

(** ** Steps, outcomes and what a consumer reads *)

Definition step_state (s : Step) : State :=
  match s with
  | Next st => st
  | Yield _ st => st
  | Fail _ st => st
  end.

Definition outcome_state (o : Outcome) : State :=
  match o with
  | Done st => st
  | Raised _ st => st
  end.

(** The list a document holds under [key], read in the store of [st];
    [None] when the entry is not a list. *)
Definition list_entry (key : string) (d : Langchain.Document) (st : State)
  : option pylist :=
  match Langchain.metadata d !! key with
  | Some (Langchain.VList l) => Some (deref st l)
  | _ => None
  end.

(** [metadata["titles"]], the heading path of a segment. *)
Definition titles_of (d : Langchain.Document) (st : State) : option pylist :=
  list_entry "titles" d st.

(** [metadata["table"]], the table texts of a segment. *)
Definition tables_of (d : Langchain.Document) (st : State) : option pylist :=
  list_entry "table" d st.

(** [metadata["images"]]. *)
Definition images_of (d : Langchain.Document) (st : State) : option pylist :=
  list_entry "images" d st.

(** The table texts of a yielded document, read at its [yield]. *)
Definition yielded_tables (y : Langchain.Document * State) : pylist :=
  default [] (tables_of y.1 y.2).

(** The texts of the slots that are set. *)
Definition set_texts (titles : pylist) : list string := omap id titles.

(** A heading stack cut after its deepest set slot. *)
Fixpoint omit_trailing_unset (titles : pylist) : pylist :=
  match titles with
  | [] => []
  | x :: r =>
      match omit_trailing_unset r, x with
      | [], None => []
      | r', _ => x :: r'
      end
  end.

(** The body of a document against its heading path and the text
    accumulated at its [yield]: with title embedding, the texts of the
    path joined by newline, a blank line and the text. *)
Definition embedded_body (embed_titles : bool) (d : Langchain.Document) (st : State)
  : Prop :=
  exists titles,
    titles_of d st = Some titles
    ∧ Langchain.page_content d
      = if embed_titles
        then Py.join nl (set_texts titles) +:+ nl +:+ nl +:+ accumulated_text st
        else accumulated_text st.

(** ** The three kinds of children *)

Inductive Kind : Type :=
| KHeading (level : nat)
| KParagraph
| KOther.

Definition kind_of (c : Child) : Kind :=
  match name_of c with
  | None => KOther
  | Some name =>
      match heading_level name with
      | Some level => KHeading level
      | None => if String.eqb name "p" then KParagraph else KOther
      end
  end.

(** The stack after [text_titles[level - 1] = text] and
    [text_titles[level:] = [None] * (6 - level)]. *)
Definition new_titles (level : nat) (text : string) (t : pylist) : pylist :=
  list_set_tail (<[level - 1 := Some text]> t) level (replicate (6 - level) None).

(** The state a heading leaves behind, before anything is yielded. *)
Definition headed (level : nat) (text : string) (st : State) : State :=
  assign (text_titles st) (new_titles level text (deref st (text_titles st))) st.

(** The state at the [yield] of a heading: two list objects were created,
    the slice of the titles and the copy of the table texts. *)
Definition heading_yield_state (level : nat) (st : State) : State :=
  (alloc (deref st (table_text_list st))
         (alloc (take level (deref st (text_titles st))) st).2).2.

(** The metadata of a document: the three computed entries, over which
    the file metadata is merged. *)
Definition merged_metadata (file_md : gmap string string) (l_titles l_images l_table : nat)
  : gmap string Langchain.Value :=
  (Langchain.VStr <$> file_md)
  ∪ <["table" := Langchain.VList l_table]>
      (<["images" := Langchain.VList l_images]>
         (<["titles" := Langchain.VList l_titles]> ∅)).

(** ** The hierarchy invariant

    [last] remembers the last heading processed, if any: its slot holds
    its text and every deeper slot is unset. *)

Definition hierarchy (last : option (nat * string)) (st : State) : Prop :=
  match last with
  | None => True
  | Some (level, text) =>
      1 <= level <= 6
      ∧ deref st (text_titles st) !! (level - 1) = Some (Some text)
      ∧ ∀ j, level <= j < 6 -> deref st (text_titles st) !! j = Some None
  end.

Definition last_heading (last : option (nat * string)) (c : Child) : option (nat * string) :=
  match kind_of c with
  | KHeading level => Some (level, get_text c)
  | _ => last
  end.

(** The states the generator can be in, from any well-formed state of the
    processor: each constructor is one of the state changes of
    [process_pdf]. *)
Inductive reach (md5_hexdigest : list Z -> string) (embed_titles exact_images : bool)
  : option (nat * string) -> State -> Prop :=
| reach_start st :
    wf st -> reach md5_hexdigest embed_titles exact_images None st
| reach_metadata last md st :
    reach md5_hexdigest embed_titles exact_images last st ->
    reach md5_hexdigest embed_titles exact_images last (set_file_metadata md st)
| reach_page last table_text st :
    reach md5_hexdigest embed_titles exact_images last st ->
    reach md5_hexdigest embed_titles exact_images last (append_table_text table_text st)
| reach_child last c st :
    reach md5_hexdigest embed_titles exact_images last st ->
    reach md5_hexdigest embed_titles exact_images (last_heading last c)
          (step_state (handle_child md5_hexdigest embed_titles exact_images c st))
| reach_resume last st :
    reach md5_hexdigest embed_titles exact_images last st ->
    reach md5_hexdigest embed_titles exact_images last (after_yield st).

(** ** Documents that later steps leave alone

    A list object is frozen in a state when it is none of the three lists
    the processor writes to.  A yielded document is sealed in a later
    state when each list it refers to is frozen there with the items it
    had at the [yield]; it then reads the same as at its [yield]. *)

Definition frozen (l : nat) (v : pylist) (st : State) : Prop :=
  l < length (store st)
  ∧ l ≠ text_titles st ∧ l ≠ image_paths st ∧ l ≠ table_text_list st
  ∧ deref st l = v.

Definition sealed (y : Langchain.Document * State) (st : State) : Prop :=
  ∀ key l, Langchain.metadata y.1 !! key = Some (Langchain.VList l) ->
           frozen l (deref y.2 l) st.

Definition kept (y : Langchain.Document * State) (st : State) : Prop :=
  ∀ key, list_entry key y.1 st = list_entry key y.1 y.2.

(** [R y st] for every document [y] of a trace and every state [st] that
    comes after it: the states of the later documents and the last one. *)
Fixpoint all_later (R : Langchain.Document * State -> State -> Prop)
         (ys : list (Langchain.Document * State)) (fin : State) : Prop :=
  match ys with
  | [] => True
  | y :: l => Forall (fun z => R y z.2) l ∧ R y fin ∧ all_later R l fin
  end.

(** ** Accumulation windows

    The node stream of a document is cut at its headings: a window is a
    run of nodes between two headings, across pages. *)

Definition stream (pdf : FitzDocument) : list Child :=
  concat (map children (pages pdf)).

Fixpoint split_at_headings (cs : list Child) : list (list Child) :=
  match cs with
  | [] => [[]]
  | c :: cs' =>
      match kind_of c, split_at_headings cs' with
      | KHeading _, ws => [] :: ws
      | _, w :: ws => (c :: w) :: ws
      | _, [] => [[c]]
      end
  end.

Definition nonempty (s : string) : bool := negb (String.eqb s "").

(** What [_check_and_decode_base64_image] returns for the image of a
    child, for a processor that stores its images under [dir]. *)
Definition embedded_image_path (md5_hexdigest : list Z -> string) (dir : string) (c : Child)
  : result (option string) :=
  do r <- _check_and_decode_base64_image md5_hexdigest (find_img c) (init dir);
  Ok r.1.

(** A text paragraph: a [p] element that is not taken for an image.
    Without image extraction every [p] element is one. *)
Definition is_text_paragraph (md5_hexdigest : list Z -> string) (exact_images : bool)
           (dir : string) (c : Child) : bool :=
  match kind_of c with
  | KParagraph =>
      if exact_images then
        match embedded_image_path md5_hexdigest dir c with
        | Ok r => negb (Py.truthy r)
        | Raise _ => false
        end
      else true
  | _ => false
  end.

(** The image of a [p] element, when images are extracted, is looked for
    without an exception. *)
Definition decodable (md5_hexdigest : list Z -> string) (exact_images : bool)
           (dir : string) (c : Child) : Prop :=
  kind_of c = KParagraph -> exact_images = true ->
  exists r, embedded_image_path md5_hexdigest dir c = Ok r.

(** The text of a window: the texts of its text paragraphs, one after the
    other, nothing between them. *)
Definition window_text (textp : Child -> bool) (w : list Child) : string :=
  String.concat "" (map get_text (List.filter textp w)).

Definition segment_texts (textp : Child -> bool) (cs : list Child) : list string :=
  List.filter nonempty (map (window_text textp) (split_at_headings cs)).

(** The texts of the windows when [acc] was accumulated before the
    stream starts. *)
Definition windows_from (textp : Child -> bool) (acc : string) (cs : list Child)
  : list string :=
  match split_at_headings cs with
  | w :: ws => (acc +:+ window_text textp w) :: map (window_text textp) ws
  | [] => [acc]
  end.

(** The same texts, computed along the stream with the text accumulated
    so far: the bodies closed by the headings, and the text left over. *)
Fixpoint bodies_from (textp : Child -> bool) (acc : string) (cs : list Child)
  : list string * string :=
  match cs with
  | [] => ([], acc)
  | c :: cs' =>
      match kind_of c with
      | KHeading _ =>
          if nonempty acc then
            let '(bs, a) := bodies_from textp "" cs' in (acc :: bs, a)
          else bodies_from textp "" cs'
      | _ =>
          if textp c then bodies_from textp (acc +:+ get_text c) cs'
          else bodies_from textp acc cs'
      end
  end.

(** ** Paragraphs without an embedded image

    No [img] below the element, or an [img] whose [src] is not a
    [data:image/...;base64,] URL. *)
Definition no_embedded_image (c : Child) : Prop :=
  match find_img c with
  | None => True
  | Some tag =>
      exists src, attrs tag !! "src" = Some src
        ∧ (Py.startswith src data_url_prefix = false
           ∨ Py.find src data_url_suffix 0 = None)
  end.

End Observe.

(** ** Vocabulary of the date conversion *)

Module DateFields.

Fixpoint all_digits (s : string) : bool :=
  match s with
  | EmptyString => true
  | String c r => Py.isdigit c && all_digits r
  end.

(** A field of [width] decimal digits. *)
Definition digit_field (width : nat) (s : string) : bool :=
  (String.length s =? width)%nat && all_digits s.

(** The six fields of a PDF date, by position. *)
Definition field_year (s : string) : string := Py.slice s 2 6.
Definition field_month (s : string) : string := Py.slice s 6 8.
Definition field_day (s : string) : string := Py.slice s 8 10.
Definition field_hour (s : string) : string := Py.slice s 10 12.
Definition field_minute (s : string) : string := Py.slice s 12 14.
Definition field_second (s : string) : string := Py.slice s 14 16.

Definition fields (s : string) : list string :=
  [field_year s; field_month s; field_day s; field_hour s; field_minute s; field_second s].

(** Every character at positions 2 to 15 is a decimal digit. *)
Definition numeric_fields (s : string) : bool :=
  digit_field 4 (field_year s) && digit_field 2 (field_month s)
  && digit_field 2 (field_day s) && digit_field 2 (field_hour s)
  && digit_field 2 (field_minute s) && digit_field 2 (field_second s).

(** The values [int] reads from the six fields, when it accepts them all. *)
Definition parsed (s : string) : option (Z * Z * Z * Z * Z * Z) :=
  y ← Py.int_opt (field_year s);
  mo ← Py.int_opt (field_month s);
  d ← Py.int_opt (field_day s);
  h ← Py.int_opt (field_hour s);
  mi ← Py.int_opt (field_minute s);
  se ← Py.int_opt (field_second s);
  Some (y, mo, d, h, mi, se).

Definition valid_date (v : Z * Z * Z * Z * Z * Z) : bool :=
  let '(y, mo, d, h, mi, se) := v in DateTime.valid y mo d h mi se.

Definition year_of (v : Z * Z * Z * Z * Z * Z) : Z :=
  let '(y, _, _, _, _, _) := v in y.

(** The date written as [YYYY-MM-DD HH:MM:SS] from the digits of the input. *)
Definition reformatted (s : string) : string :=
  field_year s +:+ "-" +:+ field_month s +:+ "-" +:+ field_day s +:+ " "
  +:+ field_hour s +:+ ":" +:+ field_minute s +:+ ":" +:+ field_second s.

(** The text [strftime] gives for the values read. *)
Definition formatted (v : Z * Z * Z * Z * Z * Z) : string :=
  let '(y, mo, d, h, mi, se) := v in
  DateTime.strftime (DateTime.mk_datetime y mo d h mi se).

(** The ten decimal digits, and the checks that reading a field of digits
    and writing the value back gives the field again; for the year, when
    it is at least 1000. *)
Definition digit_chars : list ascii :=
  map (fun k => ascii_of_nat (48 + k)) (seq 0 10).

Definition roundtrip2 (a b : ascii) : bool :=
  let f := String a (String b EmptyString) in
  match Py.int_opt f with
  | Some n => String.eqb (DateTime.pad2 n) f
  | None => false
  end.

Definition roundtrip4 (a b c d : ascii) : bool :=
  let f := String a (String b (String c (String d EmptyString))) in
  match Py.int_opt f with
  | Some n => (n <? 1000)%Z || String.eqb (DateTime.year_text n) f
  | None => false
  end.

End DateFields.

(** ** Sample documents *)

Module Samples.

Import Pdf Processor.

(** A stand-in for [hashlib.md5(...).hexdigest()]: the runs below that
    store an image need some digest, and no property depends on which. *)
Definition sample_digest (data : list Z) : string :=
  "5d41402abc4b2a76b9719d911017c592".

Definition images_dir : string := "./pdf_images".

Definition p (text : string) : Child := Element "p" text None.
Definition h (level : string) (text : string) : Child := Element ("h" +:+ level) text None.

Definition no_metadata : gmap string string := ∅.

(** Page 1 holds two paragraphs and no heading; page 2 starts with a
    heading. *)
Definition pdf_page_break : FitzDocument :=
  mk_pdf no_metadata
         [mk_page [] [p "X"; p "Y"];
          mk_page [] [h "1" "T"; p "Z"]].

(** One page with a table and one paragraph. *)
Definition name_table : Table := mk_table [Some "Name"; None; Some "Col2"] "{}".

Definition pdf_table_and_text : FitzDocument :=
  mk_pdf no_metadata [mk_page [name_table] [p "x"]].

(** One page with a table and no text. *)
Definition pdf_table_only : FitzDocument :=
  mk_pdf no_metadata [mk_page [name_table] []].

(** A document that ends with a level-2 heading and a paragraph. *)
Definition pdf_sub_tail : FitzDocument :=
  mk_pdf no_metadata [mk_page [] [h "1" "Top"; h "2" "Sub"; p "tail"]].

(** A level-1 heading whose text is empty, then two segments: one closed
    by a heading, one by the end of the input. *)
Definition pdf_empty_top : FitzDocument :=
  mk_pdf no_metadata [mk_page [] [h "1" ""; h "2" "A"; p "x"; h "2" "B"; p "y"]].

(** Two paragraphs, a heading and a paragraph over two pages. *)
Definition pdf_a_b : FitzDocument :=
  mk_pdf no_metadata
         [mk_page [] [p "A"];
          mk_page [] [p "B"; h "1" "T"; p "C"]].

(** A document information dictionary with a key named [titles]. *)
Definition pdf_titles_key : FitzDocument :=
  mk_pdf (<["titles" := "from the file"]>
            (<["creationDate" := "D:20230615143022+08'00'"]> ∅))
         [mk_page [] [p "a"]].

(** A paragraph whose image payload is not valid base64, and paragraphs
    without an embedded image. *)
Definition bad_image : Child :=
  Element "p" "caption" (Some (mk_tag (<["src" := "data:image/png;base64,QQ"]> ∅))).

Definition linked_image : Child :=
  Element "p" "caption" (Some (mk_tag (<["src" := "http://example.org/a.png"]> ∅))).

Definition good_image : Child :=
  Element "p" "caption" (Some (mk_tag (<["src" := "data:image/png;base64,aGVsbG8="]> ∅))).

Definition run (embed_titles exact_images : bool) (pdf : FitzDocument)
  : list (Langchain.Document * State) * Outcome :=
  process_pdf sample_digest embed_titles exact_images pdf (init images_dir).

End Samples.

(** ** Further vocabulary *)

Module ObserveMore.

Import Pdf Processor Observe.

(** No character of [s] is the path separator. *)
Fixpoint no_slash (s : string) : bool :=
  match s with
  | EmptyString => true
  | String c r => negb (Ascii.eqb c "/") && no_slash r
  end.

(** [s] ends with the path separator. *)
Definition ends_with_slash (s : string) : bool :=
  String.eqb (Py.slice_from s (String.length s - 1)) "/".

(** A document without the nodes that are neither headings nor [p]
    elements. *)
Definition relevant (c : Child) : bool :=
  match kind_of c with
  | KOther => false
  | _ => true
  end.

Definition drop_other_nodes (pdf : FitzDocument) : FitzDocument :=
  mk_pdf (Pdf.metadata pdf)
         (map (fun p => mk_page (tables p) (List.filter relevant (children p)))
              (pages pdf)).

(** The heading stack after the headings of a stream, in order. *)
Definition stack_after (cs : list Child) (titles : pylist) : pylist :=
  fold_left (fun t c =>
               match kind_of c with
               | KHeading level => new_titles level (get_text c) t
               | _ => t
               end) cs titles.

(** The number of headings of a stream. *)
Definition count_headings (cs : list Child) : nat :=
  length (List.filter (fun c => match kind_of c with KHeading _ => true | _ => false end) cs).

(** The titles and the images of a document read, in a later state, as at
    its [yield]. *)
Definition titles_images_kept (y : Langchain.Document * State) (st : State) : Prop :=
  list_entry "titles" y.1 st = list_entry "titles" y.1 y.2
  ∧ list_entry "images" y.1 st = list_entry "images" y.1 y.2.

(** The images list is empty and the files are those of [st0]. *)
Definition no_image_since (st0 st : State) : Prop :=
  wf st
  ∧ deref st (image_paths st) = []
  ∧ fs_files st = fs_files st0 ∧ fs_dirs st = fs_dirs st0.

(** The image paths of a yielded document, read at its [yield]. *)
Definition yielded_images (y : Langchain.Document * State) : pylist :=
  default [] (images_of y.1 y.2).

(** The path stored for a child when images are extracted: that of a [p]
    element whose image is found and named. *)
Definition stored_path (md5_hexdigest : list Z -> string) (dir : string) (c : Child)
  : option (option string) :=
  match kind_of c with
  | KParagraph =>
      match embedded_image_path md5_hexdigest dir c with
      | Ok (Some path) => if Py.truthy (Some path) then Some (Some path) else None
      | _ => None
      end
  | _ => None
  end.

(** The payload of a data URL: what follows [;base64,] in a [src] that
    starts with [data:image/]. *)
Definition data_url_payload (src : string) : option string :=
  if Py.startswith src data_url_prefix then
    match Py.find src data_url_suffix 0 with
    | Some data_url_end =>
        Some (Py.slice_from src (data_url_end + String.length data_url_suffix))
    | None => None
    end
  else None.

(** The paths stored for the children of a stream, in order. *)
Definition stored_images (md5_hexdigest : list Z -> string) (dir : string)
           (cs : list Child) : pylist :=
  omap (stored_path md5_hexdigest dir) cs.

(** The fifteen characters [-MM-DD HH:MM:SS]: digits but for the five
    separators. *)
Definition date_tail (s : string) : bool :=
  match s with
  | String "-" (String m1 (String m2 (String "-"
      (String d1 (String d2 (String " "
      (String h1 (String h2 (String ":"
      (String n1 (String n2 (String ":"
      (String s1 (String s2 EmptyString)))))))))))))) =>
      forallb Py.isdigit [m1; m2; d1; d2; h1; h2; n1; n2; s1; s2]
  | _ => false
  end.

(** A year of one digit and at most [more] further ones, then
    [-MM-DD HH:MM:SS]. *)
Fixpoint year_then_tail (more : nat) (s : string) : bool :=
  match s with
  | String c r =>
      Py.isdigit c
      && (date_tail r
          || match more with
             | S k => year_then_tail k r
             | O => false
             end)
  | EmptyString => false
  end.

(** The shape [Y-MM-DD HH:MM:SS], the year on one to four digits. *)
Definition date_shape (s : string) : bool := year_then_tail 3 s.

(** What [strftime] writes after the year. *)
Definition date_tail_text (mo d h mi se : Z) : string :=
  "-" +:+ DateTime.pad2 mo +:+ "-" +:+ DateTime.pad2 d +:+ " "
  +:+ DateTime.pad2 h +:+ ":" +:+ DateTime.pad2 mi +:+ ":" +:+ DateTime.pad2 se.

(** [int] rejects the literal. *)
Definition rejected (f : string) : bool :=
  match Py.int_opt f with
  | None => true
  | Some _ => false
  end.

(** The characters 2 to 5 of a converted date, for a year of four or one,
    of three and of two digits: digits around a dash. *)
Definition year_field_rejected (a b c : ascii) : bool :=
  rejected (String a (String b (String "-" (String c EmptyString))))
  && rejected (String a (String "-" (String b (String c EmptyString))))
  && rejected (String "-" (String a (String b (String "-" EmptyString)))).

End ObserveMore.

(** ** Further sample documents *)

Module SamplesMore.

Import Pdf Processor Agent Samples.

(** Headings and a table, no [p] element. *)
Definition pdf_headings_only : FitzDocument :=
  mk_pdf no_metadata [mk_page [name_table] [h "1" "Top"; h "2" "Sub"]].

(** An embedded image, text, a heading and a linked image. *)
Definition pdf_with_images : FitzDocument :=
  mk_pdf no_metadata [mk_page [] [good_image; p "text"; h "1" "T"; linked_image]].

(** The processor after some text was accumulated. *)
Definition with_text : State := set_accumulated_text "x" (init images_dir).

(** The [img] of [good_image], the path of its file and the processor
    after the file was written. *)
Definition good_tag : Tag := mk_tag (<["src" := "data:image/png;base64,aGVsbG8="]> ∅).

Definition stored_file : string := "./pdf_images/5d41402abc4b2a76b9719d911017c592.png".

Definition stored_state : State :=
  match _check_and_decode_base64_image sample_digest (Some good_tag) (init images_dir) with
  | Ok (_, st) => st
  | Raise _ => init images_dir
  end.

(** [fitz.open] when every path holds the sample document, and the agent
    of [main]. *)
Definition sample_open (path : string) : FitzDocument := pdf_a_b.

Definition sample_agent : PDFSplitAgent := new_agent "test.pdf".

(** A date as PDF writes it, and as [_convert_pdf_date] returns it. *)
Definition pdf_date : string := "D:20230615143022+08'00'".

Definition converted_date : string := "2023-06-15 14:30:22".

(** A date of the year 999, and as [_convert_pdf_date] returns it. *)
Definition pdf_date_999 : string := "D:09990615143022".

Definition converted_date_999 : string := "999-06-15 14:30:22".

(** A processor whose directory of images has the empty name. *)
Definition no_directory : State := init "".

End SamplesMore.
(** * Properties *)

Module ProcessorFacts.

Import Pdf Processor Observe.

(** ** The store: reading after writing *)

Lemma deref_assign_eq (st : State) (l : nat) (v : pylist) :
  l < length (store st) -> deref (assign l v st) l = v.
Proof.
  intros Hl. unfold deref, assign. simpl.
  by rewrite list_lookup_insert_eq.
Qed.

Lemma deref_assign_ne (st : State) (l l' : nat) (v : pylist) :
  l ≠ l' -> deref (assign l v st) l' = deref st l'.
Proof.
  intros Hne. unfold deref, assign. simpl.
  by rewrite list_lookup_insert_ne.
Qed.

Lemma length_store_assign (st : State) (l : nat) (v : pylist) :
  length (store (assign l v st)) = length (store st).
Proof. unfold assign. simpl. apply length_insert. Qed.

Lemma deref_alloc_old (st : State) (v : pylist) (l : nat) :
  l < length (store st) -> deref (alloc v st).2 l = deref st l.
Proof.
  intros Hl. unfold deref, alloc. simpl. by rewrite lookup_app_l.
Qed.

Lemma deref_alloc_new (st : State) (v : pylist) :
  deref (alloc v st).2 (alloc v st).1 = v.
Proof.
  unfold deref, alloc. simpl.
  rewrite lookup_app_r by lia. by rewrite Nat.sub_diag.
Qed.

Lemma length_store_alloc (st : State) (v : pylist) :
  length (store (alloc v st).2) = S (length (store st)).
Proof. unfold alloc. simpl. rewrite length_app. simpl. lia. Qed.


Lemma wf_init (dir : string) : wf (init dir).
Proof. split; simpl; try lia; reflexivity. Qed.

Lemma wf_set_file_metadata (md : gmap string string) (st : State) :
  wf st -> wf (set_file_metadata md st).
Proof. intros [? ? ? ? ? ? ?]. by split. Qed.

Lemma wf_set_accumulated_text (s : string) (st : State) :
  wf st -> wf (set_accumulated_text s st).
Proof. intros [? ? ? ? ? ? ?]. by split. Qed.

Lemma wf_set_fs (d : gset string) (f : gmap string (list Z)) (st : State) :
  wf st -> wf (set_fs d f st).
Proof. intros [? ? ? ? ? ? ?]. by split. Qed.

Lemma wf_assign (l : nat) (v : pylist) (st : State) :
  wf st -> (l = text_titles st -> length v = 6) -> wf (assign l v st).
Proof.
  intros [H1 H2 H3 H4 H5 H6 H7] Hv.
  split; rewrite ?length_store_assign; try done.
  change (text_titles (assign l v st)) with (text_titles st).
  destruct (decide (l = text_titles st)) as [->|Hne].
  - rewrite deref_assign_eq; auto.
  - by rewrite deref_assign_ne.
Qed.

Lemma wf_alloc (v : pylist) (st : State) : wf st -> wf (alloc v st).2.
Proof.
  intros [H1 H2 H3 H4 H5 H6 H7].
  split; rewrite ?length_store_alloc; try done; try (simpl; lia).
  change (text_titles (alloc v st).2) with (text_titles st).
  by rewrite deref_alloc_old.
Qed.

Lemma wf_after_yield (st : State) : wf st -> wf (after_yield st).
Proof.
  intros Hwf. pose proof Hwf as [H1 H2 H3 H4 H5 H6 H7].
  unfold after_yield.
  apply wf_assign.
  - split; simpl; rewrite ?length_app; simpl; try lia; try done.
    unfold deref. simpl. rewrite lookup_app_l by done. exact H7.
  - simpl. intros Heq. congruence.
Qed.

Lemma wf_append_table_text (t : string) (st : State) :
  wf st -> wf (append_table_text t st).
Proof.
  intros Hwf. apply wf_assign; [done|].
  intros Heq. destruct Hwf. congruence.
Qed.

(** ** Heading levels *)

Lemma heading_level_range (name : string) (level : nat) :
  heading_level name = Some level -> 1 <= level <= 6.
Proof.
  unfold heading_level. case_bool_decide as Hin; [|done].
  unfold heading_names in Hin.
  repeat (apply elem_of_cons in Hin as [-> | Hin];
          [vm_compute; intros [= <-]; lia|]).
  by apply elem_of_nil in Hin.
Qed.


Lemma new_titles_length (level : nat) (text : string) (t : pylist) :
  length t = 6 -> 1 <= level <= 6 -> length (new_titles level text t) = 6.
Proof.
  intros Ht Hl. unfold new_titles, list_set_tail.
  rewrite length_app, length_take, length_insert, length_replicate. lia.
Qed.

Lemma new_titles_at (level : nat) (text : string) (t : pylist) :
  length t = 6 -> 1 <= level <= 6 ->
  new_titles level text t !! (level - 1) = Some (Some text).
Proof.
  intros Ht Hl. unfold new_titles, list_set_tail.
  rewrite lookup_app_l by (rewrite length_take, length_insert; lia).
  rewrite lookup_take_lt by lia.
  apply list_lookup_insert_eq. lia.
Qed.

Lemma new_titles_deeper (level : nat) (text : string) (t : pylist) (j : nat) :
  length t = 6 -> 1 <= level <= 6 -> level <= j < 6 ->
  new_titles level text t !! j = Some None.
Proof.
  intros Ht Hl Hj. unfold new_titles, list_set_tail.
  rewrite lookup_app_r by (rewrite length_take, length_insert; lia).
  rewrite length_take, length_insert.
  apply lookup_replicate_2. lia.
Qed.

Lemma new_titles_shallower (level : nat) (text : string) (t : pylist) (j : nat) :
  length t = 6 -> 1 <= level <= 6 -> j < level - 1 ->
  new_titles level text t !! j = t !! j.
Proof.
  intros Ht Hl Hj. unfold new_titles, list_set_tail.
  rewrite lookup_app_l by (rewrite length_take, length_insert; lia).
  rewrite lookup_take_lt by lia.
  apply list_lookup_insert_ne. lia.
Qed.

Lemma apply_heading_ok (level : nat) (text : string) (st : State) :
  wf st -> 1 <= level <= 6 ->
  apply_heading level text st
  = Ok (assign (text_titles st) (new_titles level text (deref st (text_titles st))) st).
Proof.
  intros Hwf Hl. unfold apply_heading, list_setitem.
  destruct Hwf as [_ _ _ _ _ _ Hsix]. rewrite Hsix.
  replace (level - 1 <? 6)%nat with true by (symmetry; apply Nat.ltb_lt; lia).
  reflexivity.
Qed.

Lemma wf_apply_heading (level : nat) (text : string) (st : State) :
  wf st -> 1 <= level <= 6 ->
  wf (assign (text_titles st) (new_titles level text (deref st (text_titles st))) st).
Proof.
  intros Hwf Hl. apply wf_assign; [done|].
  intros _. apply new_titles_length; [apply Hwf | done].
Qed.

Section WithDigest.

Variable md5_hexdigest : list Z -> string.
Variables embed_titles exact_images : bool.

Local Abbreviation handle_child := (handle_child md5_hexdigest embed_titles exact_images).
Local Abbreviation children_loop := (children_loop md5_hexdigest embed_titles exact_images).
Local Abbreviation pages_loop := (pages_loop md5_hexdigest embed_titles exact_images).
Local Abbreviation process_pdf := (process_pdf md5_hexdigest embed_titles exact_images).



Lemma handle_child_kind (c : Child) (st : State) :
  wf st ->
  handle_child c st =
  match kind_of c with
  | KHeading level =>
      let st1 := headed level (get_text c) st in
      if negb (String.eqb (accumulated_text st) "") then
        match heading_document embed_titles level st1 with
        | Ok (d, st2) => Yield d st2
        | Raise e => Fail e st1
        end
      else Next st1
  | KParagraph =>
      match handle_paragraph md5_hexdigest exact_images c st with
      | Ok st1 => Next st1
      | Raise e => Fail e st
      end
  | KOther => Next st
  end.
Proof.
  intros Hwf. unfold Processor.handle_child, kind_of.
  destruct (name_of c) as [name|]; [|done].
  destruct (heading_level name) as [level|] eqn:Hlevel.
  - rewrite apply_heading_ok by eauto using heading_level_range. reflexivity.
  - by destruct (String.eqb name "p").
Qed.

Lemma kind_heading_range (c : Child) (level : nat) :
  kind_of c = KHeading level -> 1 <= level <= 6.
Proof.
  unfold kind_of. destruct (name_of c) as [name|]; [|done].
  destruct (heading_level name) as [l|] eqn:Hl.
  - intros [= <-]. eauto using heading_level_range.
  - by destruct (String.eqb name "p").
Qed.

Lemma wf_headed (level : nat) (text : string) (st : State) :
  wf st -> 1 <= level <= 6 -> wf (headed level text st).
Proof. apply wf_apply_heading. Qed.

(** ** What [heading_document] builds *)


Lemma heading_document_inv (level : nat) (st : State) (d : Langchain.Document) (st2 : State) :
  wf st ->
  heading_document embed_titles level st = Ok (d, st2) ->
  st2 = heading_yield_state level st
  ∧ Langchain.metadata d
    = merged_metadata (file_metadata st) (length (store st)) (image_paths st)
                      (S (length (store st)))
  ∧ (if embed_titles then
       exists ts, take level (deref st (text_titles st)) = Some <$> ts
                  ∧ Langchain.page_content d
                    = Py.join nl ts +:+ nl +:+ nl +:+ accumulated_text st
     else Langchain.page_content d = accumulated_text st).
Proof.
  intros Hwf. unfold heading_document, heading_yield_state, merged_metadata.
  assert (Hderef : deref (alloc (take level (deref st (text_titles st))) st).2
                     (table_text_list st) = deref st (table_text_list st))
    by (apply deref_alloc_old, Hwf).
  assert (Hlen : length (store st ++ [take level (deref st (text_titles st))])
                 = S (length (store st)))
    by (rewrite length_app; simpl; lia).
  destruct embed_titles.
  - unfold Py.join_items.
    destruct (mapM id (take level (deref st (text_titles st)))) as [ts|] eqn:Hts;
      simpl; [|done].
    intros [= <- <-]. simpl. split_and!.
    + f_equal. simpl in Hderef. by rewrite Hderef.
    + by rewrite Hlen.
    + exists ts. split; [|done].
      apply mapM_Some in Hts. clear -Hts.
      induction Hts as [|x y l k Hxy _ IH]; [done|].
      simpl in Hxy. subst x. simpl. by f_equal.
  - simpl. intros [= <- <-]. simpl. split_and!; [|by rewrite Hlen|done].
    f_equal. simpl in Hderef. by rewrite Hderef.
Qed.

Lemma wf_heading_yield_state (level : nat) (st : State) :
  wf st -> wf (heading_yield_state level st).
Proof. intros Hwf. unfold heading_yield_state. by do 2 apply wf_alloc. Qed.

(** ** After a [yield] *)

Lemma deref_after_yield_tables (st : State) :
  wf st -> deref (after_yield st) (table_text_list (after_yield st)) = [].
Proof.
  intros Hwf. unfold after_yield. simpl.
  rewrite deref_assign_eq; [done|].
  simpl. rewrite length_app. destruct Hwf. simpl. lia.
Qed.

Lemma deref_after_yield_other (st : State) (l : nat) :
  l < length (store st) -> l ≠ table_text_list st ->
  deref (after_yield st) l = deref st l.
Proof.
  intros Hl Hne. unfold after_yield. simpl.
  rewrite deref_assign_ne by done.
  unfold deref. simpl. by rewrite lookup_app_l.
Qed.

Lemma deref_after_yield_titles (st : State) :
  wf st -> deref (after_yield st) (text_titles (after_yield st)) = deref st (text_titles st).
Proof.
  intros Hwf. change (text_titles (after_yield st)) with (text_titles st).
  apply deref_after_yield_other; apply Hwf.
Qed.

Lemma accumulated_text_after_yield (st : State) : accumulated_text (after_yield st) = "".
Proof. reflexivity. Qed.

Lemma file_metadata_after_yield (st : State) :
  file_metadata (after_yield st) = file_metadata st.
Proof. reflexivity. Qed.

(** ** The state at the [yield] of a heading *)

Lemma deref_heading_yield_state (level : nat) (st : State) (l : nat) :
  l < length (store st) -> deref (heading_yield_state level st) l = deref st l.
Proof.
  intros Hl. unfold heading_yield_state.
  rewrite deref_alloc_old by (rewrite length_store_alloc; lia).
  by rewrite deref_alloc_old.
Qed.

Lemma deref_heading_yield_titles (level : nat) (st : State) :
  deref (heading_yield_state level st) (length (store st))
  = take level (deref st (text_titles st)).
Proof.
  unfold heading_yield_state.
  rewrite deref_alloc_old by (rewrite length_store_alloc; lia).
  apply deref_alloc_new.
Qed.

Lemma deref_heading_yield_table (level : nat) (st : State) :
  deref (heading_yield_state level st) (S (length (store st)))
  = deref st (table_text_list st).
Proof.
  unfold heading_yield_state, deref, alloc. simpl.
  rewrite lookup_app_r by (rewrite length_app; simpl; lia).
  rewrite length_app. simpl.
  replace (S (length (store st)) - (length (store st) + 1)) with 0 by lia.
  reflexivity.
Qed.

(** ** The state a heading leaves behind *)

Lemma deref_headed_titles (level : nat) (text : string) (st : State) :
  wf st ->
  deref (headed level text st) (text_titles st)
  = new_titles level text (deref st (text_titles st)).
Proof. intros Hwf. unfold headed. apply deref_assign_eq, Hwf. Qed.

Lemma deref_headed_other (level : nat) (text : string) (st : State) (l : nat) :
  l ≠ text_titles st -> deref (headed level text st) l = deref st l.
Proof. intros Hne. unfold headed. by apply deref_assign_ne. Qed.

(** ** Paragraphs *)

(** Lines 71-72 either raise, for the empty directory name, or leave the
    directory among the directories of the state. *)
Lemma ensure_directory (st : State) :
  (if negb (os_path_exists (pdf_images_dir st) st)
   then os_makedirs (pdf_images_dir st) st else Ok st)
  = if String.eqb (pdf_images_dir st) "" then Raise FileNotFoundError
    else Ok (set_fs (fs_dirs st ∪ {[ pdf_images_dir st ]}) (fs_files st) st).
Proof.
  unfold os_path_exists, os_makedirs.
  destruct (String.eqb (pdf_images_dir st) ""); [done|].
  cbn [negb andb]. case_bool_decide as Hin; cbn [negb]; [|done].
  f_equal. replace (fs_dirs st ∪ {[pdf_images_dir st]}) with (fs_dirs st).
  - by destruct st.
  - rewrite (comm_L (∪)). symmetry. apply subseteq_union_1_L.
    by apply singleton_subseteq_l.
Qed.

(** The function with lines 71-72 and 78-79 in one step. *)
Lemma check_and_decode_unfold (img_tag : option Tag) (st : State) :
  _check_and_decode_base64_image md5_hexdigest img_tag st
  = match img_tag with
    | None => Ok (None, st)
    | Some tag =>
        do src <- getitem tag "src";
        if negb (Py.startswith src data_url_prefix) then Ok (None, st)
        else
          match Py.find src data_url_prefix 0 with
          | None => Ok (None, st)
          | Some a =>
              match Py.find src data_url_suffix a with
              | None => Ok (None, st)
              | Some b =>
                  do data <- Base64.b64decode
                               (Py.slice_from src (b + String.length data_url_suffix));
                  if String.eqb (pdf_images_dir st) "" then Raise FileNotFoundError
                  else
                    let path :=
                      path_join (pdf_images_dir st)
                        (md5_hexdigest data +:+ "." +:+
                         Py.split_last "/"
                           (Py.slice src (a + String.length data_url_prefix) b)) in
                    Ok (Some path,
                        set_fs (fs_dirs st ∪ {[ pdf_images_dir st ]})
                               (<[path := data]> (fs_files st)) st)
              end
          end
    end.
Proof.
  unfold _check_and_decode_base64_image.
  destruct img_tag as [tag|]; [|done].
  destruct (getitem tag "src") as [src|]; cbn [rbind]; [|done].
  destruct (negb (Py.startswith src data_url_prefix)); [done|].
  destruct (Py.find src data_url_prefix 0) as [a|]; [|done].
  destruct (Py.find src data_url_suffix a) as [b|]; [|done].
  destruct (Base64.b64decode _) as [data|]; cbn [rbind]; [|done].
  rewrite ensure_directory.
  by destruct (String.eqb (pdf_images_dir st) "").
Qed.

Lemma check_and_decode_frame (tag : option Tag) (st : State)
      (r : option string) (st' : State) :
  _check_and_decode_base64_image md5_hexdigest tag st = Ok (r, st') ->
  exists d f, st' = set_fs d f st.
Proof.
  assert (Hid : st = set_fs (fs_dirs st) (fs_files st) st) by by destruct st.
  unfold _check_and_decode_base64_image.
  destruct tag as [tag|]; [|intros [= <- <-]; eauto].
  destruct (getitem tag "src") as [src|]; simpl; [|done].
  destruct (negb (Py.startswith src data_url_prefix)); [intros [= <- <-]; eauto|].
  destruct (Py.find src data_url_prefix 0) as [a|]; [|intros [= <- <-]; eauto].
  destruct (Py.find src data_url_suffix a) as [b|]; [|intros [= <- <-]; eauto].
  destruct (Base64.b64decode _) as [data|]; cbn [rbind]; [|done].
  rewrite ensure_directory.
  destruct (String.eqb (pdf_images_dir st) ""); cbn [rbind]; [done|].
  intros [= <- <-]. unfold write_file. eauto.
Qed.

(** A paragraph that is handled either adds its text or adds the path of
    its image; the lists other than [image_paths] are left alone. *)
Lemma handle_paragraph_inv (c : Child) (st st1 : State) :
  handle_paragraph md5_hexdigest exact_images c st = Ok st1 ->
  exists d f,
    st1 = set_accumulated_text (accumulated_text st +:+ get_text c) (set_fs d f st)
    ∨ (exact_images = true
       ∧ exists path, st1 = assign (image_paths st)
                                   (deref st (image_paths st) ++ [Some path])
                                   (set_fs d f st)).
Proof.
  unfold handle_paragraph. destruct exact_images.
  - destruct (_check_and_decode_base64_image md5_hexdigest (find_img c) st)
      as [[r st']|] eqn:Hdec; simpl; [|done].
    apply check_and_decode_frame in Hdec as (d & f & ->).
    intros Hst1. exists d, f. destruct r as [path|]; simpl in Hst1.
    + destruct (negb (String.eqb path "")); injection Hst1 as <-; [right|left]; eauto.
    + injection Hst1 as <-. by left.
  - intros [= <-]. exists (fs_dirs st), (fs_files st). left. by destruct st.
Qed.

Lemma wf_handle_paragraph (c : Child) (st st1 : State) :
  wf st -> handle_paragraph md5_hexdigest exact_images c st = Ok st1 -> wf st1.
Proof.
  intros Hwf Hp. apply handle_paragraph_inv in Hp as (d & f & [-> | (_ & path & ->)]).
  - by apply wf_set_accumulated_text, wf_set_fs.
  - apply wf_assign; [by apply wf_set_fs|].
    simpl. intros Heq. destruct Hwf. congruence.
Qed.

Lemma titles_handle_paragraph (c : Child) (st st1 : State) :
  wf st -> handle_paragraph md5_hexdigest exact_images c st = Ok st1 ->
  text_titles st1 = text_titles st
  ∧ deref st1 (text_titles st1) = deref st (text_titles st).
Proof.
  intros Hwf Hp. apply handle_paragraph_inv in Hp as (d & f & [-> | (_ & path & ->)]).
  - done.
  - split; [done|]. simpl. rewrite deref_assign_ne; [done|].
    simpl. destruct Hwf. congruence.
Qed.

(** ** One child *)

Lemma wf_handle_child (c : Child) (st : State) :
  wf st -> wf (step_state (handle_child c st)).
Proof.
  intros Hwf. rewrite handle_child_kind by done.
  destruct (kind_of c) as [level| |] eqn:Hk; [| |done].
  - pose proof (kind_heading_range _ _ Hk) as Hl. simpl.
    pose proof (wf_headed level (get_text c) st Hwf Hl) as Hwf1.
    destruct (negb _); [|done].
    destruct (heading_document _ _ _) as [[d st2]|] eqn:Hd; [|done].
    apply heading_document_inv in Hd as (-> & _); [|done].
    by apply wf_heading_yield_state.
  - destruct (handle_paragraph _ _ _ _) as [st1|] eqn:Hp; [|done].
    simpl. eauto using wf_handle_paragraph.
Qed.

(** ** The fields a child never changes *)

Lemma frame_handle_child (c : Child) (st : State) :
  wf st ->
  let st' := step_state (handle_child c st) in
  file_metadata st' = file_metadata st
  ∧ pdf_images_dir st' = pdf_images_dir st
  ∧ text_titles st' = text_titles st
  ∧ table_text_list st' = table_text_list st
  ∧ image_paths st' = image_paths st.
Proof.
  intros Hwf. rewrite handle_child_kind by done.
  destruct (kind_of c) as [level| |] eqn:Hk; [| |done].
  - simpl. destruct (negb _); [|done].
    destruct (heading_document _ _ _) as [[d st2]|] eqn:Hd; [|done].
    apply heading_document_inv in Hd as (-> & _); [done|].
    eauto using wf_headed, kind_heading_range.
  - destruct (handle_paragraph _ _ _ _) as [st1|] eqn:Hp; [|done].
    apply handle_paragraph_inv in Hp as (d & f & [-> | (_ & path & ->)]); done.
Qed.

(** The heading stack after one child. *)
Lemma titles_handle_child (c : Child) (st : State) :
  wf st ->
  let st' := step_state (handle_child c st) in
  deref st' (text_titles st')
  = match kind_of c with
    | KHeading level => new_titles level (get_text c) (deref st (text_titles st))
    | _ => deref st (text_titles st)
    end.
Proof.
  intros Hwf. cbv zeta. rewrite handle_child_kind by done.
  destruct (kind_of c) as [level| |] eqn:Hk; [| |done].
  - pose proof (kind_heading_range _ _ Hk) as Hl.
    pose proof (wf_headed level (get_text c) st Hwf Hl) as Hwf1.
    cbv zeta.
    destruct (negb _); cbn [step_state]; [|exact (deref_headed_titles _ _ _ Hwf)].
    destruct (heading_document _ _ _) as [[d st2]|] eqn:Hd; cbn [step_state];
      [|exact (deref_headed_titles _ _ _ Hwf)].
    apply heading_document_inv in Hd as (-> & _); [|done].
    change (text_titles (heading_yield_state level (headed level (get_text c) st)))
      with (text_titles st).
    rewrite deref_heading_yield_state; [exact (deref_headed_titles _ _ _ Hwf)|].
    unfold headed. rewrite length_store_assign. apply Hwf.
  - destruct (handle_paragraph _ _ _ _) as [st1|] eqn:Hp; [|done].
    cbn [step_state]. by apply (titles_handle_paragraph c st st1).
Qed.

(** ** Reading the merged metadata *)

Lemma merged_lookup_file (md : gmap string string) (lt li ltab : nat) (k v : string) :
  md !! k = Some v -> merged_metadata md lt li ltab !! k = Some (Langchain.VStr v).
Proof.
  intros Hk. unfold merged_metadata.
  apply lookup_union_Some_l. by rewrite lookup_fmap, Hk.
Qed.

Lemma merged_lookup_computed (md : gmap string string) (lt li ltab : nat) (k : string) :
  md !! k = None ->
  merged_metadata md lt li ltab !! k
  = (<["table" := Langchain.VList ltab]>
       (<["images" := Langchain.VList li]>
          (<["titles" := Langchain.VList lt]> (∅ : gmap string Langchain.Value)))) !! k.
Proof.
  intros Hk. unfold merged_metadata.
  apply lookup_union_r. by rewrite lookup_fmap, Hk.
Qed.

Lemma merged_lookup_titles (md : gmap string string) (lt li ltab : nat) :
  md !! "titles" = None ->
  merged_metadata md lt li ltab !! "titles" = Some (Langchain.VList lt).
Proof. intros Hk. by rewrite merged_lookup_computed. Qed.

Lemma merged_lookup_images (md : gmap string string) (lt li ltab : nat) :
  md !! "images" = None ->
  merged_metadata md lt li ltab !! "images" = Some (Langchain.VList li).
Proof. intros Hk. by rewrite merged_lookup_computed. Qed.

Lemma merged_lookup_table (md : gmap string string) (lt li ltab : nat) :
  md !! "table" = None ->
  merged_metadata md lt li ltab !! "table" = Some (Langchain.VList ltab).
Proof. intros Hk. by rewrite merged_lookup_computed. Qed.

Lemma final_document_metadata (st : State) :
  Langchain.metadata (final_document embed_titles st)
  = merged_metadata (file_metadata st) (text_titles st) (image_paths st)
                    (table_text_list st).
Proof. reflexivity. Qed.

(** ** What a heading yields *)

(** When a heading closes a segment, the document and the state at its
    [yield] are determined by the state the heading left behind. *)
Lemma handle_child_yield (c : Child) (st : State) (d : Langchain.Document) (st' : State) :
  wf st -> handle_child c st = Yield d st' ->
  exists level,
    kind_of c = KHeading level
    ∧ accumulated_text st ≠ ""
    ∧ let st1 := headed level (get_text c) st in
      st' = heading_yield_state level st1
      ∧ heading_document embed_titles level st1 = Ok (d, st').
Proof.
  intros Hwf. rewrite handle_child_kind by done.
  destruct (kind_of c) as [level| |] eqn:Hk.
  - pose proof (kind_heading_range _ _ Hk) as Hl. simpl.
    destruct (String.eqb (accumulated_text st) "") eqn:Hacc; simpl; [done|].
    apply String.eqb_neq in Hacc.
    destruct (heading_document _ _ _) as [[d2 st2]|] eqn:Hd; [|done].
    intros [= <- <-]. exists level. split_and!; try done.
    apply heading_document_inv in Hd as (-> & _); [done|].
    by apply wf_headed.
  - by destruct (handle_paragraph _ _ _ _).
  - done.
Qed.

(** ** Invariants of the loops

    An invariant [I] of the states kept by every state change, and a
    property [P] of every document at its [yield]. *)

Section Invariant.

Variable I : State -> Prop.
Variable P : Langchain.Document -> State -> Prop.

Hypothesis I_step : ∀ c st, I st -> I (step_state (handle_child c st)).
Hypothesis I_resume : ∀ st, I st -> I (after_yield st).
Hypothesis I_page : ∀ t st, I st -> I (append_table_text t st).
Hypothesis P_yield : ∀ c st d st', I st -> handle_child c st = Yield d st' -> P d st'.

Lemma children_loop_invariant (cs : list Child) (st : State) :
  I st ->
  Forall (fun y => P y.1 y.2) (children_loop cs st).1
  ∧ I (outcome_state (children_loop cs st).2).
Proof.
  revert st. induction cs as [|c cs IH]; intros st HI; simpl; [by split|].
  pose proof (I_step c st HI) as Hstep.
  pose proof (P_yield c st) as Hyield.
  destruct (handle_child c st) as [st1|d st1|e st1]; simpl in *.
  - by apply IH.
  - destruct (IH (after_yield st1) (I_resume _ Hstep)) as [IH1 IH2].
    destruct (children_loop cs (after_yield st1)) as [ys o]. simpl in *.
    split; [|done]. constructor; [|done]. simpl. by eapply Hyield.
  - by split.
Qed.

Lemma pages_loop_invariant (ps : list Page) (st : State) :
  I st ->
  Forall (fun y => P y.1 y.2) (pages_loop ps st).1
  ∧ I (outcome_state (pages_loop ps st).2).
Proof.
  revert st. induction ps as [|p ps IH]; intros st HI; simpl; [by split|].
  destruct (children_loop_invariant (children p)
              (append_table_text (page_table_text p) st) (I_page _ _ HI)) as [H1 H2].
  destruct (children_loop _ _) as [ys [st2|e st2]]; simpl in *; [|by split].
  destruct (IH st2 H2) as [H3 H4].
  destruct (pages_loop ps st2) as [ys' o]. simpl in *.
  split; [|done]. by apply Forall_app.
Qed.

Hypothesis P_final :
  ∀ st, I st -> accumulated_text st ≠ "" -> P (final_document embed_titles st) st.

Lemma process_pdf_invariant (pdf : FitzDocument) (st0 : State) :
  (∀ md, convert_dates (Pdf.metadata pdf) = Ok md -> I (set_file_metadata md st0)) ->
  Forall (fun y => P y.1 y.2) (process_pdf pdf st0).1.
Proof.
  intros Hmd. unfold Processor.process_pdf.
  destruct (convert_dates (Pdf.metadata pdf)) as [md|]; [|by constructor].
  destruct (pages_loop_invariant (pages pdf) (set_file_metadata md st0) (Hmd md eq_refl))
    as [H1 H2].
  destruct (pages_loop _ _) as [ys [st1|e st1]]; simpl in *; [|done].
  unfold final_flush.
  destruct (String.eqb (accumulated_text st1) "") eqn:Hacc; simpl.
  - by rewrite app_nil_r.
  - apply String.eqb_neq in Hacc. apply Forall_app. split; [done|].
    constructor; [|done]. simpl. by apply P_final.
Qed.

End Invariant.

Lemma wf_append_page (t : string) (st : State) : wf st -> wf (append_table_text t st).
Proof. apply wf_append_table_text. Qed.

(** Every state met during a run from a well-formed state is well-formed. *)
Lemma process_pdf_wf (pdf : FitzDocument) (st0 : State) :
  wf st0 -> Forall (fun y => wf y.2) (process_pdf pdf st0).1.
Proof.
  intros Hwf.
  apply (process_pdf_invariant wf (fun _ st => wf st)); auto using wf_handle_child,
    wf_after_yield, wf_append_table_text, wf_set_file_metadata.
  intros c st d st' Hst Hy. pose proof (wf_handle_child c st Hst) as H.
  by rewrite Hy in H.
Qed.

(** ** The heading hierarchy *)

Lemma hierarchy_new_titles (level : nat) (text : string) (st st' : State) :
  wf st -> 1 <= level <= 6 ->
  deref st' (text_titles st') = new_titles level text (deref st (text_titles st)) ->
  hierarchy (Some (level, text)) st'.
Proof.
  intros Hwf Hl Heq. unfold hierarchy. rewrite Heq.
  pose proof (wf_six st Hwf) as Hsix.
  split_and!; [lia | lia | by apply new_titles_at |].
  intros j Hj. by apply new_titles_deeper.
Qed.

Lemma hierarchy_same_titles (last : option (nat * string)) (st st' : State) :
  deref st' (text_titles st') = deref st (text_titles st) ->
  hierarchy last st -> hierarchy last st'.
Proof. intros Heq. unfold hierarchy. by rewrite Heq. Qed.

Lemma titles_append_table_text (t : string) (st : State) :
  wf st ->
  deref (append_table_text t st) (text_titles (append_table_text t st))
  = deref st (text_titles st).
Proof.
  intros Hwf. unfold append_table_text.
  change (text_titles (assign _ _ st)) with (text_titles st).
  apply deref_assign_ne. destruct Hwf. congruence.
Qed.

Lemma reach_wf_hierarchy (last : option (nat * string)) (st : State) :
  reach md5_hexdigest embed_titles exact_images last st -> wf st ∧ hierarchy last st.
Proof.
  induction 1 as [st Hwf | last md st _ [IH1 IH2] | last t st _ [IH1 IH2]
                 | last c st _ [IH1 IH2] | last st _ [IH1 IH2]].
  - by split.
  - split; [by apply wf_set_file_metadata | done].
  - split; [by apply wf_append_table_text|].
    eapply hierarchy_same_titles; [|done]. by apply titles_append_table_text.
  - split; [by apply wf_handle_child|].
    pose proof (titles_handle_child c st IH1) as Ht. cbv zeta in Ht.
    unfold last_heading.
    destruct (kind_of c) as [level| |] eqn:Hk.
    + eapply hierarchy_new_titles; eauto using kind_heading_range.
    + by eapply hierarchy_same_titles.
    + by eapply hierarchy_same_titles.
  - split; [by apply wf_after_yield|].
    eapply hierarchy_same_titles; [|done]. by apply deref_after_yield_titles.
Qed.

(** The states of a run are among the reachable ones. *)
Lemma process_pdf_reach (pdf : FitzDocument) (st0 : State) :
  wf st0 ->
  Forall (fun y => exists last, reach md5_hexdigest embed_titles exact_images last y.2)
         (process_pdf pdf st0).1.
Proof.
  intros Hwf.
  apply (process_pdf_invariant
           (fun st => exists last, reach md5_hexdigest embed_titles exact_images last st)
           (fun _ st => exists last, reach md5_hexdigest embed_titles exact_images last st)).
  - intros c st [last Hr]. eexists. by apply reach_child.
  - intros st [last Hr]. eexists. by apply reach_resume.
  - intros t st [last Hr]. eexists. by apply reach_page.
  - intros c st d st' [last Hr] Hy. exists (last_heading last c).
    replace st' with (step_state (handle_child c st)) by by rewrite Hy.
    by apply reach_child.
  - done.
  - intros md _. exists None. apply reach_metadata. by apply reach_start.
Qed.

Lemma kind_of_element (name text : string) (img : option Tag) (level : nat) :
  heading_level name = Some level -> kind_of (Element name text img) = KHeading level.
Proof. intros Hl. unfold kind_of. simpl. by rewrite Hl. Qed.

(** C2. After a heading node at level L with text T is processed, from
    any well-formed state and whatever the slots held before, the heading
    stack has its six slots, holds T at level L and every slot of the
    levels L+1 to 6 is unset; and in every reachable state the stack
    satisfies this for the last heading processed. *)
Theorem heading_truncation_invariant :
  (∀ (name text : string) (img : option Tag) (level : nat) (st : State),
      wf st -> heading_level name = Some level ->
      let st' := step_state (handle_child (Element name text img) st) in
      length (deref st' (text_titles st')) = 6
      ∧ deref st' (text_titles st') !! (level - 1) = Some (Some text)
      ∧ ∀ j, level <= j < 6 -> deref st' (text_titles st') !! j = Some None)
  ∧ (∀ (last : option (nat * string)) (st : State),
        reach md5_hexdigest embed_titles exact_images last st ->
        length (deref st (text_titles st)) = 6 ∧ hierarchy last st).
Proof.
  split.
  - intros name text img level st Hwf Hlevel st'.
    assert (Hr : reach md5_hexdigest embed_titles exact_images
                       (Some (level, text)) st').
    { pose proof (reach_child md5_hexdigest embed_titles exact_images None
                    (Element name text img) st (reach_start _ _ _ st Hwf)) as Hr.
      unfold last_heading in Hr. by rewrite (kind_of_element _ text img _ Hlevel) in Hr. }
    apply reach_wf_hierarchy in Hr as [Hwf' (_ & Hat & Hdeep)].
    split_and!; [apply Hwf' | done | done].
  - intros last st Hr. apply reach_wf_hierarchy in Hr as [Hwf Hh].
    split; [apply Hwf | done].
Qed.

(** ** The metadata of the documents *)

Lemma convert_date_key_other (key : string) (m md : gmap string string) (k : string) :
  convert_date_key key m = Ok md -> k ≠ key -> md !! k = m !! k.
Proof.
  unfold convert_date_key. destruct (m !! key) as [v|]; [|by intros [= <-]].
  destruct (_convert_pdf_date v) as [v'|]; simpl; [|done].
  intros [= <-] Hne. by rewrite lookup_insert_ne.
Qed.

Lemma convert_dates_other (m md : gmap string string) (k : string) :
  convert_dates m = Ok md -> k ≠ "creationDate" -> k ≠ "modDate" -> md !! k = m !! k.
Proof.
  unfold convert_dates.
  destruct (convert_date_key "creationDate" m) as [md1|] eqn:H1; simpl; [|done].
  intros H2 Hc Hm.
  rewrite (convert_date_key_other _ _ _ _ H2 Hm).
  by rewrite (convert_date_key_other _ _ _ _ H1 Hc).
Qed.

Lemma process_pdf_metadata (pdf : FitzDocument) (st0 : State) (md : gmap string string) :
  wf st0 -> convert_dates (Pdf.metadata pdf) = Ok md ->
  Forall (fun y => exists lt li ltab,
              Langchain.metadata y.1 = merged_metadata md lt li ltab)
         (process_pdf pdf st0).1.
Proof.
  intros Hwf Hmd.
  apply (process_pdf_invariant (fun st => wf st ∧ file_metadata st = md)
           (fun d _ => exists lt li ltab,
                Langchain.metadata d = merged_metadata md lt li ltab)).
  - intros c st [H1 H2]. split; [by apply wf_handle_child|].
    destruct (frame_handle_child c st H1) as (-> & _). done.
  - intros st [H1 H2]. split; [by apply wf_after_yield | done].
  - intros t st [H1 H2]. split; [by apply wf_append_table_text | done].
  - intros c st d st' [H1 H2] Hy.
    apply handle_child_yield in Hy as (level & Hk & _ & _ & Hd); [|done].
    apply heading_document_inv in Hd as (_ & -> & _);
      [|eauto using wf_headed, kind_heading_range].
    rewrite <- H2. eauto.
  - intros st [H1 H2] _. rewrite final_document_metadata, H2. eauto.
  - intros md' Hmd'. rewrite Hmd in Hmd'. injection Hmd' as <-.
    split; [by apply wf_set_file_metadata | done].
Qed.

(** C10. The metadata of every yielded document is the dictionary holding
    the computed titles, images and table entries over which the
    normalized file metadata is merged last: every key of the file
    metadata carries the file's value, so a key named titles, images or
    table of the document information dictionary overwrites the computed
    entry. *)
Theorem file_metadata_merged_last
        (pdf : FitzDocument) (st0 : State) (md : gmap string string)
        (d : Langchain.Document) (st : State) :
  wf st0 ->
  convert_dates (Pdf.metadata pdf) = Ok md ->
  (d, st) ∈ (process_pdf pdf st0).1 ->
  (exists lt li ltab, Langchain.metadata d = merged_metadata md lt li ltab)
  ∧ (∀ k v, md !! k = Some v -> Langchain.metadata d !! k = Some (Langchain.VStr v))
  ∧ (∀ k v, k ∈ ["titles"; "images"; "table"] ->
            Pdf.metadata pdf !! k = Some v ->
            Langchain.metadata d !! k = Some (Langchain.VStr v)).
Proof.
  intros Hwf Hmd Hin.
  pose proof (process_pdf_metadata pdf st0 md Hwf Hmd) as Hall.
  rewrite Forall_forall in Hall. destruct (Hall _ Hin) as (lt & li & ltab & Hd).
  simpl in Hd. split_and!.
  - eauto.
  - intros k v Hk. rewrite Hd. by apply merged_lookup_file.
  - intros k v Hk Hv. rewrite Hd. apply merged_lookup_file.
    rewrite (convert_dates_other _ _ k Hmd); [done | |];
      intros ->; repeat (apply elem_of_cons in Hk as [Hk|Hk]; [done|]);
      by apply elem_of_nil in Hk.
Qed.

(** ** Title embedding *)

Lemma set_texts_fmap_Some (ts : list string) : set_texts (Some <$> ts) = ts.
Proof. unfold set_texts. induction ts as [|t ts IH]; simpl; [done|]. by f_equal. Qed.

Lemma filter_truthy_set_texts (titles : pylist) :
  Forall (fun x => x ≠ Some "") titles -> Py.filter_truthy titles = set_texts titles.
Proof.
  unfold set_texts. induction 1 as [|x l Hx _ IH]; simpl; [done|].
  destruct x as [s|]; simpl; [|done].
  destruct (String.eqb s "") eqn:Hs.
  - apply String.eqb_eq in Hs. by subst s.
  - by f_equal.
Qed.

Local Abbreviation embedded_body := (embedded_body embed_titles).

(** A document closed by a heading has the body its heading path gives:
    line 149 joins the path as it is. *)
Lemma heading_yield_embedded_body (c : Child) (st : State)
      (d : Langchain.Document) (st' : State) :
  wf st -> file_metadata st !! "titles" = None ->
  handle_child c st = Yield d st' -> embedded_body d st'.
Proof.
  intros Hwf Hmd Hy.
  apply handle_child_yield in Hy as (level & Hk & _ & Hst' & Hd); [|done].
  pose proof (wf_headed level (get_text c) st Hwf (kind_heading_range _ _ Hk)) as Hwf1.
  apply heading_document_inv in Hd as (_ & Hmeta & Hbody); [|done].
  exists (take level (deref (headed level (get_text c) st) (text_titles st))).
  split.
  - unfold titles_of, list_entry. rewrite Hmeta, merged_lookup_titles by done.
    rewrite Hst'. f_equal.
    exact (deref_heading_yield_titles level (headed level (get_text c) st)).
  - destruct embed_titles.
    + destruct Hbody as (ts & Hts & Hbody).
      change (text_titles (headed level (get_text c) st)) with (text_titles st) in Hts.
      rewrite Hts, set_texts_fmap_Some, Hbody, Hst'. reflexivity.
    + by rewrite Hbody, Hst'.
Qed.

(** The document flushed after the last page has it when no heading text
    of the stack is empty: line 182 joins the texts that are true. *)
Lemma final_embedded_body (st : State) :
  file_metadata st !! "titles" = None ->
  (embed_titles = true -> Forall (fun x => x ≠ Some "") (deref st (text_titles st))) ->
  embedded_body (final_document embed_titles st) st.
Proof.
  intros Hmd Hne. exists (deref st (text_titles st)). split.
  - unfold titles_of, list_entry.
    by rewrite final_document_metadata, merged_lookup_titles.
  - unfold final_document. destruct embed_titles; [|done]. simpl.
    by rewrite filter_truthy_set_texts by auto.
Qed.

(** Every document closed by a heading, on every page, has the body its
    heading path gives. *)
Lemma heading_documents_embedded
      (pdf : FitzDocument) (st0 : State) (md : gmap string string) :
  wf st0 ->
  md !! "titles" = None ->
  Forall (fun y => embedded_body y.1 y.2)
         (pages_loop (pages pdf) (set_file_metadata md st0)).1.
Proof.
  intros Hwf Htitles.
  apply (pages_loop_invariant (fun st => wf st ∧ file_metadata st = md)
                              (fun d st => embedded_body d st)).
  - intros c s [H1 H2]. split; [by apply wf_handle_child|].
    by destruct (frame_handle_child c s H1) as (-> & _).
  - intros s [H1 H2]. split; [by apply wf_after_yield | done].
  - intros t s [H1 H2]. split; [by apply wf_append_table_text | done].
  - intros c s d' s' [H1 H2] Hy.
    eapply heading_yield_embedded_body; [done | by rewrite H2 | done].
  - split; [by apply wf_set_file_metadata | done].
Qed.

(** ** The last document *)

Lemma pages_loop_wf (ps : list Page) (st : State) :
  wf st -> wf (outcome_state (pages_loop ps st).2).
Proof.
  intros Hwf.
  apply (pages_loop_invariant wf (fun _ _ => True));
    auto using wf_handle_child, wf_after_yield, wf_append_table_text.
Qed.

(** C4, amended. When the flush after the last page fires, the heading
    path of the last document is the heading stack itself: all of its six
    slots, the unset ones included, cut at no level. *)
Theorem final_titles_full_stack
        (pdf : FitzDocument) (st0 : State) (md : gmap string string)
        (ys : list (Langchain.Document * State)) (st1 : State) :
  wf st0 ->
  convert_dates (Pdf.metadata pdf) = Ok md ->
  md !! "titles" = None ->
  pages_loop (pages pdf) (set_file_metadata md st0) = (ys, Done st1) ->
  accumulated_text st1 ≠ "" ->
  exists d,
    process_pdf pdf st0 = (ys ++ [(d, st1)], Done (after_yield st1))
    ∧ Langchain.metadata d !! "titles" = Some (Langchain.VList (text_titles st1))
    ∧ titles_of d st1 = Some (deref st1 (text_titles st1))
    ∧ length (deref st1 (text_titles st1)) = 6.
Proof.
  intros Hwf Hmd Htitles Hloop Hacc.
  exists (final_document embed_titles st1).
  assert (Hwf1 : wf st1).
  { pose proof (pages_loop_wf (pages pdf) (set_file_metadata md st0)
                  (wf_set_file_metadata md st0 Hwf)) as H.
    by rewrite Hloop in H. }
  assert (Hmd1 : file_metadata st1 = md).
  { pose proof (pages_loop_invariant (fun st => wf st ∧ file_metadata st = md)
                  (fun _ _ => True)) as H.
    destruct (H (fun c s '(conj H1 H2) =>
                   conj (wf_handle_child c s H1)
                        (eq_trans (proj1 (frame_handle_child c s H1)) H2))
                (fun s '(conj H1 H2) => conj (wf_after_yield s H1) H2)
                (fun t s '(conj H1 H2) => conj (wf_append_table_text t s H1) H2)
                (fun _ _ _ _ _ _ => Logic.I)
                (pages pdf) (set_file_metadata md st0)
                (conj (wf_set_file_metadata md st0 Hwf) eq_refl)) as [_ H2].
    rewrite Hloop in H2. apply H2. }
  split_and!.
  - unfold Processor.process_pdf. rewrite Hmd, Hloop. unfold final_flush.
    apply String.eqb_neq in Hacc. by rewrite Hacc.
  - rewrite final_document_metadata, Hmd1. by apply merged_lookup_titles.
  - unfold titles_of, list_entry.
    by rewrite final_document_metadata, Hmd1, merged_lookup_titles.
  - apply Hwf1.
Qed.

(** ** Table texts *)

Lemma tables_handle_child (c : Child) (st : State) :
  wf st ->
  deref (step_state (handle_child c st)) (table_text_list st)
  = deref st (table_text_list st).
Proof.
  intros Hwf. pose proof Hwf as [H1 H2 H3 H4 H5 H6 H7].
  rewrite handle_child_kind by done.
  destruct (kind_of c) as [level| |] eqn:Hk; [| |done].
  - pose proof (kind_heading_range _ _ Hk) as Hl.
    pose proof (wf_headed level (get_text c) st Hwf Hl) as Hwf1.
    assert (Hh : deref (headed level (get_text c) st) (table_text_list st)
                 = deref st (table_text_list st))
      by (apply deref_headed_other; congruence).
    cbv zeta. destruct (negb _); cbn [step_state]; [|done].
    destruct (heading_document _ _ _) as [[d st2]|] eqn:Hd; cbn [step_state]; [|done].
    apply heading_document_inv in Hd as (-> & _); [|done].
    rewrite deref_heading_yield_state; [done|].
    unfold headed. by rewrite length_store_assign.
  - destruct (handle_paragraph _ _ _ _) as [st1|] eqn:Hp; [|done].
    cbn [step_state].
    apply handle_paragraph_inv in Hp as (d & f & [-> | (_ & path & ->)]); [done|].
    by rewrite deref_assign_ne.
Qed.

Lemma yielded_tables_heading (c : Child) (st : State)
      (d : Langchain.Document) (st' : State) :
  wf st -> file_metadata st !! "table" = None ->
  handle_child c st = Yield d st' ->
  yielded_tables (d, st') = deref st (table_text_list st).
Proof.
  intros Hwf Hmd Hy. pose proof Hwf as [H1 H2 H3 H4 H5 H6 H7].
  apply handle_child_yield in Hy as (level & Hk & _ & Hst' & Hd); [|done].
  pose proof (wf_headed level (get_text c) st Hwf (kind_heading_range _ _ Hk)) as Hwf1.
  apply heading_document_inv in Hd as (_ & Hmeta & _); [|done].
  unfold yielded_tables, tables_of, list_entry. cbn [fst snd].
  rewrite Hmeta, merged_lookup_table by done. cbn [default].
  rewrite Hst'.
  rewrite (deref_heading_yield_table level (headed level (get_text c) st)).
  change (table_text_list (headed level (get_text c) st)) with (table_text_list st).
  apply deref_headed_other. congruence.
Qed.

Lemma children_loop_tables (cs : list Child) (st : State) :
  wf st -> file_metadata st !! "table" = None ->
  let st' := outcome_state (children_loop cs st).2 in
  concat (map yielded_tables (children_loop cs st).1)
    ++ deref st' (table_text_list st')
  = deref st (table_text_list st)
  ∧ wf st' ∧ file_metadata st' = file_metadata st.
Proof.
  revert st. induction cs as [|c cs IH]; intros st Hwf Hmd; cbv zeta; simpl; [done|].
  pose proof (wf_handle_child c st Hwf) as Hwf1.
  destruct (frame_handle_child c st Hwf) as (Hf1 & _ & _ & Hf2 & _).
  pose proof (tables_handle_child c st Hwf) as Ht.
  pose proof (yielded_tables_heading c st) as Hy.
  destruct (handle_child c st) as [st1|d st1|e st1]; simpl in *.
  - destruct (IH st1 Hwf1) as (IH1 & IH2 & IH3); [congruence|].
    rewrite IH1, IH3, Hf2. done.
  - destruct (IH (after_yield st1) (wf_after_yield _ Hwf1)) as (IH1 & IH2 & IH3);
      [by rewrite file_metadata_after_yield, Hf1|].
    rewrite deref_after_yield_tables in IH1 by done.
    destruct (children_loop cs (after_yield st1)) as [ys o]. simpl in *.
    apply app_eq_nil in IH1 as [-> ->].
    rewrite !app_nil_r, (Hy d st1 Hwf Hmd eq_refl).
    split_and!; [done | done | by rewrite IH3].
  - by rewrite Hf2.
Qed.

Lemma tables_append_table_text (t : string) (st : State) :
  wf st ->
  deref (append_table_text t st) (table_text_list st)
  = deref st (table_text_list st) ++ [Some t].
Proof. intros Hwf. unfold append_table_text. apply deref_assign_eq, Hwf. Qed.

Lemma pages_loop_tables (ps : list Page) (st : State)
      (ys : list (Langchain.Document * State)) (st' : State) :
  wf st -> file_metadata st !! "table" = None ->
  pages_loop ps st = (ys, Done st') ->
  concat (map yielded_tables ys) ++ deref st' (table_text_list st')
  = deref st (table_text_list st) ++ map (fun p => Some (page_table_text p)) ps
  ∧ wf st' ∧ file_metadata st' = file_metadata st.
Proof.
  revert st ys. induction ps as [|p ps IH]; intros st ys Hwf Hmd; simpl.
  - intros [= <- <-]. by rewrite app_nil_r.
  - pose proof (wf_append_table_text (page_table_text p) st Hwf) as Hwf1.
    destruct (children_loop_tables (children p)
                (append_table_text (page_table_text p) st) Hwf1 Hmd)
      as (H1 & H2 & H3).
    destruct (children_loop _ _) as [ys1 [st2|e st2]]; simpl in *; [|done].
    destruct (pages_loop ps st2) as [ys2 o] eqn:Hloop.
    intros [= <- ->].
    destruct (IH st2 ys2 H2) as (IH1 & IH2 & IH3); [by rewrite H3 | done |].
    split_and!; [|done|by rewrite IH3, H3].
    rewrite map_app, concat_app, <- app_assoc, IH1, app_assoc, H1.
    change (table_text_list (append_table_text (page_table_text p) st))
      with (table_text_list st).
    rewrite tables_append_table_text by done.
    by rewrite <- app_assoc.
Qed.

(** C3, amended. After the last page a final document is flushed exactly
    when the accumulated text is not empty.  When the run reaches the end
    of the input and that flush fires, the table texts of the yielded
    documents, read at their [yield], are the table texts of all the pages
    in page order; when it does not fire no further document is yielded,
    and the table texts appended since the last [yield] stay in the
    processor. *)
Theorem tables_kept_when_flushed
        (pdf : FitzDocument) (st0 : State) (md : gmap string string)
        (ys : list (Langchain.Document * State)) (st1 : State) :
  wf st0 ->
  deref st0 (table_text_list st0) = [] ->
  convert_dates (Pdf.metadata pdf) = Ok md ->
  md !! "table" = None ->
  pages_loop (pages pdf) (set_file_metadata md st0) = (ys, Done st1) ->
  (accumulated_text st1 ≠ "" ->
   exists d,
     process_pdf pdf st0 = (ys ++ [(d, st1)], Done (after_yield st1))
     ∧ concat (map yielded_tables (ys ++ [(d, st1)]))
       = map (fun p => Some (page_table_text p)) (pages pdf))
  ∧ (accumulated_text st1 = "" ->
     process_pdf pdf st0 = (ys, Done st1)
     ∧ concat (map yielded_tables ys) ++ deref st1 (table_text_list st1)
       = map (fun p => Some (page_table_text p)) (pages pdf)).
Proof.
  intros Hwf Hempty Hmd Htable Hloop.
  destruct (pages_loop_tables (pages pdf) (set_file_metadata md st0) ys st1)
    as (H1 & H2 & H3); [by apply wf_set_file_metadata | done | done |].
  change (deref (set_file_metadata md st0) (table_text_list (set_file_metadata md st0)))
    with (deref st0 (table_text_list st0)) in H1.
  rewrite Hempty in H1. simpl in H1, H3.
  split.
  - intros Hacc. exists (final_document embed_titles st1). split.
    + unfold Processor.process_pdf. rewrite Hmd, Hloop. unfold final_flush.
      apply String.eqb_neq in Hacc. by rewrite Hacc.
    + rewrite map_app, concat_app. simpl. rewrite app_nil_r, <- H1. f_equal.
      unfold yielded_tables, tables_of, list_entry. cbn [fst snd].
      rewrite final_document_metadata, merged_lookup_table by (by rewrite H3).
      reflexivity.
  - intros Hacc. split; [|done].
    unfold Processor.process_pdf. rewrite Hmd, Hloop. unfold final_flush.
    rewrite Hacc. simpl. by rewrite app_nil_r.
Qed.

(** ** Documents yielded at a heading are not changed afterwards *)

Lemma frozen_assign (l l' : nat) (v v' : pylist) (st : State) :
  l' ≠ l -> frozen l v st -> frozen l v (assign l' v' st).
Proof.
  intros Hne (H1 & H2 & H3 & H4 & H5).
  split_and!; try done; [by rewrite length_store_assign | by rewrite deref_assign_ne].
Qed.

Lemma frozen_alloc (l : nat) (v v' : pylist) (st : State) :
  frozen l v st -> frozen l v (alloc v' st).2.
Proof.
  intros (H1 & H2 & H3 & H4 & H5).
  split_and!; try done; [rewrite length_store_alloc; lia | by rewrite deref_alloc_old].
Qed.

Lemma frozen_headed (l : nat) (v : pylist) (level : nat) (text : string) (st : State) :
  frozen l v st -> frozen l v (headed level text st).
Proof. intros H. apply frozen_assign; [|done]. destruct H as (_ & H & _). congruence. Qed.

Lemma frozen_heading_yield_state (l : nat) (v : pylist) (level : nat) (st : State) :
  frozen l v st -> frozen l v (heading_yield_state level st).
Proof. intros H. unfold heading_yield_state. by do 2 apply frozen_alloc. Qed.

Lemma frozen_after_yield (l : nat) (v : pylist) (st : State) :
  frozen l v st -> frozen l v (after_yield st).
Proof.
  intros (H1 & H2 & H3 & H4 & H5). unfold after_yield.
  apply frozen_assign; [simpl; congruence|].
  split_and!; simpl; try done.
  - rewrite length_app. simpl. lia.
  - lia.
  - unfold deref. simpl. by rewrite lookup_app_l.
Qed.

Lemma frozen_append_table_text (l : nat) (v : pylist) (t : string) (st : State) :
  frozen l v st -> frozen l v (append_table_text t st).
Proof.
  intros H. apply frozen_assign; [|done]. destruct H as (_ & _ & _ & H & _). congruence.
Qed.

Lemma frozen_handle_child (l : nat) (v : pylist) (c : Child) (st : State) :
  wf st -> frozen l v st -> frozen l v (step_state (handle_child c st)).
Proof.
  intros Hwf Hf. rewrite handle_child_kind by done.
  destruct (kind_of c) as [level| |] eqn:Hk; [| |done].
  - pose proof (wf_headed level (get_text c) st Hwf (kind_heading_range _ _ Hk)) as Hwf1.
    cbv zeta. destruct (negb _); cbn [step_state]; [|by apply frozen_headed].
    destruct (heading_document _ _ _) as [[d st2]|] eqn:Hd; cbn [step_state];
      [|by apply frozen_headed].
    apply heading_document_inv in Hd as (-> & _); [|done].
    by apply frozen_heading_yield_state, frozen_headed.
  - destruct (handle_paragraph _ _ _ _) as [st1|] eqn:Hp; [|done].
    cbn [step_state].
    apply handle_paragraph_inv in Hp as (d & f & [-> | (_ & path & ->)]); [done|].
    apply frozen_assign; [|done]. destruct Hf as (_ & _ & H & _). simpl. congruence.
Qed.

Lemma merged_lookup_list (md : gmap string string) (lt li ltab : nat)
      (key : string) (l : nat) :
  merged_metadata md lt li ltab !! key = Some (Langchain.VList l) ->
  l = lt ∨ l = li ∨ l = ltab.
Proof.
  unfold merged_metadata. intros H.
  apply lookup_union_Some_raw in H as [H | [_ H]].
  - rewrite lookup_fmap in H. by destruct (md !! key).
  - apply lookup_insert_Some in H as [[_ [= ->]] | [_ H]]; [auto|].
    apply lookup_insert_Some in H as [[_ [= ->]] | [_ H]]; [auto|].
    apply lookup_insert_Some in H as [[_ [= ->]] | [_ H]]; [auto|done].
Qed.

Lemma sealed_kept (y : Langchain.Document * State) (st : State) :
  sealed y st -> kept y st.
Proof.
  intros Hs key. unfold list_entry.
  destruct (Langchain.metadata y.1 !! key) as [[l|s]|] eqn:Hk; [|done..].
  destruct (Hs key l Hk) as (_ & _ & _ & _ & ->). done.
Qed.

(** A document yielded at a heading is sealed as soon as the generator
    is resumed: its titles and its table texts are new list objects, and
    the processor takes a new list for its images. *)
Lemma sealed_heading_yield (c : Child) (st : State)
      (d : Langchain.Document) (st' : State) :
  wf st -> handle_child c st = Yield d st' -> sealed (d, st') (after_yield st').
Proof.
  intros Hwf Hy. pose proof Hwf as [W1 W2 W3 W4 W5 W6 W7].
  apply handle_child_yield in Hy as (level & Hk & _ & Hst' & Hd); [|done].
  pose proof (wf_headed level (get_text c) st Hwf (kind_heading_range _ _ Hk)) as Hwf1.
  apply heading_document_inv in Hd as (_ & Hmeta & _); [|done].
  intros key l Hl. cbn [fst snd] in *. rewrite Hmeta in Hl.
  apply merged_lookup_list in Hl.
  assert (Hlen : length (store st') = S (S (length (store st)))).
  { rewrite Hst'. unfold heading_yield_state.
    rewrite !length_store_alloc. unfold headed. by rewrite length_store_assign. }
  assert (Hlen1 : length (store (headed level (get_text c) st)) = length (store st))
    by (unfold headed; by rewrite length_store_assign).
  rewrite Hlen1 in Hl.
  change (image_paths (headed level (get_text c) st)) with (image_paths st) in Hl.
  assert (Hfields : text_titles st' = text_titles st
                    ∧ image_paths st' = image_paths st
                    ∧ table_text_list st' = table_text_list st)
    by by rewrite Hst'.
  destruct Hfields as (F1 & F2 & F3).
  assert (Hl' : l < length (store st') ∧ l ≠ text_titles st' ∧ l ≠ table_text_list st')
    by (rewrite Hlen, F1, F3; destruct Hl as [-> | [-> | ->]]; lia).
  destruct Hl' as (L1 & L2 & L3).
  unfold frozen, after_yield. cbn.
  split_and!.
  - rewrite length_insert, length_app. simpl. lia.
  - done.
  - lia.
  - done.
  - unfold deref. simpl. rewrite list_lookup_insert_ne by done.
    by rewrite lookup_app_l.
Qed.

Section Later.

Variable R : Langchain.Document * State -> State -> Prop.

Hypothesis R_yield :
  ∀ c st d st', wf st -> handle_child c st = Yield d st' -> R (d, st') (after_yield st').
Hypothesis R_step :
  ∀ y c st, wf st -> R y st -> R y (step_state (handle_child c st)).
Hypothesis R_resume : ∀ y st, wf st -> R y st -> R y (after_yield st).
Hypothesis R_page : ∀ y t st, wf st -> R y st -> R y (append_table_text t st).

Lemma children_loop_keeps (y : Langchain.Document * State) (cs : list Child) (st : State) :
  wf st -> R y st ->
  Forall (fun z => R y z.2) (children_loop cs st).1
  ∧ R y (outcome_state (children_loop cs st).2).
Proof.
  intros Hwf Hy.
  assert (S1 : ∀ c s, wf s ∧ R y s ->
                      wf (step_state (handle_child c s))
                      ∧ R y (step_state (handle_child c s))).
  { intros c s [Hs1 Hs2]. split; [by apply wf_handle_child | by apply R_step]. }
  assert (S2 : ∀ s, wf s ∧ R y s -> wf (after_yield s) ∧ R y (after_yield s)).
  { intros s [Hs1 Hs2]. split; [by apply wf_after_yield | by apply R_resume]. }
  assert (S4 : ∀ c s d s', wf s ∧ R y s -> handle_child c s = Yield d s' -> R y s').
  { intros c s d s' [Hs1 Hs2] Hyield.
    replace s' with (step_state (handle_child c s)) by by rewrite Hyield.
    by apply R_step. }
  destruct (children_loop_invariant (fun s => wf s ∧ R y s) (fun _ s => R y s)
              S1 S2 S4 cs st (conj Hwf Hy)) as [H1 [_ H2]].
  by split.
Qed.

Lemma pages_loop_keeps (y : Langchain.Document * State) (ps : list Page) (st : State) :
  wf st -> R y st ->
  Forall (fun z => R y z.2) (pages_loop ps st).1
  ∧ R y (outcome_state (pages_loop ps st).2).
Proof.
  intros Hwf Hy.
  assert (S1 : ∀ c s, wf s ∧ R y s ->
                      wf (step_state (handle_child c s))
                      ∧ R y (step_state (handle_child c s))).
  { intros c s [Hs1 Hs2]. split; [by apply wf_handle_child | by apply R_step]. }
  assert (S2 : ∀ s, wf s ∧ R y s -> wf (after_yield s) ∧ R y (after_yield s)).
  { intros s [Hs1 Hs2]. split; [by apply wf_after_yield | by apply R_resume]. }
  assert (S3 : ∀ t s, wf s ∧ R y s ->
                      wf (append_table_text t s) ∧ R y (append_table_text t s)).
  { intros t s [Hs1 Hs2]. split; [by apply wf_append_table_text | by apply R_page]. }
  assert (S4 : ∀ c s d s', wf s ∧ R y s -> handle_child c s = Yield d s' -> R y s').
  { intros c s d s' [Hs1 Hs2] Hyield.
    replace s' with (step_state (handle_child c s)) by by rewrite Hyield.
    by apply R_step. }
  destruct (pages_loop_invariant (fun s => wf s ∧ R y s) (fun _ s => R y s)
              S1 S2 S3 S4 ps st (conj Hwf Hy)) as [H1 [_ H2]].
  by split.
Qed.

Lemma children_loop_later (cs : list Child) (st : State) :
  wf st ->
  all_later R (children_loop cs st).1 (outcome_state (children_loop cs st).2).
Proof.
  revert st. induction cs as [|c cs IH]; intros st Hwf; simpl; [done|].
  pose proof (wf_handle_child c st Hwf) as Hwf1.
  pose proof (R_yield c st) as Hyield.
  destruct (handle_child c st) as [st1|d st1|e st1]; cbn [step_state] in Hwf1.
  - by apply IH.
  - pose proof (wf_after_yield _ Hwf1) as Hwf2.
    destruct (children_loop_keeps (d, st1) cs (after_yield st1) Hwf2) as [K1 K2];
      [by eapply Hyield|].
    specialize (IH _ Hwf2).
    destruct (children_loop cs (after_yield st1)) as [ys o]. simpl in *.
    by split_and!.
  - done.
Qed.

Lemma all_later_app (ys ys' : list (Langchain.Document * State)) (mid fin : State) :
  all_later R ys mid ->
  (∀ y, R y mid -> Forall (fun z => R y z.2) ys' ∧ R y fin) ->
  all_later R ys' fin ->
  all_later R (ys ++ ys') fin.
Proof.
  intros Hys Hcont Hys'. induction ys as [|y ys IH]; simpl; [done|].
  destruct Hys as (H1 & H2 & H3). destruct (Hcont y H2) as [C1 C2].
  split_and!; [by apply Forall_app | done | by apply IH].
Qed.

Lemma pages_loop_later (ps : list Page) (st : State) :
  wf st ->
  all_later R (pages_loop ps st).1 (outcome_state (pages_loop ps st).2).
Proof.
  revert st. induction ps as [|p ps IH]; intros st Hwf; simpl; [done|].
  pose proof (wf_append_table_text (page_table_text p) st Hwf) as Hwf1.
  pose proof (children_loop_later (children p) _ Hwf1) as Hc.
  destruct (children_loop_invariant wf (fun _ _ => True))
    with (cs := children p) (st := append_table_text (page_table_text p) st)
    as [_ Hwf2]; auto using wf_handle_child, wf_after_yield, wf_append_table_text.
  destruct (children_loop _ _) as [ys [st2|e st2]]; simpl in *; [|done].
  specialize (IH st2 Hwf2).
  pose proof (fun y => pages_loop_keeps y ps st2 Hwf2) as Hk.
  destruct (pages_loop ps st2) as [ys' o]. simpl in *.
  by eapply all_later_app.
Qed.

End Later.

Lemma sealed_step (y : Langchain.Document * State) (c : Child) (st : State) :
  wf st -> sealed y st -> sealed y (step_state (handle_child c st)).
Proof. intros Hwf Hs key l Hl. by apply frozen_handle_child, (Hs key). Qed.

Lemma sealed_resume (y : Langchain.Document * State) (st : State) :
  sealed y st -> sealed y (after_yield st).
Proof. intros Hs key l Hl. by apply frozen_after_yield, (Hs key). Qed.

Lemma sealed_page (y : Langchain.Document * State) (t : string) (st : State) :
  sealed y st -> sealed y (append_table_text t st).
Proof. intros Hs key l Hl. by apply frozen_append_table_text, (Hs key). Qed.

(** The documents yielded at the headings read, in every later state of
    the run and after the reset that follows the last document, as they
    did at their [yield]. *)
Lemma heading_documents_kept (pdf : FitzDocument) (st0 : State) (md : gmap string string) :
  wf st0 ->
  let r := pages_loop (pages pdf) (set_file_metadata md st0) in
  all_later kept r.1 (outcome_state r.2)
  ∧ Forall (fun y => kept y (after_yield (outcome_state r.2))) r.1.
Proof.
  intros Hwf r.
  pose proof (pages_loop_later sealed sealed_heading_yield
                (fun y c st Hw => sealed_step y c st Hw)
                (fun y st _ => sealed_resume y st)
                (fun y t st _ => sealed_page y t st)
                (pages pdf) (set_file_metadata md st0)
                (wf_set_file_metadata md st0 Hwf)) as Hlater.
  fold r in Hlater. clearbody r. destruct r as [ys o]. simpl in *.
  clear -Hlater. induction ys as [|y ys IH]; simpl in *; [done|].
  destruct Hlater as (H1 & H2 & H3). destruct (IH H3) as [IH1 IH2].
  split; [split_and!|constructor]; try done.
  - eapply Forall_impl; [exact H1|]. intros z Hz. by apply sealed_kept.
  - by apply sealed_kept.
  - by apply sealed_kept, sealed_resume.
Qed.

(** ** The heading path of a document yielded at a heading *)

(** The heading path built when a heading closes a segment ends with the
    text of that heading: it is the stack after the heading was written,
    cut at the level of the heading. *)
Lemma heading_yield_carries_new_heading (c : Child) (level : nat) (st : State)
      (d : Langchain.Document) (st' : State) :
  wf st -> file_metadata st !! "titles" = None ->
  kind_of c = KHeading level ->
  handle_child c st = Yield d st' ->
  titles_of d st'
  = Some (take level (new_titles level (get_text c) (deref st (text_titles st))))
  ∧ take level (new_titles level (get_text c) (deref st (text_titles st)))
      !! (level - 1) = Some (Some (get_text c)).
Proof.
  intros Hwf Hmd Hk Hy.
  pose proof (kind_heading_range _ _ Hk) as Hl.
  apply handle_child_yield in Hy as (level' & Hk' & _ & Hst' & Hd); [|done].
  rewrite Hk in Hk'. injection Hk' as <-.
  pose proof (wf_headed level (get_text c) st Hwf Hl) as Hwf1.
  apply heading_document_inv in Hd as (_ & Hmeta & _); [|done].
  split.
  - unfold titles_of, list_entry. rewrite Hmeta, merged_lookup_titles by done.
    rewrite Hst'. f_equal.
    rewrite (deref_heading_yield_titles level (headed level (get_text c) st)).
    change (text_titles (headed level (get_text c) st)) with (text_titles st).
    by rewrite deref_headed_titles.
  - rewrite lookup_take_lt by lia.
    apply new_titles_at; [apply Hwf | done].
Qed.

End WithDigest.

(** ** Paragraphs and text *)

Section Paragraphs.

Variable md5_hexdigest : list Z -> string.

Lemma startswith_find (src : string) :
  Py.startswith src data_url_prefix = true -> Py.find src data_url_prefix 0 = Some 0.
Proof.
  unfold Py.startswith, Py.find. intros H.
  destruct src as [|a src]; [done|].
  change (index 0 data_url_prefix (String a src))
    with (if String.prefix data_url_prefix (String a src) then Some 0
          else match index 0 data_url_prefix src with
               | Some n => Some (S n)
               | None => None
               end).
  by rewrite H.
Qed.

Lemma check_no_embedded_image (c : Child) (st : State) :
  no_embedded_image c ->
  _check_and_decode_base64_image md5_hexdigest (find_img c) st = Ok (None, st).
Proof.
  unfold no_embedded_image, _check_and_decode_base64_image.
  destruct (find_img c) as [tag|]; [|done].
  intros (src & Hsrc & Hno). unfold getitem. rewrite Hsrc. simpl.
  destruct (Py.startswith src data_url_prefix) eqn:Hpre; simpl; [|done].
  destruct Hno as [Hno | Hno]; [done|].
  by rewrite (startswith_find src Hpre), Hno.
Qed.

Lemma handle_paragraph_text (exact_images : bool) (c : Child) (st : State) :
  exact_images = false ∨ no_embedded_image c ->
  handle_paragraph md5_hexdigest exact_images c st
  = Ok (set_accumulated_text (accumulated_text st +:+ get_text c) st).
Proof.
  unfold handle_paragraph. intros [-> | Hno]; [done|].
  destruct exact_images; [|done].
  by rewrite check_no_embedded_image.
Qed.

Lemma no_embedded_image_text_paragraph (exact_images : bool) (dir : string) (c : Child) :
  kind_of c = KParagraph -> no_embedded_image c ->
  is_text_paragraph md5_hexdigest exact_images dir c = true.
Proof.
  intros Hk Hno. unfold is_text_paragraph, embedded_image_path. rewrite Hk.
  destruct exact_images; [|done].
  by rewrite check_no_embedded_image.
Qed.

(** C9, amended. With image extraction enabled, a paragraph node without
    an embedded image (no [img] element, or an [img] whose [src] is not a
    [data:image/...;base64,] URL) is treated as a plain text paragraph: its
    text is appended to the accumulated text and nothing else changes; a
    payload that [b64decode] rejects is not caught: the exception leaves
    the generator and the text is not appended. *)
Theorem paragraph_without_image_is_text
        (embed_titles : bool) (text : string) (img : option Tag) (st : State) :
  (no_embedded_image (Element "p" text img) ->
   handle_child md5_hexdigest embed_titles true (Element "p" text img) st
   = Next (set_accumulated_text (accumulated_text st +:+ text) st))
  ∧ (∀ tag src data_url_end e,
        img = Some tag ->
        attrs tag !! "src" = Some src ->
        Py.startswith src data_url_prefix = true ->
        Py.find src data_url_suffix 0 = Some data_url_end ->
        Base64.b64decode
          (Py.slice_from src (data_url_end + String.length data_url_suffix)) = Raise e ->
        handle_child md5_hexdigest embed_titles true (Element "p" text img) st
        = Fail e st).
Proof.
  split.
  - intros Hno. unfold handle_child. cbn [name_of].
    change (heading_level "p") with (@None nat).
    change (String.eqb "p" "p") with true. cbv beta iota.
    by rewrite handle_paragraph_text by by right.
  - intros tag src data_url_end e -> Hsrc Hpre Hend Hdec.
    unfold handle_child. cbn [name_of].
    change (heading_level "p") with (@None nat).
    change (String.eqb "p" "p") with true. cbv beta iota.
    unfold handle_paragraph, _check_and_decode_base64_image. cbn [find_img].
    unfold getitem. rewrite Hsrc. cbn [rbind]. rewrite Hpre. cbn [negb].
    cbv beta iota.
    rewrite (startswith_find src Hpre), Hend, Hdec. reflexivity.
Qed.

End Paragraphs.

(** ** Body texts *)

Section Bodies.

Variable md5_hexdigest : list Z -> string.
Variable exact_images : bool.
Variable dir : string.

Local Abbreviation handle_child := (handle_child md5_hexdigest false exact_images).
Local Abbreviation children_loop := (children_loop md5_hexdigest false exact_images).
Local Abbreviation pages_loop := (pages_loop md5_hexdigest false exact_images).
Local Abbreviation textp := (is_text_paragraph md5_hexdigest exact_images dir).
Local Abbreviation decodable := (decodable md5_hexdigest exact_images dir).

(** What is found for an image depends on the state only through the
    directory of the images; the state changes in its files only. *)
Lemma check_and_decode_dir (tag : option Tag) (st : State) :
  match _check_and_decode_base64_image md5_hexdigest tag (init (pdf_images_dir st)) with
  | Ok (r, _) =>
      exists d f,
        _check_and_decode_base64_image md5_hexdigest tag st = Ok (r, set_fs d f st)
  | Raise e => _check_and_decode_base64_image md5_hexdigest tag st = Raise e
  end.
Proof.
  assert (Hid : st = set_fs (fs_dirs st) (fs_files st) st) by by destruct st.
  unfold _check_and_decode_base64_image.
  destruct tag as [tag|]; [|by exists (fs_dirs st), (fs_files st); rewrite <- Hid].
  destruct (getitem tag "src") as [src|]; cbn [rbind]; [|done].
  destruct (negb (Py.startswith src data_url_prefix));
    [by exists (fs_dirs st), (fs_files st); rewrite <- Hid|].
  destruct (Py.find src data_url_prefix 0) as [a|];
    [|by exists (fs_dirs st), (fs_files st); rewrite <- Hid].
  destruct (Py.find src data_url_suffix a) as [b|];
    [|by exists (fs_dirs st), (fs_files st); rewrite <- Hid].
  destruct (Base64.b64decode _) as [data|]; cbn [rbind]; [|done].
  rewrite (ensure_directory (init _)), (ensure_directory st).
  change (pdf_images_dir (init (pdf_images_dir st))) with (pdf_images_dir st).
  destruct (String.eqb (pdf_images_dir st) ""); cbn [rbind]; [done|].
  unfold write_file. eauto.
Qed.

Lemma paragraph_step (c : Child) (st : State) :
  wf st -> pdf_images_dir st = dir ->
  kind_of c = KParagraph -> decodable c ->
  exists st',
    handle_child c st = Next st'
    ∧ wf st' ∧ pdf_images_dir st' = dir
    ∧ accumulated_text st'
      = if textp c then accumulated_text st +:+ get_text c else accumulated_text st.
Proof.
  intros Hwf Hdir Hk Hdec. rewrite handle_child_kind, Hk by done.
  unfold is_text_paragraph. rewrite Hk.
  unfold handle_paragraph. destruct exact_images.
  - destruct (Hdec Hk eq_refl) as [r Hr]. rewrite Hr.
    unfold embedded_image_path in Hr.
    pose proof (check_and_decode_dir (find_img c) st) as Hst. rewrite Hdir in Hst.
    destruct (_check_and_decode_base64_image md5_hexdigest (find_img c) (init dir))
      as [[r' st0]|]; [|done].
    cbn [rbind] in Hr. injection Hr as <-.
    destruct Hst as (d & f & ->). cbn [rbind fst].
    destruct (Py.truthy r'); cbn [negb].
    + eexists. split; [reflexivity|]. split_and!; [|done..].
      apply wf_assign; [by apply wf_set_fs|].
      cbn. intros Heq. destruct Hwf. congruence.
    + eexists. split; [reflexivity|]. split_and!; [|done..].
      by apply wf_set_accumulated_text, wf_set_fs.
  - eexists. split; [reflexivity|]. split_and!; [|done..].
    by apply wf_set_accumulated_text.
Qed.

Lemma other_step (c : Child) (st : State) :
  wf st -> kind_of c = KOther -> handle_child c st = Next st ∧ textp c = false.
Proof.
  intros Hwf Hk. rewrite handle_child_kind, Hk by done.
  unfold is_text_paragraph. by rewrite Hk.
Qed.

Lemma heading_step (c : Child) (level : nat) (st : State) :
  wf st -> kind_of c = KHeading level ->
  if String.eqb (accumulated_text st) "" then
    handle_child c st = Next (headed level (get_text c) st)
  else
    exists d,
      handle_child c st
      = Yield d (heading_yield_state level (headed level (get_text c) st))
      ∧ Langchain.page_content d = accumulated_text st.
Proof.
  intros Hwf Hk. rewrite handle_child_kind, Hk by done. cbv zeta.
  destruct (String.eqb (accumulated_text st) ""); cbn [negb]; [done|].
  pose proof (wf_headed level (get_text c) st Hwf (kind_heading_range _ _ Hk)) as Hwf1.
  destruct (heading_document false level (headed level (get_text c) st))
    as [[d st2]|e] eqn:Hd.
  - apply (heading_document_inv false) in Hd as (-> & _ & Hbody); [|done].
    exists d. by split.
  - by unfold heading_document in Hd.
Qed.

Lemma children_loop_bodies (cs : list Child) (st : State) :
  wf st -> pdf_images_dir st = dir -> Forall decodable cs ->
  exists st',
    (children_loop cs st).2 = Done st'
    ∧ map (fun y => Langchain.page_content y.1) (children_loop cs st).1
      = (bodies_from textp (accumulated_text st) cs).1
    ∧ accumulated_text st' = (bodies_from textp (accumulated_text st) cs).2
    ∧ wf st' ∧ pdf_images_dir st' = dir.
Proof.
  revert st. induction cs as [|c cs IH]; intros st Hwf Hdir Hall; simpl.
  - by exists st.
  - apply Forall_cons in Hall as [Hc Hall].
    pose proof (wf_handle_child md5_hexdigest false exact_images c st Hwf) as Hwf1.
    destruct (kind_of c) as [level| |] eqn:Hk.
    + pose proof (heading_step c level st Hwf Hk) as Hstep.
      unfold nonempty.
      destruct (String.eqb (accumulated_text st) "") eqn:Hacc; cbn [negb].
      * rewrite Hstep in Hwf1 |- *. cbn [step_state] in Hwf1.
        destruct (IH _ Hwf1 Hdir Hall) as (st' & H1 & H2 & H3 & H4 & H5).
        change (accumulated_text (headed level (get_text c) st))
          with (accumulated_text st) in H2, H3.
        apply String.eqb_eq in Hacc. rewrite Hacc in H2, H3.
        exists st'. by split_and!.
      * destruct Hstep as (d & Hstep & Hbody).
        rewrite Hstep in Hwf1 |- *. cbn [step_state] in Hwf1.
        destruct (IH _ (wf_after_yield _ Hwf1) Hdir Hall)
          as (st' & H1 & H2 & H3 & H4 & H5).
        rewrite accumulated_text_after_yield in H2, H3.
        destruct (children_loop cs (after_yield _)) as [ys o].
        destruct (bodies_from textp "" cs) as [bs a].
        simpl in *. exists st'. split_and!; try done. by rewrite Hbody, H2.
    + destruct (paragraph_step c st Hwf Hdir Hk Hc) as (st1 & -> & Hw & Hd & Ha).
      destruct (IH _ Hw Hd Hall) as (st' & H1 & H2 & H3 & H4 & H5).
      rewrite Ha in H2, H3. exists st'.
      destruct (textp c); by split_and!.
    + destruct (other_step c st Hwf Hk) as [-> ->].
      destruct (IH _ Hwf Hdir Hall) as (st' & H1 & H2 & H3 & H4 & H5).
      exists st'. by split_and!.
Qed.

Lemma bodies_from_app (acc : string) (cs1 cs2 : list Child) :
  bodies_from textp acc (cs1 ++ cs2)
  = ((bodies_from textp acc cs1).1
       ++ (bodies_from textp (bodies_from textp acc cs1).2 cs2).1,
     (bodies_from textp (bodies_from textp acc cs1).2 cs2).2).
Proof.
  revert acc. induction cs1 as [|c cs1 IH]; intros acc; simpl.
  - by destruct (bodies_from textp acc cs2).
  - destruct (kind_of c); [|destruct (textp c); apply IH..].
    destruct (nonempty acc); [|apply IH].
    rewrite IH. by destruct (bodies_from textp "" cs1).
Qed.

Lemma pages_loop_bodies (ps : list Page) (st : State) :
  wf st -> pdf_images_dir st = dir -> Forall decodable (concat (map children ps)) ->
  exists st',
    (pages_loop ps st).2 = Done st'
    ∧ map (fun y => Langchain.page_content y.1) (pages_loop ps st).1
      = (bodies_from textp (accumulated_text st) (concat (map children ps))).1
    ∧ accumulated_text st'
      = (bodies_from textp (accumulated_text st) (concat (map children ps))).2
    ∧ wf st' ∧ pdf_images_dir st' = dir.
Proof.
  revert st. induction ps as [|p ps IH]; intros st Hwf Hdir Hall; simpl.
  - by exists st.
  - simpl in Hall. apply Forall_app in Hall as [Hp Hps].
    destruct (children_loop_bodies (children p)
                (append_table_text (page_table_text p) st)
                (wf_append_table_text _ _ Hwf) Hdir Hp)
      as (st2 & H1 & H2 & H3 & H4 & H5).
    change (accumulated_text (append_table_text (page_table_text p) st))
      with (accumulated_text st) in H2, H3.
    destruct (children_loop _ _) as [ys o]. simpl in H1, H2. subst o.
    destruct (IH st2 H4 H5 Hps) as (st' & I1 & I2 & I3 & I4 & I5).
    destruct (pages_loop ps st2) as [ys' o']. simpl in I1, I2. subst o'.
    rewrite bodies_from_app. simpl. exists st'.
    rewrite map_app, H2, I2, I3, H3. done.
Qed.

(** *** The windows of the stream *)

Lemma append_empty_r (s : string) : s +:+ "" = s.
Proof.
  induction s as [|a s IH]; [done|].
  change (String a s +:+ "") with (String a (s +:+ "")). by f_equal.
Qed.

Lemma concat_nosep_cons (x : string) (l : list string) :
  String.concat "" (x :: l) = x +:+ String.concat "" l.
Proof. destruct l as [|y l]; simpl; [by rewrite append_empty_r | done]. Qed.

Lemma append_assoc (a b c : string) : (a +:+ b) +:+ c = a +:+ (b +:+ c).
Proof.
  induction a as [|x a IH]; [done|].
  change (String x (a +:+ b) +:+ c = String x (a +:+ b +:+ c)).
  change (String x ((a +:+ b) +:+ c) = String x (a +:+ b +:+ c)). by f_equal.
Qed.

Lemma split_at_headings_nonempty (cs : list Child) : split_at_headings cs ≠ [].
Proof.
  destruct cs as [|c cs]; simpl; [done|].
  destruct (kind_of c), (split_at_headings cs); done.
Qed.

Lemma windows_from_empty (cs : list Child) :
  windows_from textp "" cs = map (window_text textp) (split_at_headings cs).
Proof.
  pose proof (split_at_headings_nonempty cs) as Hne.
  unfold windows_from. by destruct (split_at_headings cs).
Qed.

Lemma window_text_cons (c : Child) (w : list Child) :
  window_text textp (c :: w)
  = if textp c then get_text c +:+ window_text textp w else window_text textp w.
Proof.
  unfold window_text. cbn [List.filter].
  destruct (textp c); [|done]. cbn [map]. apply concat_nosep_cons.
Qed.

Lemma heading_not_text (c : Child) (level : nat) :
  kind_of c = KHeading level -> textp c = false.
Proof. intros Hk. unfold is_text_paragraph. by rewrite Hk. Qed.

Lemma bodies_from_windows (acc : string) (cs : list Child) :
  (bodies_from textp acc cs).1
    ++ (if nonempty (bodies_from textp acc cs).2
        then [(bodies_from textp acc cs).2] else [])
  = List.filter nonempty (windows_from textp acc cs).
Proof.
  revert acc. induction cs as [|c cs IH]; intros acc.
  - unfold windows_from. simpl. unfold window_text. simpl.
    by rewrite append_empty_r.
  - pose proof (split_at_headings_nonempty cs) as Hne.
    unfold windows_from in *. simpl.
    assert (Hstep : ∀ w ws, split_at_headings cs = w :: ws ->
              (bodies_from textp
                 (if textp c then acc +:+ get_text c else acc) cs).1
              ++ (if nonempty (bodies_from textp
                      (if textp c then acc +:+ get_text c else acc) cs).2
                  then [(bodies_from textp
                           (if textp c then acc +:+ get_text c else acc) cs).2]
                  else [])
              = List.filter nonempty
                  ((acc +:+ window_text textp (c :: w)) :: map (window_text textp) ws)).
    { intros w ws Hsplit.
      specialize (IH (if textp c then acc +:+ get_text c else acc)).
      rewrite Hsplit in IH. rewrite IH, window_text_cons.
      destruct (textp c); [by rewrite append_assoc | done]. }
    destruct (kind_of c) as [level| |] eqn:Hk.
    + specialize (IH "").
      destruct (split_at_headings cs) as [|w ws]; [done|].
      change (window_text textp []) with "". rewrite append_empty_r.
      cbn [List.filter map]. simpl in IH.
      destruct (nonempty acc).
      * destruct (bodies_from textp "" cs) as [bs a]. simpl in *. by rewrite IH.
      * by rewrite IH.
    + destruct (split_at_headings cs) as [|w ws]; [done|].
      specialize (Hstep w ws eq_refl). by destruct (textp c).
    + destruct (split_at_headings cs) as [|w ws]; [done|].
      specialize (Hstep w ws eq_refl). by destruct (textp c).
Qed.

(** C5. With title embedding disabled, the bodies of the yielded
    documents are, in order, the non-empty window texts of the node
    stream: each is the concatenation, with no separator, of the texts of
    the text paragraphs met between two headings, across page boundaries.
    (When images are extracted, looking for the image of a paragraph must
    not raise, or the run ends there.) *)
Theorem paragraph_concatenation
        (pdf : FitzDocument) (st0 : State) (md : gmap string string) :
  wf st0 ->
  pdf_images_dir st0 = dir ->
  accumulated_text st0 = "" ->
  convert_dates (Pdf.metadata pdf) = Ok md ->
  Forall decodable (stream pdf) ->
  map (fun y => Langchain.page_content y.1)
      (process_pdf md5_hexdigest false exact_images pdf st0).1
  = segment_texts textp (stream pdf).
Proof.
  intros Hwf Hdir Hacc Hmd Hall. unfold process_pdf, segment_texts, stream in *.
  rewrite Hmd.
  destruct (pages_loop_bodies (pages pdf) (set_file_metadata md st0)
              (wf_set_file_metadata md st0 Hwf) Hdir Hall)
    as (st1 & H1 & H2 & H3 & _).
  change (accumulated_text (set_file_metadata md st0))
    with (accumulated_text st0) in H2, H3.
  rewrite Hacc in H2, H3.
  rewrite <- windows_from_empty, <- bodies_from_windows, <- H2, <- H3.
  destruct (Processor.pages_loop _ _ _ _ _) as [ys o]. simpl in H1. subst o.
  unfold final_flush, nonempty.
  destruct (negb (String.eqb (accumulated_text st1) "")); simpl.
  - by rewrite map_app.
  - by rewrite !app_nil_r.
Qed.

End Bodies.

(** ** Runs on sample documents *)

Import Samples.

Example body_a_b :
  map (fun y => Langchain.page_content y.1) (run false false pdf_a_b).1 = ["AB"; "C"].
Proof. vm_compute. reflexivity. Qed.

Example stored_image :
  exists st, handle_child sample_digest false true good_image (init images_dir) = Next st
    ∧ deref st (image_paths st)
      = [Some "./pdf_images/5d41402abc4b2a76b9719d911017c592.png"]
    ∧ accumulated_text st = "".
Proof. eexists. split_and!; vm_compute; reflexivity. Qed.

(** C1. On the two-page sample, the stack entering page 2 is empty, yet
    the document closed by heading (1, T) carries the heading path [T]:
    the heading is written into the stack before the segment is built,
    and the path is cut at the level of the new heading. *)
Theorem heading_applied_before_flush :
  (exists st,
      (pages_loop sample_digest false false (take 1 (pages pdf_page_break))
                  (init images_dir)).2 = Done st
      ∧ omit_trailing_unset (deref st (text_titles st)) = [])
  ∧ map (fun y => (Langchain.page_content y.1, titles_of y.1 y.2))
        (run false false pdf_page_break).1
    = [("XY", Some [Some "T"]);
       ("Z", Some [Some "T"; None; None; None; None; None])].
Proof.
  split.
  - eexists. split; vm_compute; reflexivity.
  - vm_compute. reflexivity.
Qed.

(** C7. On the sample with one table and one paragraph, the last document
    holds the table text at its [yield] and holds no table text once the
    generator is exhausted: its table list is the processor's own list,
    which is cleared when the generator is resumed. *)
Theorem final_document_tables_cleared :
  exists d st st_end,
    run false false pdf_table_and_text = ([(d, st)], Done st_end)
    ∧ tables_of d st = Some [Some ("Name" +:+ nl +:+ "{}" +:+ nl)]
    ∧ tables_of d st_end = Some [].
Proof.
  do 3 eexists. split_and!; [reflexivity | vm_compute; reflexivity..].
Qed.

(** C2, witness: heading (2, Sub) from the initial state. *)
Lemma heading_truncation_witness :
  let st' := step_state (handle_child sample_digest true false (h "2" "Sub")
                                      (init images_dir)) in
  length (deref st' (text_titles st')) = 6
  ∧ deref st' (text_titles st') !! (2 - 1) = Some (Some "Sub")
  ∧ ∀ j, 2 <= j < 6 -> deref st' (text_titles st') !! j = Some None.
Proof.
  apply (proj1 (heading_truncation_invariant sample_digest true false)
               "h2" "Sub" None 2 (init images_dir)).
  - apply wf_init.
  - vm_compute. reflexivity.
Defined.

(** C3, counterexample: a page with a table and no text yields no
    document; the table text stays in the processor. *)
Lemma table_dropped_without_text :
  (run false false pdf_table_only).1 = []
  ∧ exists st, (run false false pdf_table_only).2 = Done st
      ∧ deref st (table_text_list st) = [Some (page_table_text (mk_page [name_table] []))]
      ∧ page_table_text (mk_page [name_table] []) = "Name" +:+ nl +:+ "{}" +:+ nl.
Proof.
  split; [vm_compute; reflexivity|].
  eexists. split_and!; vm_compute; reflexivity.
Qed.

(** C3, witness: one page with a table and a paragraph; the flush after
    the last page fires and the document holds the table text. *)
Lemma tables_kept_witness :
  let ys := (pages_loop sample_digest false false (pages pdf_table_and_text)
                        (set_file_metadata no_metadata (init images_dir))).1 in
  let st1 := outcome_state
               (pages_loop sample_digest false false (pages pdf_table_and_text)
                           (set_file_metadata no_metadata (init images_dir))).2 in
  exists d,
    process_pdf sample_digest false false pdf_table_and_text (init images_dir)
    = (ys ++ [(d, st1)], Done (after_yield st1))
    ∧ concat (map yielded_tables (ys ++ [(d, st1)]))
      = map (fun p => Some (page_table_text p)) (pages pdf_table_and_text).
Proof.
  apply (tables_kept_when_flushed sample_digest false false pdf_table_and_text
           (init images_dir) no_metadata).
  - apply wf_init.
  - reflexivity.
  - reflexivity.
  - reflexivity.
  - vm_compute. reflexivity.
  - vm_compute. discriminate.
Defined.

(** C4, counterexample: the heading path of the last document keeps the
    four unset slots. *)
Lemma final_titles_keep_unset_slots :
  exists d st,
    last (run false false pdf_sub_tail).1 = Some (d, st)
    ∧ titles_of d st = Some [Some "Top"; Some "Sub"; None; None; None; None]
    ∧ omit_trailing_unset (deref st (text_titles st)) = [Some "Top"; Some "Sub"].
Proof. do 2 eexists. split_and!; vm_compute; reflexivity. Qed.

(** C4, witness. *)
Lemma final_titles_witness :
  let ys := (pages_loop sample_digest false false (pages pdf_sub_tail)
                        (set_file_metadata no_metadata (init images_dir))).1 in
  let st1 := outcome_state
               (pages_loop sample_digest false false (pages pdf_sub_tail)
                           (set_file_metadata no_metadata (init images_dir))).2 in
  exists d,
    process_pdf sample_digest false false pdf_sub_tail (init images_dir)
    = (ys ++ [(d, st1)], Done (after_yield st1))
    ∧ Langchain.metadata d !! "titles" = Some (Langchain.VList (text_titles st1))
    ∧ titles_of d st1 = Some (deref st1 (text_titles st1))
    ∧ length (deref st1 (text_titles st1)) = 6.
Proof.
  apply (final_titles_full_stack sample_digest false false pdf_sub_tail
           (init images_dir) no_metadata).
  - apply wf_init.
  - reflexivity.
  - reflexivity.
  - vm_compute. reflexivity.
  - vm_compute. discriminate.
Defined.

(** C5, witness: paragraphs A and B on two pages, then a heading: the
    first body is AB. *)
Lemma paragraph_concatenation_witness :
  map (fun y => Langchain.page_content y.1)
      (process_pdf sample_digest false false pdf_a_b (init images_dir)).1
  = segment_texts (is_text_paragraph sample_digest false images_dir) (stream pdf_a_b).
Proof.
  apply (paragraph_concatenation sample_digest false images_dir pdf_a_b
           (init images_dir) no_metadata).
  - apply wf_init.
  - reflexivity.
  - reflexivity.
  - reflexivity.
  - apply Forall_forall. intros c _ _ Hexact. discriminate Hexact.
Defined.

Example window_texts_a_b :
  segment_texts (is_text_paragraph sample_digest false images_dir) (stream pdf_a_b)
  = ["AB"; "C"].
Proof. vm_compute. reflexivity. Qed.

Example window_texts_with_image :
  map (fun y => Langchain.page_content y.1)
      (run false true (mk_pdf no_metadata
                         [mk_page [] [p "A"; good_image; linked_image; p "B"]])).1
  = ["AcaptionB"].
Proof. vm_compute. reflexivity. Qed.

(** C6. With title embedding, on the sample whose level-1 heading is
    empty, the document closed by heading (2, B) and the document flushed
    at the end of the input have the same heading path texts, the empty
    text and B.  For each document the triple below gives the texts of its
    heading path, its body, and the body the claim gives: the path joined
    by newline, a blank line and the text accumulated at the [yield].  The
    first two agree for the document closed by the heading, where line 149
    joins the path as it is; they differ for the last document, where
    [filter(None, ...)] at line 182 drops the empty text with the unset
    slots. *)
Theorem final_flush_drops_empty_heading :
  map (fun y =>
         let texts := set_texts <$> titles_of y.1 y.2 in
         (texts,
          Langchain.page_content y.1,
          Py.join nl (default [] texts) +:+ nl +:+ nl +:+ accumulated_text y.2))
      (run true false pdf_empty_top).1
  = [(Some [""; "B"],
      nl +:+ "B" +:+ nl +:+ nl +:+ "x",
      nl +:+ "B" +:+ nl +:+ nl +:+ "x");
     (Some [""; "B"],
      "B" +:+ nl +:+ nl +:+ "y",
      nl +:+ "B" +:+ nl +:+ nl +:+ "y")].
Proof. vm_compute. reflexivity. Qed.

(** C9, counterexample: a payload that is not valid base64 ends the
    generator with [binascii.Error]; the text of the paragraph is not
    appended. *)
Lemma bad_payload_aborts :
  handle_child sample_digest false true bad_image (init images_dir)
  = Fail BinasciiError (init images_dir)
  ∧ (children_loop sample_digest false true [bad_image; p "after"] (init images_dir))
    = ([], Raised BinasciiError (init images_dir)).
Proof. split; vm_compute; reflexivity. Qed.

(** C9, witness. *)
Lemma paragraph_without_image_witness :
  handle_child sample_digest false true linked_image (init images_dir)
  = Next (set_accumulated_text (accumulated_text (init images_dir) +:+ "caption")
                               (init images_dir)).
Proof.
  apply (proj1 (paragraph_without_image_is_text sample_digest false "caption"
                  (Some (mk_tag (<["src" := "http://example.org/a.png"]> ∅)))
                  (init images_dir))).
  exists "http://example.org/a.png". split; [reflexivity|].
  left. reflexivity.
Defined.

(** C10, witness: a key named [titles] in the file metadata. *)
Lemma file_metadata_witness :
  let y := default (Langchain.mk_document "" ∅, init images_dir)
                   (last (process_pdf sample_digest false false pdf_titles_key
                                      (init images_dir)).1) in
  Langchain.metadata y.1 !! "titles" = Some (Langchain.VStr "from the file").
Proof.
  refine (proj2 (proj2 (file_metadata_merged_last sample_digest false false
                   pdf_titles_key (init images_dir)
                   (<["titles" := "from the file"]>
                      (<["creationDate" := "2023-06-15 14:30:22"]> ∅))
                   _ _ _ _ _)) "titles" "from the file" _ _).
  - apply wf_init.
  - vm_compute. reflexivity.
  - vm_compute. constructor.
  - constructor.
  - vm_compute. reflexivity.
Defined.

End ProcessorFacts.

(** * The date conversion *)

Module DateFacts.

Import DateFields.

Lemma convert_pdf_date_parsed (s : string) :
  _convert_pdf_date s
  = match parsed s with
    | Some v => if valid_date v then Ok (formatted v) else Raise ValueError
    | None => Raise ValueError
    end.
Proof.
  unfold _convert_pdf_date, parsed, Py.int, field_year, field_month, field_day,
    field_hour, field_minute, field_second.
  destruct (Py.int_opt (Py.slice s 2 6)) as [y|]; simpl; [|done].
  destruct (Py.int_opt (Py.slice s 6 8)) as [mo|]; simpl; [|done].
  destruct (Py.int_opt (Py.slice s 8 10)) as [d|]; simpl; [|done].
  destruct (Py.int_opt (Py.slice s 10 12)) as [h|]; simpl; [|done].
  destruct (Py.int_opt (Py.slice s 12 14)) as [mi|]; simpl; [|done].
  destruct (Py.int_opt (Py.slice s 14 16)) as [se|]; simpl; [|done].
  unfold DateTime.make. by destruct (DateTime.valid y mo d h mi se).
Qed.

Lemma isdigit_digit_chars (c : ascii) : Py.isdigit c = true -> In c digit_chars.
Proof.
  destruct c as [[] [] [] [] [] [] [] []]; vm_compute; intros H;
    try discriminate H; auto 12.
Qed.

Lemma roundtrip2_all :
  forallb (fun a => forallb (fun b => roundtrip2 a b) digit_chars) digit_chars = true.
Proof. vm_compute. reflexivity. Qed.

Lemma roundtrip4_all :
  forallb (fun a => forallb (fun b => forallb (fun c => forallb (fun d =>
    roundtrip4 a b c d) digit_chars) digit_chars) digit_chars) digit_chars = true.
Proof. vm_compute. reflexivity. Qed.

Lemma digit_field2 (f : string) :
  digit_field 2 f = true -> exists n, Py.int_opt f = Some n ∧ DateTime.pad2 n = f.
Proof.
  unfold digit_field. intros H. apply andb_true_iff in H as [Hlen Hd].
  destruct f as [|a [|b [|? ?]]]; try discriminate Hlen.
  simpl in Hd. apply andb_true_iff in Hd as [Ha Hd].
  apply andb_true_iff in Hd as [Hb _].
  apply isdigit_digit_chars in Ha, Hb.
  pose proof roundtrip2_all as Hall.
  rewrite forallb_forall in Hall. specialize (Hall a Ha).
  rewrite forallb_forall in Hall. specialize (Hall b Hb).
  unfold roundtrip2 in Hall. cbv zeta in Hall.
  destruct (Py.int_opt (String a (String b ""))) as [n|]; [|done].
  exists n. split; [done|]. by apply String.eqb_eq.
Qed.

Lemma digit_field4 (f : string) :
  digit_field 4 f = true ->
  exists n, Py.int_opt f = Some n ∧ ((1000 <= n)%Z -> DateTime.year_text n = f).
Proof.
  unfold digit_field. intros H. apply andb_true_iff in H as [Hlen Hd].
  destruct f as [|a [|b [|c [|d [|? ?]]]]]; try discriminate Hlen.
  simpl in Hd. apply andb_true_iff in Hd as [Ha Hd].
  apply andb_true_iff in Hd as [Hb Hd].
  apply andb_true_iff in Hd as [Hc Hd].
  apply andb_true_iff in Hd as [Hd _].
  apply isdigit_digit_chars in Ha, Hb, Hc, Hd.
  pose proof roundtrip4_all as Hall.
  rewrite forallb_forall in Hall. specialize (Hall a Ha).
  rewrite forallb_forall in Hall. specialize (Hall b Hb).
  rewrite forallb_forall in Hall. specialize (Hall c Hc).
  rewrite forallb_forall in Hall. specialize (Hall d Hd).
  unfold roundtrip4 in Hall. cbv zeta in Hall.
  destruct (Py.int_opt (String a (String b (String c (String d ""))))) as [n|]; [|done].
  exists n. split; [done|]. intros Hn.
  apply orb_true_iff in Hall as [Hlt | Heq]; [|by apply String.eqb_eq].
  apply Z.ltb_lt in Hlt. lia.
Qed.

Lemma numeric_fields_parsed (s : string) :
  numeric_fields s = true ->
  exists v, parsed s = Some v ∧ ((1000 <= year_of v)%Z -> formatted v = reformatted s).
Proof.
  unfold numeric_fields. intros H.
  do 5 (apply andb_true_iff in H as [H ?]).
  destruct (digit_field4 _ H) as (y & Hy & Hy').
  destruct (digit_field2 (field_month s)) as (mo & Hmo & Hmo'); [done|].
  destruct (digit_field2 (field_day s)) as (d & Hd & Hd'); [done|].
  destruct (digit_field2 (field_hour s)) as (h & Hh & Hh'); [done|].
  destruct (digit_field2 (field_minute s)) as (mi & Hmi & Hmi'); [done|].
  destruct (digit_field2 (field_second s)) as (se & Hse & Hse'); [done|].
  exists (y, mo, d, h, mi, se). split.
  - unfold parsed. rewrite Hy, Hmo, Hd, Hh, Hmi, Hse. reflexivity.
  - intros Hyear. unfold formatted, reformatted, DateTime.strftime.
    cbn [DateTime.year DateTime.month DateTime.day DateTime.hour DateTime.minute
         DateTime.second].
    by rewrite (Hy' Hyear), Hmo', Hd', Hh', Hmi', Hse'.
Qed.

(** C8, amended. When the characters at positions 2 to 15 are decimal
    digits that form a valid calendar date and time with a year of at
    least 1000, the conversion returns them rewritten as
    YYYY-MM-DD HH:MM:SS.  The conversion fails, with [ValueError], exactly
    when [int] rejects one of the six fields or the values read are out of
    calendar range: a field that [int] accepts (digits with surrounding
    whitespace, a sign, or single underscores between digits) does not
    make it fail, and the result is then what [strftime] writes for the
    values read. *)
Theorem convert_pdf_date_spec (s : string) :
  (numeric_fields s = true ->
   is_Some (parsed s)
   ∧ ∀ v, parsed s = Some v -> valid_date v = true -> (1000 <= year_of v)%Z ->
          _convert_pdf_date s = Ok (reformatted s))
  ∧ (parsed s = None -> _convert_pdf_date s = Raise ValueError)
  ∧ (∀ v, parsed s = Some v -> valid_date v = false ->
          _convert_pdf_date s = Raise ValueError)
  ∧ (∀ v, parsed s = Some v -> valid_date v = true ->
          _convert_pdf_date s = Ok (formatted v)).
Proof.
  rewrite convert_pdf_date_parsed. split_and!.
  - intros Hnum. destruct (numeric_fields_parsed s Hnum) as (v & Hv & Hfmt).
    split; [by exists v|].
    intros v' Hv' Hvalid Hyear. rewrite Hv in Hv' |- *. injection Hv' as <-.
    by rewrite Hvalid, Hfmt.
  - by intros ->.
  - by intros v -> ->.
  - by intros v -> ->.
Qed.

Example convert_feb30 : _convert_pdf_date "D:20230230143022" = Raise ValueError.
Proof. reflexivity. Qed.

Example convert_letters : _convert_pdf_date "D:2023ab15143022" = Raise ValueError.
Proof. reflexivity. Qed.

(** The separators 28 to 31 are not whitespace for [int]. *)
Example convert_separator :
  _convert_pdf_date ("D:2023" +:+ String "028"%char "615143022") = Raise ValueError.
Proof. reflexivity. Qed.

(** C8, counterexample: a month field made of a blank and a digit is not
    numeric, and the conversion succeeds; the fields of the year 999 are
    numeric and form a valid date, and the result is not the fields
    rewritten as YYYY-MM-DD HH:MM:SS: [strftime] does not pad the year. *)
Lemma blank_month_and_short_year :
  (numeric_fields "D:2023 615143022" = false
   ∧ field_month "D:2023 615143022" = " 6"
   ∧ _convert_pdf_date "D:2023 615143022" = Ok "2023-06-15 14:30:22")
  ∧ (numeric_fields "D:09990615143022" = true
     ∧ parsed "D:09990615143022" = Some (999, 6, 15, 14, 30, 22)%Z
     ∧ valid_date (999, 6, 15, 14, 30, 22)%Z = true
     ∧ reformatted "D:09990615143022" = "0999-06-15 14:30:22"
     ∧ _convert_pdf_date "D:09990615143022" = Ok "999-06-15 14:30:22").
Proof. split; split_and!; reflexivity. Qed.

(** C8, witness: the date of the specification. *)
Lemma convert_pdf_date_witness :
  _convert_pdf_date "D:20230615143022+08'00'" = Ok "2023-06-15 14:30:22".
Proof.
  apply (proj2 (proj1 (convert_pdf_date_spec "D:20230615143022+08'00'") eq_refl)
               (2023, 6, 15, 14, 30, 22)%Z); [reflexivity | reflexivity | simpl; lia].
Defined.

End DateFacts.

(** * Further properties of the processor *)

Module ExtraFacts.

Import Pdf Processor Observe ObserveMore ProcessorFacts Agent.

Section Runs.

Variable md5_hexdigest : list Z -> string.
Variables embed_titles exact_images : bool.

Local Abbreviation handle_child := (handle_child md5_hexdigest embed_titles exact_images).
Local Abbreviation children_loop := (children_loop md5_hexdigest embed_titles exact_images).
Local Abbreviation pages_loop := (pages_loop md5_hexdigest embed_titles exact_images).
Local Abbreviation process_pdf := (process_pdf md5_hexdigest embed_titles exact_images).

(** ** No document without text *)

Lemma append_nonempty_r (a b : string) : b ≠ "" -> a +:+ b ≠ "".
Proof.
  intros Hb. destruct a as [|x a]; [done|].
  change (String x a +:+ b) with (String x (a +:+ b)). done.
Qed.

Lemma heading_yield_nonempty (c : Child) (st : State)
      (d : Langchain.Document) (st' : State) :
  wf st -> handle_child c st = Yield d st' ->
  accumulated_text st' ≠ "" ∧ Langchain.page_content d ≠ "".
Proof.
  intros Hwf Hy.
  apply handle_child_yield in Hy as (level & Hk & Hacc & Hst' & Hd); [|done].
  pose proof (wf_headed level (get_text c) st Hwf (kind_heading_range _ _ Hk)) as Hwf1.
  apply heading_document_inv in Hd as (_ & _ & Hbody); [|done].
  split; [by rewrite Hst'|].
  change (accumulated_text (headed level (get_text c) st))
    with (accumulated_text st) in Hbody.
  destruct embed_titles.
  - destruct Hbody as (ts & _ & ->). by do 3 apply append_nonempty_r.
  - by rewrite Hbody.
Qed.

Lemma final_document_nonempty (st : State) :
  accumulated_text st ≠ "" ->
  Langchain.page_content (final_document embed_titles st) ≠ "".
Proof.
  intros Hacc. unfold final_document. cbn [Langchain.page_content].
  destruct embed_titles; [|done]. by do 3 apply append_nonempty_r.
Qed.

(** X1. No document is yielded for an empty accumulation: at every
    [yield] the accumulated text is not empty, and neither is the body of
    the document. *)
Theorem yielded_documents_have_text
        (pdf : FitzDocument) (st0 : State) (d : Langchain.Document) (st : State) :
  wf st0 ->
  (d, st) ∈ (process_pdf pdf st0).1 ->
  accumulated_text st ≠ "" ∧ Langchain.page_content d ≠ "".
Proof.
  intros Hwf Hin.
  assert (Hall : Forall (fun y => accumulated_text y.2 ≠ ""
                                  ∧ Langchain.page_content y.1 ≠ "")
                        (process_pdf pdf st0).1).
  { apply (process_pdf_invariant md5_hexdigest embed_titles exact_images wf
             (fun d' s => accumulated_text s ≠ "" ∧ Langchain.page_content d' ≠ "")).
    - intros c s Hs. by apply wf_handle_child.
    - intros s Hs. by apply wf_after_yield.
    - intros t s Hs. by apply wf_append_table_text.
    - intros c s d' s' Hs Hy. by eapply heading_yield_nonempty.
    - intros s _ Hacc. split; [done | by apply final_document_nonempty].
    - intros md _. by apply wf_set_file_metadata. }
  rewrite Forall_forall in Hall. exact (Hall _ Hin).
Qed.

(** ** Nodes that are neither headings nor paragraphs *)

Lemma handle_child_other (c : Child) (st : State) :
  kind_of c = KOther -> handle_child c st = Next st.
Proof.
  unfold kind_of, Processor.handle_child.
  destruct (name_of c) as [name|]; [|done].
  destruct (heading_level name); [done|].
  by destruct (String.eqb name "p").
Qed.

Lemma children_loop_relevant (cs : list Child) (st : State) :
  children_loop (List.filter relevant cs) st = children_loop cs st.
Proof.
  revert st. induction cs as [|c cs IH]; intros st; [done|].
  cbn [List.filter]. unfold relevant at 1.
  destruct (kind_of c) eqn:Hk.
  - cbn [Processor.children_loop].
    destruct (handle_child c st) as [st1|d st1|e st1]; [apply IH | | done].
    by rewrite IH.
  - cbn [Processor.children_loop].
    destruct (handle_child c st) as [st1|d st1|e st1]; [apply IH | | done].
    by rewrite IH.
  - cbn [Processor.children_loop]. rewrite handle_child_other by done. apply IH.
Qed.

Lemma pages_loop_relevant (ps : list Page) (st : State) :
  pages_loop (map (fun p => mk_page (tables p) (List.filter relevant (children p))) ps) st
  = pages_loop ps st.
Proof.
  revert st. induction ps as [|p ps IH]; intros st; [done|].
  cbn [map Processor.pages_loop children].
  change (page_table_text (mk_page (tables p) (List.filter relevant (children p))))
    with (page_table_text p).
  rewrite children_loop_relevant.
  destruct (children_loop _ _) as [ys [st2|e st2]]; [|done].
  by rewrite IH.
Qed.

(** X2. Nodes other than [h1]..[h6] and [p] elements, bare strings among
    them, are ignored: a run over the document without them yields the
    same documents, in the same states, and ends the same way. *)
Theorem other_nodes_ignored (pdf : FitzDocument) (st0 : State) :
  process_pdf (drop_other_nodes pdf) st0 = process_pdf pdf st0.
Proof.
  unfold Processor.process_pdf, drop_other_nodes. cbn [Pdf.metadata pages].
  destruct (convert_dates (Pdf.metadata pdf)) as [md|]; [|done].
  by rewrite pages_loop_relevant.
Qed.

(** ** Documents without paragraphs *)

Lemma children_loop_no_paragraph (cs : list Child) (st : State) :
  wf st -> accumulated_text st = "" ->
  Forall (fun c => kind_of c ≠ KParagraph) cs ->
  exists st', children_loop cs st = ([], Done st')
              ∧ wf st' ∧ accumulated_text st' = "".
Proof.
  revert st. induction cs as [|c cs IH]; intros st Hwf Hacc Hall.
  - by exists st.
  - apply Forall_cons in Hall as [Hc Hall]. cbn [Processor.children_loop].
    rewrite handle_child_kind by done.
    destruct (kind_of c) as [level| |] eqn:Hk; [|done|by apply IH].
    cbv zeta. rewrite Hacc. cbn [String.eqb negb].
    apply IH; [|done|done].
    eauto using wf_headed, kind_heading_range.
Qed.

Lemma pages_loop_no_paragraph (ps : list Page) (st : State) :
  wf st -> accumulated_text st = "" ->
  Forall (fun c => kind_of c ≠ KParagraph) (concat (map children ps)) ->
  exists st', pages_loop ps st = ([], Done st') ∧ accumulated_text st' = "".
Proof.
  revert st. induction ps as [|p ps IH]; intros st Hwf Hacc Hall.
  - by exists st.
  - cbn [map concat] in Hall. apply Forall_app in Hall as [Hp Hps].
    cbn [Processor.pages_loop].
    destruct (children_loop_no_paragraph (children p)
                (append_table_text (page_table_text p) st))
      as (st2 & -> & Hwf2 & Hacc2); [by apply wf_append_table_text | done | done |].
    destruct (IH st2 Hwf2 Hacc2 Hps) as (st' & -> & Hacc').
    by exists st'.
Qed.

(** X3. A document without [p] elements yields nothing, whatever its
    headings and tables, and the run ends normally: a segment is only
    closed over accumulated paragraph text. *)
Theorem no_paragraph_no_document
        (pdf : FitzDocument) (st0 : State) (md : gmap string string) :
  wf st0 -> accumulated_text st0 = "" ->
  convert_dates (Pdf.metadata pdf) = Ok md ->
  Forall (fun c => kind_of c ≠ KParagraph) (stream pdf) ->
  exists st', process_pdf pdf st0 = ([], Done st').
Proof.
  intros Hwf Hacc Hmd Hall. unfold Processor.process_pdf. rewrite Hmd.
  destruct (pages_loop_no_paragraph (pages pdf) (set_file_metadata md st0))
    as (st' & -> & Hacc'); [by apply wf_set_file_metadata | done | done |].
  unfold final_flush. rewrite Hacc'. cbn. by exists st'.
Qed.

(** ** The heading stack along a run *)

Lemma children_loop_stack (cs : list Child) (st : State)
      (ys : list (Langchain.Document * State)) (st' : State) :
  wf st -> children_loop cs st = (ys, Done st') ->
  wf st'
  ∧ deref st' (text_titles st') = stack_after cs (deref st (text_titles st)).
Proof.
  revert st ys. induction cs as [|c cs IH]; intros st ys Hwf.
  - intros [= <- <-]. by split.
  - cbn [Processor.children_loop]. unfold stack_after. cbn [fold_left].
    pose proof (wf_handle_child md5_hexdigest embed_titles exact_images c st Hwf) as Hwf1.
    pose proof (titles_handle_child md5_hexdigest embed_titles exact_images c st Hwf)
      as Ht. cbv zeta in Ht.
    destruct (handle_child c st) as [st1|d st1|e st1]; cbn [step_state] in Hwf1, Ht.
    + intros Hloop. rewrite <- Ht. by eapply IH.
    + destruct (children_loop cs (after_yield st1)) as [ys' o] eqn:Hloop.
      intros [= <- ->].
      destruct (IH _ _ (wf_after_yield _ Hwf1) Hloop) as [H1 H2].
      split; [done|]. by rewrite H2, deref_after_yield_titles, Ht.
    + done.
Qed.

Lemma pages_loop_stack (ps : list Page) (st : State)
      (ys : list (Langchain.Document * State)) (st' : State) :
  wf st -> pages_loop ps st = (ys, Done st') ->
  wf st'
  ∧ deref st' (text_titles st')
    = stack_after (concat (map children ps)) (deref st (text_titles st)).
Proof.
  revert st ys. induction ps as [|p ps IH]; intros st ys Hwf.
  - intros [= <- <-]. by split.
  - cbn [Processor.pages_loop map concat].
    pose proof (wf_append_table_text (page_table_text p) st Hwf) as Hwf1.
    destruct (children_loop (children p) _) as [ys1 [st2|e st2]] eqn:Hc; [|done].
    destruct (children_loop_stack _ _ _ _ Hwf1 Hc) as [Hwf2 Ht2].
    rewrite titles_append_table_text in Ht2 by done.
    destruct (pages_loop ps st2) as [ys2 o] eqn:Hp. intros [= <- ->].
    destruct (IH _ _ Hwf2 Hp) as [H1 H2].
    split; [done|]. unfold stack_after in *. by rewrite fold_left_app, <- Ht2.
Qed.

(** X4. When a run ends normally, the heading stack is the one the
    headings of the document give, applied in order to the stack the run
    started with: paragraphs, tables, other nodes, yields and the two
    options leave the stack alone. *)
Theorem stack_follows_headings
        (pdf : FitzDocument) (st0 : State)
        (ys : list (Langchain.Document * State)) (st' : State) :
  wf st0 ->
  process_pdf pdf st0 = (ys, Done st') ->
  deref st' (text_titles st') = stack_after (stream pdf) (deref st0 (text_titles st0)).
Proof.
  intros Hwf. unfold Processor.process_pdf, stream.
  destruct (convert_dates (Pdf.metadata pdf)) as [md|]; [|done].
  destruct (pages_loop (pages pdf) (set_file_metadata md st0))
    as [ys1 [st1|e st1]] eqn:Hp; [|done].
  destruct (pages_loop_stack _ _ _ _ (wf_set_file_metadata md st0 Hwf) Hp) as [Hwf1 Ht].
  change (deref (set_file_metadata md st0) (text_titles (set_file_metadata md st0)))
    with (deref st0 (text_titles st0)) in Ht.
  unfold final_flush. destruct (negb _).
  - intros [= <- <-]. by rewrite deref_after_yield_titles.
  - intros [= <- <-]. done.
Qed.

(** ** How many documents *)

Lemma children_loop_count (cs : list Child) (st : State) :
  wf st -> length (children_loop cs st).1 <= count_headings cs.
Proof.
  revert st. induction cs as [|c cs IH]; intros st Hwf; [done|].
  cbn [Processor.children_loop].
  pose proof (wf_handle_child md5_hexdigest embed_titles exact_images c st Hwf) as Hwf1.
  pose proof (handle_child_yield md5_hexdigest embed_titles exact_images c st) as Hy.
  assert (Hle : count_headings cs <= count_headings (c :: cs)).
  { unfold count_headings. cbn [List.filter]. destruct (kind_of c); simpl; lia. }
  destruct (handle_child c st) as [st1|d st1|e st1]; cbn [step_state] in Hwf1.
  - specialize (IH st1 Hwf1). lia.
  - destruct (Hy d st1 Hwf eq_refl) as (level & Hk & _).
    specialize (IH _ (wf_after_yield _ Hwf1)).
    destruct (children_loop cs (after_yield st1)) as [ys o]. cbn in *.
    unfold count_headings in *. cbn [List.filter]. rewrite Hk. simpl. lia.
  - simpl. lia.
Qed.

Lemma children_loop_wf_done (cs : list Child) (st : State) :
  wf st -> wf (outcome_state (children_loop cs st).2).
Proof.
  intros Hwf.
  apply (children_loop_invariant md5_hexdigest embed_titles exact_images wf
           (fun _ _ => True));
    auto using wf_handle_child, wf_after_yield.
Qed.

Lemma pages_loop_count (ps : list Page) (st : State) :
  wf st -> length (pages_loop ps st).1 <= count_headings (concat (map children ps)).
Proof.
  revert st. induction ps as [|p ps IH]; intros st Hwf; [done|].
  cbn [Processor.pages_loop map concat].
  pose proof (wf_append_table_text (page_table_text p) st Hwf) as Hwf1.
  pose proof (children_loop_count (children p) _ Hwf1) as Hc.
  pose proof (children_loop_wf_done (children p) _ Hwf1) as Hwf2.
  assert (Happ : ∀ a b, count_headings (a ++ b) = count_headings a + count_headings b).
  { intros a b. unfold count_headings. by rewrite List.filter_app, length_app. }
  rewrite Happ.
  destruct (children_loop (children p) _) as [ys1 [st2|e st2]]; cbn in *; [|lia].
  specialize (IH st2 Hwf2).
  destruct (pages_loop ps st2) as [ys2 o]. cbn in *. rewrite length_app. lia.
Qed.

(** X5. A run yields at most one document for each heading of the
    document, and one more at the end of the input. *)
Theorem documents_bounded_by_headings (pdf : FitzDocument) (st0 : State) :
  wf st0 ->
  length (process_pdf pdf st0).1 <= count_headings (stream pdf) + 1.
Proof.
  intros Hwf. unfold Processor.process_pdf, stream.
  destruct (convert_dates (Pdf.metadata pdf)) as [md|]; [|simpl; lia].
  pose proof (pages_loop_count (pages pdf) _ (wf_set_file_metadata md st0 Hwf)) as Hc.
  destruct (pages_loop (pages pdf) (set_file_metadata md st0)) as [ys [st1|e st1]];
    cbn in *; [|lia].
  unfold final_flush. destruct (negb _); cbn; rewrite length_app; simpl; lia.
Qed.

End Runs.

(** ** Exceptions *)

Section Exceptions.

Variable md5_hexdigest : list Z -> string.
Variable exact_images : bool.

Lemma heading_document_embed (level : nat) (st : State) :
  match mapM id (take level (deref st (text_titles st))) with
  | Some _ => exists d st2, heading_document true level st = Ok (d, st2)
  | None => heading_document true level st = Raise TypeError
  end.
Proof.
  unfold heading_document, Py.join_items.
  destruct (mapM id (take level (deref st (text_titles st)))); cbn; eauto.
Qed.

Lemma unset_in_slice (level : nat) (text : string) (t : pylist) :
  length t = 6 -> 1 <= level <= 6 ->
  mapM id (take level (new_titles level text t)) = None
  <-> exists j, j < level - 1 ∧ t !! j = Some None.
Proof.
  intros Ht Hl. rewrite mapM_None, Exists_exists. split.
  - intros (x & Hx & Hnone). simpl in Hnone. subst x.
    apply list_elem_of_lookup in Hx as [j Hj].
    pose proof (lookup_lt_Some _ _ _ Hj) as Hlt.
    rewrite length_take, new_titles_length in Hlt by done.
    rewrite lookup_take_lt in Hj by lia.
    destruct (decide (j = level - 1)) as [->|Hne].
    + rewrite new_titles_at in Hj by done. done.
    + exists j. split; [lia|]. rewrite <- Hj. symmetry.
      apply new_titles_shallower; [done | done | lia].
  - intros (j & Hj & Hnone). exists None. split; [|done].
    apply list_elem_of_lookup. exists j.
    rewrite lookup_take_lt by lia.
    rewrite new_titles_shallower by done. done.
Qed.

(** X6. With title embedding, a heading at level L that closes a segment
    raises [TypeError] exactly when a level above L is unset (a document
    whose text is first closed by a heading below level 1, or after a
    jump over a level); the stack has then been updated and no document
    is yielded.  Without title embedding the same heading always yields. *)
Theorem embedded_heading_type_error (c : Child) (level : nat) (st : State) :
  wf st -> kind_of c = KHeading level -> accumulated_text st ≠ "" ->
  (Processor.handle_child md5_hexdigest true exact_images c st
   = Fail TypeError (headed level (get_text c) st)
   <-> exists j, j < level - 1 ∧ deref st (text_titles st) !! j = Some None)
  ∧ (¬ (exists j, j < level - 1 ∧ deref st (text_titles st) !! j = Some None) ->
     exists d st', Processor.handle_child md5_hexdigest true exact_images c st
                   = Yield d st')
  ∧ exists d st', Processor.handle_child md5_hexdigest false exact_images c st
                  = Yield d st'.
Proof.
  intros Hwf Hk Hacc.
  pose proof (kind_heading_range _ _ Hk) as Hl.
  pose proof (wf_six st Hwf) as Hsix.
  rewrite !handle_child_kind, Hk by done. cbv zeta.
  apply String.eqb_neq in Hacc. rewrite Hacc. cbn [negb].
  pose proof (heading_document_embed level (headed level (get_text c) st)) as He.
  change (text_titles (headed level (get_text c) st)) with (text_titles st) in He.
  rewrite deref_headed_titles in He by done.
  pose proof (unset_in_slice level (get_text c) (deref st (text_titles st)) Hsix Hl)
    as Hiff.
  destruct (mapM id (take level (new_titles level (get_text c)
                                            (deref st (text_titles st))))) as [ts|].
  - destruct He as (d & st2 & ->). split_and!.
    + split; [done|]. intros Hex. apply Hiff in Hex. done.
    + eauto.
    + unfold heading_document. cbn. eauto.
  - rewrite He. split_and!.
    + split; [intros _; by apply Hiff | done].
    + intros Hno. destruct Hno. by apply Hiff.
    + unfold heading_document. cbn. eauto.
Qed.

End Exceptions.

(** ** Runs with the default options *)

Section Defaults.

Variable md5_hexdigest : list Z -> string.

Lemma convert_pdf_date_raises (s : string) (e : Exn) :
  _convert_pdf_date s = Raise e -> e = ValueError.
Proof.
  rewrite DateFacts.convert_pdf_date_parsed.
  destruct (DateFields.parsed s) as [v|]; [|by intros [= <-]].
  destruct (DateFields.valid_date v); [done | by intros [= <-]].
Qed.

Lemma convert_date_key_raises (key : string) (m : gmap string string) (e : Exn) :
  convert_date_key key m = Raise e -> e = ValueError.
Proof.
  unfold convert_date_key. destruct (m !! key) as [v|]; [|done].
  destruct (_convert_pdf_date v) as [v'|e'] eqn:Hv; cbn; [done|].
  intros [= <-]. by eapply convert_pdf_date_raises.
Qed.

Lemma convert_dates_raises (m : gmap string string) (e : Exn) :
  convert_dates m = Raise e -> e = ValueError.
Proof.
  unfold convert_dates.
  destruct (convert_date_key "creationDate" m) as [md1|e1] eqn:H1; cbn.
  - apply convert_date_key_raises.
  - intros [= <-]. by eapply convert_date_key_raises.
Qed.

(** X7. Called with its default options (no title embedding, no image
    extraction), [process_pdf] raises only while it converts the two
    dates, with [ValueError] and before any page is read; once the dates
    are converted the run ends normally. *)
Theorem default_run_completes (pdf : FitzDocument) (st0 : State) :
  wf st0 ->
  match convert_dates (Pdf.metadata pdf) with
  | Ok _ => exists ys st', process_pdf md5_hexdigest false false pdf st0 = (ys, Done st')
  | Raise e =>
      e = ValueError
      ∧ process_pdf md5_hexdigest false false pdf st0 = ([], Raised ValueError st0)
  end.
Proof.
  intros Hwf. unfold process_pdf.
  destruct (convert_dates (Pdf.metadata pdf)) as [md|e] eqn:Hmd.
  - destruct (pages_loop_bodies md5_hexdigest false (pdf_images_dir st0) (pages pdf)
                (set_file_metadata md st0)) as (st1 & H1 & _).
    + by apply wf_set_file_metadata.
    + done.
    + apply Forall_forall. intros c _ _ Hexact. discriminate Hexact.
    + destruct (pages_loop _ _ _ _ _) as [ys o]. cbn in H1. subst o.
      unfold final_flush. destruct (negb _); eauto.
  - apply convert_dates_raises in Hmd as ->. by split.
Qed.

(** *** No image without image extraction *)

Lemma no_image_handle_child (embed_titles : bool) (st0 : State) (c : Child) (st : State) :
  no_image_since st0 st ->
  no_image_since st0 (step_state (handle_child md5_hexdigest embed_titles false c st)).
Proof.
  intros (Hwf & Himg & Hf & Hd). pose proof Hwf as [W1 W2 W3 W4 W5 W6 W7].
  split; [by apply wf_handle_child|].
  rewrite handle_child_kind by done.
  destruct (kind_of c) as [level| |] eqn:Hk; [| |done].
  - pose proof (wf_headed level (get_text c) st Hwf (kind_heading_range _ _ Hk)) as Hwf1.
    assert (Hh : deref (headed level (get_text c) st) (image_paths st) = [])
      by (rewrite deref_headed_other; [done | congruence]).
    cbv zeta. destruct (negb _); cbn [step_state]; [|done].
    destruct (heading_document _ _ _) as [[d st2]|] eqn:Hdoc; cbn [step_state]; [|done].
    apply heading_document_inv in Hdoc as (-> & _); [|done].
    split_and!; [|done..].
    change (image_paths (heading_yield_state level (headed level (get_text c) st)))
      with (image_paths st).
    rewrite deref_heading_yield_state; [done|].
    unfold headed. by rewrite length_store_assign.
  - done.
Qed.

Lemma no_image_after_yield (st0 st : State) :
  no_image_since st0 st -> no_image_since st0 (after_yield st).
Proof.
  intros (Hwf & Himg & Hf & Hd). split; [by apply wf_after_yield|].
  split_and!; [|done..].
  destruct Hwf as [W1 W2 W3 W4 W5 W6 W7].
  unfold deref, after_yield. cbn.
  rewrite list_lookup_insert_ne by lia.
  rewrite lookup_app_r by lia. by rewrite Nat.sub_diag.
Qed.

Lemma no_image_append_table_text (st0 : State) (t : string) (st : State) :
  no_image_since st0 st -> no_image_since st0 (append_table_text t st).
Proof.
  intros (Hwf & Himg & Hf & Hd). split; [by apply wf_append_table_text|].
  split_and!; [|done..].
  unfold append_table_text. change (image_paths (assign _ _ st)) with (image_paths st).
  rewrite deref_assign_ne; [done|]. destruct Hwf. congruence.
Qed.

Lemma process_pdf_no_image (embed_titles : bool) (pdf : FitzDocument) (st0 : State)
      (md : gmap string string) :
  wf st0 -> deref st0 (image_paths st0) = [] ->
  convert_dates (Pdf.metadata pdf) = Ok md -> md !! "images" = None ->
  Forall (fun y => images_of y.1 y.2 = Some []
                   ∧ fs_files y.2 = fs_files st0 ∧ fs_dirs y.2 = fs_dirs st0)
         (process_pdf md5_hexdigest embed_titles false pdf st0).1.
Proof.
  intros Hwf Himg Hmd Hkey.
  apply (process_pdf_invariant md5_hexdigest embed_titles false
           (fun st => no_image_since st0 st ∧ file_metadata st = md)
           (fun d st => images_of d st = Some []
                        ∧ fs_files st = fs_files st0 ∧ fs_dirs st = fs_dirs st0)).
  - intros c st [H1 H2]. split; [by apply no_image_handle_child|].
    destruct H1 as (Hw & _).
    by destruct (frame_handle_child md5_hexdigest embed_titles false c st Hw) as (-> & _).
  - intros st [H1 H2]. split; [by apply no_image_after_yield | done].
  - intros t st [H1 H2]. split; [by apply no_image_append_table_text | done].
  - intros c st d st' [H1 H2] Hy.
    pose proof (no_image_handle_child embed_titles st0 c st H1) as Hstep.
    rewrite Hy in Hstep. cbn [step_state] in Hstep.
    destruct Hstep as (_ & Himg' & Hf' & Hd'). split_and!; [|done..].
    destruct H1 as (Hw & _).
    apply handle_child_yield in Hy as (level & Hk & _ & Hst' & Hdoc); [|done].
    apply heading_document_inv in Hdoc as (_ & Hmeta & _);
      [|eauto using wf_headed, kind_heading_range].
    unfold images_of, list_entry. rewrite Hmeta.
    rewrite merged_lookup_images
      by (change (file_metadata st !! "images" = None); by rewrite H2).
    f_equal. rewrite <- Himg'. by rewrite Hst'.
  - intros st [(Hw & Hi & Hf & Hd) H2] _. split_and!; [|done..].
    unfold images_of, list_entry.
    rewrite final_document_metadata, merged_lookup_images by by rewrite H2.
    by rewrite Hi.
  - intros md' Hmd'. rewrite Hmd in Hmd'. injection Hmd' as <-.
    split; [|done]. split_and!; try done. by apply wf_set_file_metadata.
Qed.

Variable fitz_open : string -> FitzDocument.

(** X8. The documents [split_agent_pdf] yields hold no image, and no
    file or directory has been written when they are yielded: the agent
    calls [process_pdf] without image extraction, on a new processor. *)
Theorem split_agent_stores_no_image
        (self : PDFSplitAgent) (embed_titles : bool) (md : gmap string string)
        (d : Langchain.Document) (st : State) :
  convert_dates (Pdf.metadata (fitz_open (pdf_path self))) = Ok md ->
  md !! "images" = None ->
  (d, st) ∈ (split_agent_pdf md5_hexdigest fitz_open self embed_titles).1 ->
  images_of d st = Some [] ∧ fs_files st = ∅ ∧ fs_dirs st = ∅.
Proof.
  intros Hmd Hkey Hin. unfold split_agent_pdf in Hin.
  pose proof (process_pdf_no_image embed_titles (fitz_open (pdf_path self))
                (init default_images_dir) md (wf_init _) eq_refl Hmd Hkey) as Hall.
  rewrite Forall_forall in Hall. exact (Hall _ Hin).
Qed.

End Defaults.

(** ** Documents that stay as they were yielded *)

Section Kept.

Variable md5_hexdigest : list Z -> string.
Variables embed_titles exact_images : bool.

Lemma all_later_fin (R : Langchain.Document * State -> State -> Prop)
      (ys : list (Langchain.Document * State)) (fin fin' : State) :
  all_later R ys fin -> Forall (fun y => R y fin') ys -> all_later R ys fin'.
Proof.
  induction ys as [|y ys IH]; [done|]. cbn.
  intros (H1 & H2 & H3) Hall. apply Forall_cons in Hall as [Hy Hall].
  split_and!; [done | done | by apply IH].
Qed.

Lemma all_later_last (R : Langchain.Document * State -> State -> Prop)
      (ys : list (Langchain.Document * State)) (fin : State) :
  all_later R ys fin -> Forall (fun y => R y fin) ys.
Proof.
  induction ys as [|y ys IH]; [done|]. cbn.
  intros (H1 & H2 & H3). constructor; [done | by apply IH].
Qed.

(** X9. The documents yielded at the headings are handed over for good:
    their titles, images and table texts read, in the state of every
    later [yield] and in the state the run ends in, as they did at their
    own [yield]. *)
Theorem documents_of_headings_immutable
        (pdf : FitzDocument) (st0 : State) (md : gmap string string)
        (ys : list (Langchain.Document * State)) (o : Outcome) :
  wf st0 ->
  convert_dates (Pdf.metadata pdf) = Ok md ->
  pages_loop md5_hexdigest embed_titles exact_images (pages pdf)
             (set_file_metadata md st0) = (ys, o) ->
  let r := process_pdf md5_hexdigest embed_titles exact_images pdf st0 in
  exists tail,
    r.1 = ys ++ tail
    ∧ Forall (fun y => Forall (fun z => kept y z.2) tail) ys
    ∧ all_later kept ys (outcome_state r.2).
Proof.
  intros Hwf Hmd Hloop r.
  pose proof (heading_documents_kept md5_hexdigest embed_titles exact_images
                pdf st0 md Hwf) as Hk. cbv zeta in Hk. rewrite Hloop in Hk.
  cbn [fst snd] in Hk. destruct Hk as [Hlater Hreset].
  pose proof (all_later_last _ _ _ Hlater) as Hlast.
  subst r. unfold process_pdf. rewrite Hmd, Hloop.
  destruct o as [st1|e st1]; cbn [outcome_state] in *.
  - unfold final_flush. destruct (negb _); cbn [fst snd outcome_state].
    + exists [(final_document embed_titles st1, st1)]. split_and!; [done| |].
      * eapply Forall_impl; [exact Hlast|]. intros y Hy. by constructor.
      * by eapply all_later_fin.
    + exists []. split_and!; [done | | done].
      eapply Forall_impl; [exact Hlast|]. by intros.
  - exists []. cbn [fst snd outcome_state]. split_and!; [by rewrite app_nil_r | | done].
    eapply Forall_impl; [exact Hlast|]. by intros.
Qed.

(** X10. The document flushed after the last page keeps its titles and
    its images when the generator is resumed: the processor then takes a
    new list for its images and leaves the heading stack as it is. *)
Theorem final_document_titles_images_kept (st : State) :
  wf st ->
  titles_images_kept (final_document embed_titles st, st) (after_yield st).
Proof.
  intros Hwf. pose proof Hwf as [W1 W2 W3 W4 W5 W6 W7].
  unfold titles_images_kept, list_entry. cbn [fst snd].
  rewrite final_document_metadata.
  split.
  - destruct (file_metadata st !! "titles") as [v|] eqn:Hk.
    + by rewrite (merged_lookup_file _ _ _ _ _ _ Hk).
    + rewrite merged_lookup_titles by done. f_equal.
      by apply deref_after_yield_other.
  - destruct (file_metadata st !! "images") as [v|] eqn:Hk.
    + by rewrite (merged_lookup_file _ _ _ _ _ _ Hk).
    + rewrite merged_lookup_images by done. f_equal.
      by apply deref_after_yield_other.
Qed.

End Kept.

(** ** Storing an image *)

Section Images.

Variable md5_hexdigest : list Z -> string.

(** X11. Storing an image is idempotent: when an image was stored, its
    directory exists and its file is there, and looking for the same image
    again returns the same path and changes nothing; a processor with the
    same directory, whatever else its state holds, gets the same path. *)
Theorem image_storage_idempotent
        (tag : option Tag) (st : State) (path : string) (st1 : State) :
  _check_and_decode_base64_image md5_hexdigest tag st = Ok (Some path, st1) ->
  _check_and_decode_base64_image md5_hexdigest tag st1 = Ok (Some path, st1)
  ∧ pdf_images_dir st ∈ fs_dirs st1
  ∧ is_Some (fs_files st1 !! path)
  ∧ ∀ st2, pdf_images_dir st2 = pdf_images_dir st ->
           exists st3,
             _check_and_decode_base64_image md5_hexdigest tag st2 = Ok (Some path, st3).
Proof.
  intros H. split_and!.
  - revert H. rewrite !check_and_decode_unfold.
    destruct tag as [tag|]; [|done].
    destruct (getitem tag "src") as [src|]; cbn [rbind]; [|done].
    destruct (negb (Py.startswith src data_url_prefix)); [done|].
    destruct (Py.find src data_url_prefix 0) as [a|]; [|done].
    destruct (Py.find src data_url_suffix a) as [b|]; [|done].
    destruct (Base64.b64decode _) as [data|]; cbn [rbind]; [|done].
    destruct (String.eqb (pdf_images_dir st) "") eqn:Hdir; [done|].
    cbv zeta. intros [= <- <-]. cbn [pdf_images_dir fs_dirs fs_files set_fs].
    rewrite Hdir. f_equal. f_equal. unfold set_fs. cbn. f_equal.
    + apply leibniz_equiv. rewrite <- (assoc_L (∪)). by rewrite union_idemp_L.
    + apply insert_insert_eq.
  - revert H. rewrite check_and_decode_unfold.
    destruct tag as [tag|]; [|done].
    destruct (getitem tag "src") as [src|]; cbn [rbind]; [|done].
    destruct (negb (Py.startswith src data_url_prefix)); [done|].
    destruct (Py.find src data_url_prefix 0) as [a|]; [|done].
    destruct (Py.find src data_url_suffix a) as [b|]; [|done].
    destruct (Base64.b64decode _) as [data|]; cbn [rbind]; [|done].
    destruct (String.eqb (pdf_images_dir st) ""); [done|].
    intros [= <- <-]. cbn. apply elem_of_union_r, elem_of_singleton. reflexivity.
  - revert H. rewrite check_and_decode_unfold.
    destruct tag as [tag|]; [|done].
    destruct (getitem tag "src") as [src|]; cbn [rbind]; [|done].
    destruct (negb (Py.startswith src data_url_prefix)); [done|].
    destruct (Py.find src data_url_prefix 0) as [a|]; [|done].
    destruct (Py.find src data_url_suffix a) as [b|]; [|done].
    destruct (Base64.b64decode _) as [data|]; cbn [rbind]; [|done].
    destruct (String.eqb (pdf_images_dir st) ""); [done|].
    intros [= <- <-]. cbn. rewrite lookup_insert_eq. by eexists.
  - intros st2 Hdir.
    pose proof (check_and_decode_dir md5_hexdigest tag st) as H1.
    pose proof (check_and_decode_dir md5_hexdigest tag st2) as H2.
    rewrite Hdir in H2.
    destruct (_check_and_decode_base64_image md5_hexdigest tag
                (init (pdf_images_dir st))) as [[r s0]|e].
    + destruct H1 as (d1 & f1 & H1). rewrite H1 in H. injection H as -> _.
      destruct H2 as (d2 & f2 & H2). eauto.
    + rewrite H1 in H. done.
Qed.

(** *** The stored file lies in the directory of the images *)

Lemma no_slash_app (a b : string) : no_slash (a +:+ b) = no_slash a && no_slash b.
Proof.
  induction a as [|x a IH]; [done|].
  change (String x a +:+ b) with (String x (a +:+ b)). cbn [no_slash].
  by rewrite IH, andb_assoc.
Qed.

Lemma split_last_aux_no_slash (s cur : string) :
  no_slash cur = true -> no_slash (Py.split_last_aux "/" s cur) = true.
Proof.
  revert cur. induction s as [|c s IH]; intros cur Hcur; [done|].
  cbn [Py.split_last_aux]. destruct (Ascii.eqb c "/") eqn:Hc.
  - by apply IH.
  - apply IH. rewrite no_slash_app, Hcur. cbn. by rewrite Hc.
Qed.

Lemma path_join_no_slash (dir name : string) :
  no_slash name = true ->
  path_join dir name
  = if String.eqb dir "" then name
    else if ends_with_slash dir then dir +:+ name
    else dir +:+ "/" +:+ name.
Proof.
  intros Hname. unfold path_join, ends_with_slash.
  replace (Py.startswith name "/") with false; [done|].
  destruct name as [|c name]; [done|].
  cbn in Hname. apply andb_true_iff in Hname as [Hc _].
  unfold Py.startswith. cbn [String.prefix].
  destruct (ascii_dec "/" c) as [<-|Hne]; [done|done].
Qed.

(** X12. The file of an image is written directly in [pdf_images_dir]:
    when the digest holds no path separator, as a hexadecimal digest does,
    the name of the file holds none either, whatever the [src] of the
    image says after [data:image/], and the path is the directory, a
    separator when the directory does not end with one, and the name. *)
Theorem stored_image_inside_directory
        (tag : option Tag) (st : State) (path : string) (st1 : State) :
  (∀ data, no_slash (md5_hexdigest data) = true) ->
  _check_and_decode_base64_image md5_hexdigest tag st = Ok (Some path, st1) ->
  exists name,
    no_slash name = true
    ∧ path = (if String.eqb (pdf_images_dir st) "" then name
              else if ends_with_slash (pdf_images_dir st)
                   then pdf_images_dir st +:+ name
                   else pdf_images_dir st +:+ "/" +:+ name).
Proof.
  intros Hhex. rewrite check_and_decode_unfold.
  destruct tag as [tag|]; [|done].
  destruct (getitem tag "src") as [src|]; cbn [rbind]; [|done].
  destruct (negb (Py.startswith src data_url_prefix)); [done|].
  destruct (Py.find src data_url_prefix 0) as [a|]; [|done].
  destruct (Py.find src data_url_suffix a) as [b|]; [|done].
  destruct (Base64.b64decode _) as [data|]; cbn [rbind]; [|done].
  destruct (String.eqb (pdf_images_dir st) "") eqn:Hdir; [done|].
  cbv zeta. intros [= <- <-].
  assert (Hname : no_slash (md5_hexdigest data +:+ "." +:+
                            Py.split_last "/"
                              (Py.slice src (a + String.length data_url_prefix) b))
                  = true).
  { rewrite !no_slash_app, Hhex. cbn [andb].
    change (no_slash ".") with true. cbn [andb].
    by apply split_last_aux_no_slash. }
  eexists. split; [exact Hname|].
  by rewrite path_join_no_slash, Hdir.
Qed.

(** *** The exceptions of a paragraph *)

Lemma a2b_loop_raises (s : string) (quad_pos : nat) (leftchar : Z) (pads : nat)
      (out : list Z) (e : Exn) :
  Base64.a2b_loop s quad_pos leftchar pads out = Raise e -> e = BinasciiError.
Proof.
  revert quad_pos leftchar pads out.
  induction s as [|c s IH]; intros quad_pos leftchar pads out; cbn [Base64.a2b_loop].
  - destruct (quad_pos =? 0)%nat; [done | by intros [= <-]].
  - destruct (Ascii.eqb c "=").
    + destruct (2 <=? quad_pos)%nat; [|apply IH].
      destruct (4 <=? quad_pos + S pads)%nat; [done | apply IH].
    + destruct (Base64.table_a2b c) as [this_ch|]; [|apply IH].
      destruct quad_pos as [|[|[|q]]]; apply IH.
Qed.

Lemma b64decode_raises (s : string) (e : Exn) :
  Base64.b64decode s = Raise e -> e = ValueError ∨ e = BinasciiError.
Proof.
  unfold Base64.b64decode. destruct (Base64.all_ascii s).
  - intros H. right. by eapply a2b_loop_raises.
  - intros [= <-]. by left.
Qed.

(** X13. A [p] element raises only when images are extracted and it
    holds an [img]: [KeyError] when the [img] has no [src]; otherwise the
    [src] is a [data:image/...;base64,] URL, and the exception is the
    [ValueError] (text that is not ASCII) or the [binascii.Error] of
    [b64decode] when the payload cannot be decoded, and comes from making
    the directory or writing the file when it can: [FileNotFoundError],
    with nothing written, when the directory name is empty.  In every case
    the accumulated text and the image paths are as they were before the
    element. *)
Theorem paragraph_exceptions
        (embed_titles exact_images : bool) (c : Child) (st st' : State) (e : Exn) :
  wf st -> kind_of c = KParagraph ->
  handle_child md5_hexdigest embed_titles exact_images c st = Fail e st' ->
  exact_images = true
  ∧ accumulated_text st' = accumulated_text st
  ∧ deref st' (image_paths st') = deref st (image_paths st)
  ∧ exists tag,
      find_img c = Some tag
      ∧ ((e = KeyError ∧ attrs tag !! "src" = None ∧ st' = st)
         ∨ exists src payload,
             attrs tag !! "src" = Some src
             ∧ data_url_payload src = Some payload
             ∧ match Base64.b64decode payload with
               | Raise e' => e = e' ∧ (e = ValueError ∨ e = BinasciiError) ∧ st' = st
               | Ok _ => pdf_images_dir st = "" -> e = FileNotFoundError ∧ st' = st
               end).
Proof.
  intros Hwf Hk. rewrite handle_child_kind, Hk by done.
  unfold handle_paragraph. destruct exact_images; [|done].
  rewrite check_and_decode_unfold.
  destruct (find_img c) as [tag|]; [|done].
  unfold getitem. destruct (attrs tag !! "src") as [src|] eqn:Hsrc; cbn [rbind].
  - destruct (Py.startswith src data_url_prefix) eqn:Hpre; cbn [negb]; [|done].
    rewrite (startswith_find src Hpre).
    destruct (Py.find src data_url_suffix 0) as [b|] eqn:Hb; [|done].
    assert (Hpay : data_url_payload src
                   = Some (Py.slice_from src (b + String.length data_url_suffix)))
      by (unfold data_url_payload; by rewrite Hpre, Hb).
    destruct (Base64.b64decode _) as [data|e'] eqn:Hdec; cbn [rbind].
    + destruct (String.eqb (pdf_images_dir st) "") eqn:Hdir; cbn [rbind].
      * intros [= <- <-]. split_and!; [done..|].
        exists tag. split; [done|]. right. do 2 eexists.
        split_and!; [done | exact Hpay |]. by rewrite Hdec.
      * cbv zeta. by destruct (Py.truthy _).
    + intros [= <- <-]. split_and!; [done..|].
      exists tag. split; [done|]. right. do 2 eexists.
      split_and!; [done | exact Hpay |]. rewrite Hdec.
      split_and!; [done | by eapply b64decode_raises | done].
  - intros [= <- <-]. split_and!; [done..|].
    exists tag. split; [done|]. by left.
Qed.

End Images.

(** ** The table text of a page *)

Lemma table_line_nonempty (acc : string) (t : Table) :
  acc +:+ table_name t +:+ nl +:+ json_text t +:+ nl ≠ "".
Proof. by do 4 apply append_nonempty_r. Qed.

Lemma fold_tables_nonempty (ts : list Table) (acc : string) :
  acc ≠ "" ->
  fold_left (fun table_text t => table_text +:+ table_name t +:+ nl +:+ json_text t +:+ nl)
            ts acc ≠ "".
Proof.
  revert acc. induction ts as [|t ts IH]; intros acc Hacc; [done|].
  cbn [fold_left]. apply IH, table_line_nonempty.
Qed.

(** X14. The table text of a page is the empty string exactly when no
    table was found on the page: every table adds two lines, even one
    whose header names are all dropped and whose body is empty. *)
Theorem page_table_text_empty (p : Page) :
  page_table_text p = "" <-> tables p = [].
Proof.
  unfold page_table_text. destruct (tables p) as [|t ts]; [done|].
  split; [|done]. cbn [fold_left]. intros H. exfalso.
  eapply fold_tables_nonempty; [|exact H]. apply table_line_nonempty.
Qed.

(** ** The converted dates *)

Import DateFields.

Lemma isdigit_digit_char (z : Z) : Py.isdigit (DateTime.digit_char (z mod 10)) = true.
Proof.
  pose proof (Z.mod_pos_bound z 10 ltac:(lia)) as Hb.
  assert (H : (z mod 10 = 0 ∨ z mod 10 = 1 ∨ z mod 10 = 2 ∨ z mod 10 = 3
               ∨ z mod 10 = 4 ∨ z mod 10 = 5 ∨ z mod 10 = 6 ∨ z mod 10 = 7
               ∨ z mod 10 = 8 ∨ z mod 10 = 9)%Z) by lia.
  destruct H as [-> | [-> | [-> | [-> | [-> | [-> | [-> | [-> | [-> | ->]]]]]]]]];
    reflexivity.
Qed.

Lemma year_text_cases (y : Z) :
  let c k := DateTime.digit_char (y / k mod 10) in
  DateTime.year_text y = String (DateTime.digit_char (y mod 10)) EmptyString
  ∨ DateTime.year_text y = String (c 10%Z) (String (DateTime.digit_char (y mod 10)) EmptyString)
  ∨ DateTime.year_text y
    = String (c 100%Z) (String (c 10%Z) (String (DateTime.digit_char (y mod 10)) EmptyString))
  ∨ DateTime.year_text y
    = String (c 1000%Z) (String (c 100%Z) (String (c 10%Z)
        (String (DateTime.digit_char (y mod 10)) EmptyString))).
Proof.
  cbv zeta. unfold DateTime.year_text.
  destruct (y <? 10)%Z; [by left|].
  destruct (y <? 100)%Z; [by right; left|].
  destruct (y <? 1000)%Z; [by right; right; left | by right; right; right].
Qed.

Lemma formatted_year (y mo d h mi se : Z) :
  formatted (y, mo, d, h, mi, se) = DateTime.year_text y +:+ date_tail_text mo d h mi se.
Proof. reflexivity. Qed.

Lemma date_tail_text_unfold (mo d h mi se : Z) :
  date_tail_text mo d h mi se
  = String "-"
      (String (DateTime.digit_char (mo / 10 mod 10))
      (String (DateTime.digit_char (mo mod 10))
      (String "-"
      (String (DateTime.digit_char (d / 10 mod 10))
      (String (DateTime.digit_char (d mod 10))
      (String " "
      (String (DateTime.digit_char (h / 10 mod 10))
      (String (DateTime.digit_char (h mod 10))
      (String ":"
      (String (DateTime.digit_char (mi / 10 mod 10))
      (String (DateTime.digit_char (mi mod 10))
      (String ":"
      (String (DateTime.digit_char (se / 10 mod 10))
      (String (DateTime.digit_char (se mod 10)) EmptyString)))))))))))))).
Proof. reflexivity. Qed.

Lemma date_tail_text_shape (mo d h mi se : Z) :
  date_tail (date_tail_text mo d h mi se) = true.
Proof.
  rewrite date_tail_text_unfold. unfold date_tail. cbn [forallb].
  by rewrite !isdigit_digit_char.
Qed.

Lemma convert_pdf_date_ok (s out : string) :
  _convert_pdf_date s = Ok out ->
  exists y mo d h mi se, out = formatted (y, mo, d, h, mi, se).
Proof.
  rewrite DateFacts.convert_pdf_date_parsed.
  destruct (parsed s) as [[[[[[y mo] d] h] mi] se]|]; [|done].
  destruct (valid_date _); [|done]. intros [= <-]. by exists y, mo, d, h, mi, se.
Qed.

(** X15. Whatever the input, a date that is converted has the shape
    Y-MM-DD HH:MM:SS: a year of one to four decimal digits, then fifteen
    characters that are decimal digits but for the two dashes, the blank
    and the two colons. *)
Theorem converted_date_shape (s out : string) :
  _convert_pdf_date s = Ok out -> date_shape out = true.
Proof.
  intros H. apply convert_pdf_date_ok in H as (y & mo & d & h & mi & se & ->).
  rewrite formatted_year. pose proof (date_tail_text_shape mo d h mi se) as Htail.
  unfold date_shape.
  destruct (year_text_cases y) as [-> | [-> | [-> | ->]]];
    cbv [String.append]; cbn [year_then_tail];
    rewrite !isdigit_digit_char, Htail; cbn [andb orb];
    rewrite ?orb_true_r; reflexivity.
Qed.

Lemma year_field_rejected_all :
  forallb (fun a => forallb (fun b => forallb (fun c =>
    year_field_rejected a b c) digit_chars) digit_chars) digit_chars = true.
Proof. vm_compute. reflexivity. Qed.

Lemma digit_char_in (z : Z) : In (DateTime.digit_char (z mod 10)) digit_chars.
Proof. apply DateFacts.isdigit_digit_chars, isdigit_digit_char. Qed.

Lemma digits_around_dash (x y z : Z) :
  let a := DateTime.digit_char (x mod 10) in
  let b := DateTime.digit_char (y mod 10) in
  let c := DateTime.digit_char (z mod 10) in
  Py.int_opt (String a (String b (String "-" (String c EmptyString)))) = None
  ∧ Py.int_opt (String a (String "-" (String b (String c EmptyString)))) = None
  ∧ Py.int_opt (String "-" (String a (String b (String "-" EmptyString)))) = None.
Proof.
  cbv zeta. pose proof year_field_rejected_all as Hall.
  rewrite forallb_forall in Hall. specialize (Hall _ (digit_char_in x)).
  rewrite forallb_forall in Hall. specialize (Hall _ (digit_char_in y)).
  rewrite forallb_forall in Hall. specialize (Hall _ (digit_char_in z)).
  unfold year_field_rejected, rejected in Hall.
  apply andb_true_iff in Hall as [Hall H3]. apply andb_true_iff in Hall as [H1 H2].
  split_and!.
  - by destruct (Py.int_opt _).
  - by destruct (Py.int_opt (String _ (String "-" _))).
  - by destruct (Py.int_opt (String "-" _)).
Qed.

(** X16. The conversion does not accept its own output: a converted date
    is rejected with [ValueError], because its characters 2 to 5, read as
    the year, hold a dash after a digit or before a dash. *)
Theorem converted_date_not_convertible (s out : string) :
  _convert_pdf_date s = Ok out -> _convert_pdf_date out = Raise ValueError.
Proof.
  intros H. apply convert_pdf_date_ok in H as (y & mo & d & h & mi & se & ->).
  rewrite DateFacts.convert_pdf_date_parsed.
  replace (parsed (formatted (y, mo, d, h, mi, se))) with (@None (Z * Z * Z * Z * Z * Z));
    [done|].
  unfold parsed. rewrite formatted_year, date_tail_text_unfold.
  destruct (year_text_cases y) as [-> | [-> | [-> | ->]]]; cbv [String.append].
  - change (field_year _)
      with (String (DateTime.digit_char (mo / 10 mod 10))
              (String (DateTime.digit_char (mo mod 10))
                 (String "-" (String (DateTime.digit_char (d / 10 mod 10)) EmptyString)))).
    by rewrite (proj1 (digits_around_dash (mo / 10) mo (d / 10))).
  - change (field_year _)
      with (String "-" (String (DateTime.digit_char (mo / 10 mod 10))
              (String (DateTime.digit_char (mo mod 10)) (String "-" EmptyString)))).
    by rewrite (proj2 (proj2 (digits_around_dash (mo / 10) mo 0))).
  - change (field_year _)
      with (String (DateTime.digit_char (y mod 10))
              (String "-" (String (DateTime.digit_char (mo / 10 mod 10))
                 (String (DateTime.digit_char (mo mod 10)) EmptyString)))).
    by rewrite (proj1 (proj2 (digits_around_dash y (mo / 10) mo))).
  - change (field_year _)
      with (String (DateTime.digit_char (y / 10 mod 10))
              (String (DateTime.digit_char (y mod 10))
                 (String "-" (String (DateTime.digit_char (mo / 10 mod 10)) EmptyString)))).
    by rewrite (proj1 (digits_around_dash (y / 10) y (mo / 10))).
Qed.

(** *** The two date entries of the file metadata *)

Lemma convert_date_key_spec (key : string) (m md : gmap string string) :
  convert_date_key key m = Ok md ->
  dom md = dom m
  ∧ (∀ k, k ≠ key -> md !! k = m !! k)
  ∧ (∀ v, m !! key = Some v ->
          exists v', _convert_pdf_date v = Ok v' ∧ md !! key = Some v').
Proof.
  unfold convert_date_key. destruct (m !! key) as [v|] eqn:Hk.
  - destruct (_convert_pdf_date v) as [v'|] eqn:Hv; cbn [rbind]; [|done].
    intros [= <-]. split_and!.
    + rewrite dom_insert_L. apply elem_of_dom_2 in Hk.
      apply subseteq_union_1_L. by apply singleton_subseteq_l.
    + intros k Hne. by rewrite lookup_insert_ne.
    + intros v0 [= <-]. exists v'. by rewrite lookup_insert_eq.
  - intros [= <-]. split_and!; [done | done | intros v Hv; congruence].
Qed.

(** X17. Converting the dates of the file metadata changes the values of
    [creationDate] and [modDate] only: the keys of the metadata are the
    same, every other entry is as it was, and each of the two dates that
    is present is replaced by its converted text. *)
Theorem convert_dates_touches_dates_only (m md : gmap string string) :
  convert_dates m = Ok md ->
  dom md = dom m
  ∧ (∀ k, k ≠ "creationDate" -> k ≠ "modDate" -> md !! k = m !! k)
  ∧ (∀ k v, k = "creationDate" ∨ k = "modDate" -> m !! k = Some v ->
            exists v', _convert_pdf_date v = Ok v' ∧ md !! k = Some v').
Proof.
  unfold convert_dates.
  destruct (convert_date_key "creationDate" m) as [md1|] eqn:H1; cbn [rbind]; [|done].
  intros H2.
  apply convert_date_key_spec in H1 as (D1 & O1 & C1).
  apply convert_date_key_spec in H2 as (D2 & O2 & C2).
  split_and!.
  - by rewrite D2, D1.
  - intros k Hc Hm. by rewrite O2, O1.
  - intros k v [-> | ->] Hv.
    + destruct (C1 v Hv) as (v' & Hv' & Hmd1). exists v'. split; [done|].
      by rewrite O2.
    + apply C2. by rewrite O1.
Qed.

(** ** The image paths of the documents *)

Section ImagesKept.

Variable md5_hexdigest : list Z -> string.
Variable embed_titles : bool.
Variable dir : string.

Lemma stored_images_cons (c : Child) (cs : list Child) :
  stored_images md5_hexdigest dir (c :: cs)
  = stored_images md5_hexdigest dir [c] ++ stored_images md5_hexdigest dir cs.
Proof.
  unfold stored_images. cbn [omap list_omap].
  by destruct (stored_path md5_hexdigest dir c).
Qed.

Lemma stored_images_app (cs cs' : list Child) :
  stored_images md5_hexdigest dir (cs ++ cs')
  = stored_images md5_hexdigest dir cs ++ stored_images md5_hexdigest dir cs'.
Proof. apply omap_app. Qed.

Lemma stored_images_not_paragraph (c : Child) :
  kind_of c ≠ KParagraph -> stored_images md5_hexdigest dir [c] = [].
Proof.
  intros Hk. unfold stored_images, stored_path. cbn [omap list_omap].
  by destruct (kind_of c).
Qed.

Lemma deref_after_yield_images (st : State) :
  wf st -> deref (after_yield st) (image_paths (after_yield st)) = [].
Proof.
  intros Hwf. pose proof Hwf as [H1 H2 H3 H4 H5 H6 H7].
  unfold after_yield. simpl.
  rewrite deref_assign_ne by lia.
  unfold deref. simpl. rewrite lookup_app_r by lia. by rewrite Nat.sub_diag.
Qed.

Lemma paragraph_images (c : Child) (st st1 : State) :
  wf st -> pdf_images_dir st = dir -> kind_of c = KParagraph ->
  handle_paragraph md5_hexdigest true c st = Ok st1 ->
  deref st1 (image_paths st1)
  = deref st (image_paths st) ++ stored_images md5_hexdigest dir [c].
Proof.
  intros Hwf Hdir Hk. pose proof Hwf as [H1 H2 H3 H4 H5 H6 H7].
  unfold handle_paragraph, stored_images, stored_path, embedded_image_path.
  cbn [omap list_omap]. rewrite Hk.
  pose proof (check_and_decode_dir md5_hexdigest (find_img c) st) as Hd.
  rewrite Hdir in Hd.
  destruct (_check_and_decode_base64_image md5_hexdigest (find_img c) (init dir))
    as [[r s0]|e]; cbn [rbind fst].
  - destruct Hd as (d & f & ->). cbn [rbind].
    destruct r as [path|].
    + destruct (Py.truthy (Some path)); intros [= <-].
      * change (image_paths (assign _ _ _)) with (image_paths st).
        change (image_paths (set_fs d f st)) with (image_paths st).
        rewrite deref_assign_eq by done. reflexivity.
      * by rewrite app_nil_r.
    + cbn [Py.truthy]. intros [= <-]. by rewrite app_nil_r.
  - by rewrite Hd.
Qed.

Lemma child_images (c : Child) (st : State) :
  wf st -> pdf_images_dir st = dir -> file_metadata st !! "images" = None ->
  match handle_child md5_hexdigest embed_titles true c st with
  | Next st1 =>
      deref st1 (image_paths st1)
      = deref st (image_paths st) ++ stored_images md5_hexdigest dir [c]
  | Yield d st1 =>
      yielded_images (d, st1) = deref st (image_paths st)
      ∧ stored_images md5_hexdigest dir [c] = []
  | Fail _ _ => True
  end.
Proof.
  intros Hwf Hdir Hmd. pose proof Hwf as [H1 H2 H3 H4 H5 H6 H7].
  rewrite handle_child_kind by done.
  destruct (kind_of c) as [level| |] eqn:Hk.
  - pose proof (wf_headed level (get_text c) st Hwf (kind_heading_range _ _ Hk)) as Hwf1.
    assert (Hs : stored_images md5_hexdigest dir [c] = [])
      by (apply stored_images_not_paragraph; congruence).
    assert (Hh : deref (headed level (get_text c) st) (image_paths st)
                 = deref st (image_paths st))
      by (apply deref_headed_other; congruence).
    cbv zeta. destruct (negb _).
    + destruct (heading_document _ _ _) as [[d st2]|] eqn:Hdoc; [|done].
      apply heading_document_inv in Hdoc as (-> & Hmeta & _); [|done].
      split; [|done].
      unfold yielded_images, images_of, list_entry. cbn [fst snd].
      rewrite Hmeta, merged_lookup_images by done. cbn [default].
      change (image_paths (headed level (get_text c) st)) with (image_paths st).
      rewrite deref_heading_yield_state; [done|].
      unfold headed. by rewrite length_store_assign.
    + rewrite Hs, app_nil_r. exact Hh.
  - destruct (handle_paragraph _ _ _ _) as [st1|] eqn:Hp; [|done].
    by apply paragraph_images.
  - rewrite stored_images_not_paragraph, app_nil_r by congruence. done.
Qed.

Lemma children_loop_images (cs : list Child) (st : State)
      (ys : list (Langchain.Document * State)) (st' : State) :
  wf st -> pdf_images_dir st = dir -> file_metadata st !! "images" = None ->
  children_loop md5_hexdigest embed_titles true cs st = (ys, Done st') ->
  concat (map yielded_images ys) ++ deref st' (image_paths st')
  = deref st (image_paths st) ++ stored_images md5_hexdigest dir cs
  ∧ wf st' ∧ pdf_images_dir st' = dir ∧ file_metadata st' = file_metadata st.
Proof.
  revert st ys. induction cs as [|c cs IH]; intros st ys Hwf Hdir Hmd.
  - intros [= <- <-]. cbn [map concat app]. split_and!; [|done..].
    unfold stored_images. cbn [omap list_omap]. by rewrite app_nil_r.
  - cbn [children_loop].
    pose proof (wf_handle_child md5_hexdigest embed_titles true c st Hwf) as Hwf1.
    destruct (frame_handle_child md5_hexdigest embed_titles true c st Hwf)
      as (Hf1 & Hf2 & _).
    pose proof (child_images c st Hwf Hdir Hmd) as Hc.
    rewrite stored_images_cons.
    destruct (handle_child md5_hexdigest embed_titles true c st) as [st1|d st1|e st1];
      cbn [step_state] in *.
    + intros Hloop.
      destruct (IH st1 ys Hwf1) as (I1 & I2 & I3 & I4);
        [congruence | congruence | done |].
      split_and!; [|done | done | congruence].
      by rewrite I1, Hc, <- app_assoc.
    + destruct (children_loop _ _ _ cs (after_yield st1)) as [ys1 o] eqn:Hloop.
      intros [= <- ->]. destruct Hc as [Hy Hs].
      destruct (IH (after_yield st1) ys1 (wf_after_yield _ Hwf1)) as (I1 & I2 & I3 & I4);
        [exact (eq_trans Hf2 Hdir)
        | by rewrite file_metadata_after_yield, Hf1 | done |].
      rewrite deref_after_yield_images in I1 by done.
      split_and!; [|done | done | by rewrite I4, file_metadata_after_yield].
      cbn [map concat]. rewrite <- app_assoc, I1, Hy, Hs. reflexivity.
    + done.
Qed.

Lemma pages_loop_images (ps : list Page) (st : State)
      (ys : list (Langchain.Document * State)) (st' : State) :
  wf st -> pdf_images_dir st = dir -> file_metadata st !! "images" = None ->
  pages_loop md5_hexdigest embed_titles true ps st = (ys, Done st') ->
  concat (map yielded_images ys) ++ deref st' (image_paths st')
  = deref st (image_paths st)
    ++ stored_images md5_hexdigest dir (concat (map children ps))
  ∧ wf st' ∧ file_metadata st' = file_metadata st.
Proof.
  revert st ys. induction ps as [|p ps IH]; intros st ys Hwf Hdir Hmd.
  - intros [= <- <-]. cbn [map concat app]. split_and!; [|done..].
    unfold stored_images. cbn [omap list_omap]. by rewrite app_nil_r.
  - cbn [pages_loop]. cbv zeta.
    pose proof (wf_append_table_text (page_table_text p) st Hwf) as Hwf1.
    pose proof (children_loop_images (children p)
                  (append_table_text (page_table_text p) st)) as Hc.
    destruct (children_loop _ _ _ _ _) as [ys1 [st2|e st2]]; [|done].
    destruct (Hc ys1 st2 Hwf1 Hdir Hmd eq_refl) as (C1 & C2 & C3 & C4).
    destruct (pages_loop _ _ _ ps st2) as [ys2 o] eqn:Hloop.
    intros [= <- ->].
    destruct (IH st2 ys2 C2 C3) as (I1 & I2 & I3); [by rewrite C4 | done |].
    split_and!; [|done | by rewrite I3, C4].
    rewrite map_app, concat_app, <- app_assoc, I1, app_assoc, C1.
    cbn [map concat]. rewrite stored_images_app, app_assoc. f_equal. f_equal.
    change (image_paths (append_table_text (page_table_text p) st))
      with (image_paths st).
    unfold append_table_text. apply deref_assign_ne. destruct Hwf. congruence.
Qed.

Lemma convert_dates_lookup (m md : gmap string string) (k : string) :
  convert_dates m = Ok md -> m !! k = None -> md !! k = None.
Proof.
  unfold convert_dates.
  destruct (convert_date_key "creationDate" m) as [md1|] eqn:E1; cbn [rbind]; [|done].
  intros E2 Hk.
  apply convert_date_key_spec in E1 as (D1 & _).
  apply convert_date_key_spec in E2 as (D2 & _).
  apply not_elem_of_dom. rewrite D2, D1. by apply not_elem_of_dom.
Qed.

(** X18. With image extraction, when the run reaches the end of the
    input, the image paths of the yielded documents, each read at its
    [yield] and taken in order, followed by the paths still pending in
    the processor, are the paths stored for the [p] elements of all the
    pages in document order: every stored path is in one document or
    pending, none twice. *)
Theorem stored_images_in_documents
        (pdf : FitzDocument) (st0 : State)
        (ys : list (Langchain.Document * State)) (st' : State) :
  wf st0 -> pdf_images_dir st0 = dir ->
  deref st0 (image_paths st0) = [] ->
  Pdf.metadata pdf !! "images" = None ->
  process_pdf md5_hexdigest embed_titles true pdf st0 = (ys, Done st') ->
  concat (map yielded_images ys) ++ deref st' (image_paths st')
  = stored_images md5_hexdigest dir (concat (map children (pages pdf))).
Proof.
  intros Hwf Hdir Hempty Hkey. unfold process_pdf.
  destruct (convert_dates (Pdf.metadata pdf)) as [md|e] eqn:Hmd; [|done].
  pose proof (convert_dates_lookup _ _ _ Hmd Hkey) as Hmd'.
  pose proof (pages_loop_images (pages pdf) (set_file_metadata md st0)) as Hp.
  destruct (pages_loop _ _ _ _ _) as [ys1 [st1|e st1]]; [|done].
  destruct (Hp ys1 st1) as (P1 & P2 & P3);
    [by apply wf_set_file_metadata | done | done | done |].
  change (deref (set_file_metadata md st0) (image_paths (set_file_metadata md st0)))
    with (deref st0 (image_paths st0)) in P1.
  rewrite Hempty in P1. cbn [app] in P1.
  unfold final_flush. destruct (negb _).
  - intros [= <- <-].
    rewrite map_app, concat_app, deref_after_yield_images by done.
    cbn [map concat]. rewrite !app_nil_r, <- P1. f_equal.
    unfold yielded_images, images_of, list_entry. cbn [fst snd].
    rewrite final_document_metadata, merged_lookup_images by (by rewrite P3).
    reflexivity.
  - cbn [app]. rewrite app_nil_r. by intros [= <- <-].
Qed.

End ImagesKept.

(** ** The properties on sample documents *)

Import Samples SamplesMore.

(** X1, witness: the first document of the two-page sample. *)
Lemma yielded_documents_have_text_witness :
  exists d st,
    (run false false pdf_a_b).1 !! 0%nat = Some (d, st)
    ∧ accumulated_text st ≠ "" ∧ Langchain.page_content d ≠ "".
Proof.
  do 2 eexists. split; [reflexivity|].
  apply (yielded_documents_have_text sample_digest false false pdf_a_b (init images_dir)).
  - apply wf_init.
  - vm_compute. constructor.
Defined.

(** X3, witness: two headings and a table, with both options set. *)
Lemma no_paragraph_no_document_witness :
  exists st',
    process_pdf sample_digest true true pdf_headings_only (init images_dir)
    = ([], Done st').
Proof.
  apply (no_paragraph_no_document sample_digest true true pdf_headings_only
           (init images_dir) no_metadata).
  - apply wf_init.
  - reflexivity.
  - reflexivity.
  - repeat constructor; intros H; vm_compute in H; discriminate H.
Defined.

(** X4, witness: the stack after headings (1, Top) and (2, Sub). *)
Lemma stack_follows_headings_witness :
  deref (outcome_state (run false false pdf_sub_tail).2)
        (text_titles (outcome_state (run false false pdf_sub_tail).2))
  = stack_after (stream pdf_sub_tail)
                (deref (init images_dir) (text_titles (init images_dir))).
Proof.
  apply (stack_follows_headings sample_digest false false pdf_sub_tail (init images_dir)
           (run false false pdf_sub_tail).1).
  - apply wf_init.
  - vm_compute. reflexivity.
Defined.

(** X5, witness: two documents for one heading. *)
Lemma documents_bounded_by_headings_witness :
  length (run false false pdf_a_b).1 <= count_headings (stream pdf_a_b) + 1.
Proof.
  apply (documents_bounded_by_headings sample_digest false false pdf_a_b (init images_dir)).
  apply wf_init.
Defined.

(** X6, witness: heading (2, Sub) closes a segment while level 1 is
    unset. *)
Lemma embedded_heading_type_error_witness :
  (handle_child sample_digest true false (h "2" "Sub") with_text
   = Fail TypeError (headed 2 (get_text (h "2" "Sub")) with_text)
   <-> exists j, j < 2 - 1 ∧ deref with_text (text_titles with_text) !! j = Some None)
  ∧ (¬ (exists j, j < 2 - 1 ∧ deref with_text (text_titles with_text) !! j = Some None) ->
     exists d st', handle_child sample_digest true false (h "2" "Sub") with_text
                   = Yield d st')
  ∧ exists d st', handle_child sample_digest false false (h "2" "Sub") with_text
                  = Yield d st'.
Proof.
  apply (embedded_heading_type_error sample_digest false (h "2" "Sub") 2 with_text).
  - apply wf_set_accumulated_text, wf_init.
  - vm_compute. reflexivity.
  - intros H. vm_compute in H. discriminate H.
Defined.

(** X7, witness: a document whose creation date converts. *)
Lemma default_run_completes_witness :
  exists ys st',
    process_pdf sample_digest false false pdf_titles_key (init images_dir)
    = (ys, Done st').
Proof.
  exact (default_run_completes sample_digest pdf_titles_key (init images_dir)
           (wf_init images_dir)).
Defined.

(** X8, witness: the agent of [main] on the two-page sample. *)
Lemma split_agent_stores_no_image_witness :
  exists d st,
    (split_agent_pdf sample_digest sample_open sample_agent true).1 !! 0%nat
    = Some (d, st)
    ∧ images_of d st = Some [] ∧ fs_files st = ∅ ∧ fs_dirs st = ∅.
Proof.
  do 2 eexists. split; [reflexivity|].
  apply (split_agent_stores_no_image sample_digest sample_open sample_agent true
           no_metadata).
  - vm_compute. reflexivity.
  - reflexivity.
  - vm_compute. constructor.
Defined.

(** X9, witness: the two-page sample, whose first document is closed by a
    heading. *)
Lemma documents_of_headings_immutable_witness :
  let ys := (pages_loop sample_digest false false (pages pdf_a_b)
                        (set_file_metadata no_metadata (init images_dir))).1 in
  let r := run false false pdf_a_b in
  exists tail,
    r.1 = ys ++ tail
    ∧ Forall (fun y => Forall (fun z => kept y z.2) tail) ys
    ∧ all_later kept ys (outcome_state r.2).
Proof.
  apply (documents_of_headings_immutable sample_digest false false pdf_a_b
           (init images_dir) no_metadata _
           (pages_loop sample_digest false false (pages pdf_a_b)
                       (set_file_metadata no_metadata (init images_dir))).2).
  - apply wf_init.
  - reflexivity.
  - apply surjective_pairing.
Defined.

(** X10, witness: the final document of a processor that holds text. *)
Lemma final_document_titles_images_kept_witness :
  titles_images_kept (final_document true with_text, with_text) (after_yield with_text).
Proof.
  apply (final_document_titles_images_kept true with_text).
  apply wf_set_accumulated_text, wf_init.
Defined.

(** X11, witness: the image of the sample paragraph, stored by a new
    processor. *)
Lemma image_storage_idempotent_witness :
  _check_and_decode_base64_image sample_digest (Some good_tag) stored_state
  = Ok (Some stored_file, stored_state)
  ∧ pdf_images_dir (init images_dir) ∈ fs_dirs stored_state
  ∧ is_Some (fs_files stored_state !! stored_file)
  ∧ ∀ st2, pdf_images_dir st2 = pdf_images_dir (init images_dir) ->
           exists st3,
             _check_and_decode_base64_image sample_digest (Some good_tag) st2
             = Ok (Some stored_file, st3).
Proof.
  apply (image_storage_idempotent sample_digest (Some good_tag) (init images_dir)
           stored_file stored_state).
  vm_compute. reflexivity.
Defined.

(** X12, witness: the same image; its file is in [./pdf_images]. *)
Lemma stored_image_inside_directory_witness :
  exists name,
    no_slash name = true
    ∧ stored_file
      = (if String.eqb (pdf_images_dir (init images_dir)) "" then name
         else if ends_with_slash (pdf_images_dir (init images_dir))
              then pdf_images_dir (init images_dir) +:+ name
              else pdf_images_dir (init images_dir) +:+ "/" +:+ name).
Proof.
  apply (stored_image_inside_directory sample_digest (Some good_tag) (init images_dir)
           stored_file stored_state).
  - intros data. vm_compute. reflexivity.
  - vm_compute. reflexivity.
Defined.

(** X13, witness: a decodable image and a directory with the empty name. *)
Lemma paragraph_exceptions_witness :
  true = true
  ∧ accumulated_text no_directory = accumulated_text no_directory
  ∧ deref no_directory (image_paths no_directory)
    = deref no_directory (image_paths no_directory)
  ∧ exists tag,
      find_img good_image = Some tag
      ∧ ((FileNotFoundError = KeyError ∧ attrs tag !! "src" = None
          ∧ no_directory = no_directory)
         ∨ exists src payload,
             attrs tag !! "src" = Some src
             ∧ data_url_payload src = Some payload
             ∧ match Base64.b64decode payload with
               | Raise e' =>
                   FileNotFoundError = e'
                   ∧ (FileNotFoundError = ValueError ∨ FileNotFoundError = BinasciiError)
                   ∧ no_directory = no_directory
               | Ok _ =>
                   pdf_images_dir no_directory = "" ->
                   FileNotFoundError = FileNotFoundError ∧ no_directory = no_directory
               end).
Proof.
  apply (paragraph_exceptions sample_digest false true good_image no_directory
           no_directory FileNotFoundError).
  - apply wf_init.
  - vm_compute. reflexivity.
  - vm_compute. reflexivity.
Defined.

(** X15, witness: a date of the year 999. *)
Lemma converted_date_shape_witness : date_shape converted_date_999 = true.
Proof.
  apply (converted_date_shape pdf_date_999 converted_date_999).
  vm_compute. reflexivity.
Defined.

(** X16, witness: the same date, converted again. *)
Lemma converted_date_not_convertible_witness :
  _convert_pdf_date converted_date_999 = Raise ValueError.
Proof.
  apply (converted_date_not_convertible pdf_date_999 converted_date_999).
  vm_compute. reflexivity.
Defined.

(** X17, witness: a dictionary with a creation date and another key. *)
Lemma convert_dates_touches_dates_only_witness :
  let m := Pdf.metadata pdf_titles_key in
  let md := <["creationDate" := converted_date]> m in
  dom md = dom m
  ∧ (∀ k, k ≠ "creationDate" -> k ≠ "modDate" -> md !! k = m !! k)
  ∧ (∀ k v, k = "creationDate" ∨ k = "modDate" -> m !! k = Some v ->
            exists v', _convert_pdf_date v = Ok v' ∧ md !! k = Some v').
Proof.
  apply (convert_dates_touches_dates_only (Pdf.metadata pdf_titles_key)
           (<["creationDate" := converted_date]> (Pdf.metadata pdf_titles_key))).
  vm_compute. reflexivity.
Defined.

(** X18, witness: one stored image, in the document closed by the
    heading. *)
Lemma stored_images_in_documents_witness :
  let r := run true true pdf_with_images in
  concat (map yielded_images r.1)
    ++ deref (outcome_state r.2) (image_paths (outcome_state r.2))
  = stored_images sample_digest images_dir
                  (concat (map children (pages pdf_with_images))).
Proof.
  apply (stored_images_in_documents sample_digest true images_dir pdf_with_images
           (init images_dir) (run true true pdf_with_images).1).
  - apply wf_init.
  - reflexivity.
  - reflexivity.
  - reflexivity.
  - vm_compute. reflexivity.
Defined.

End ExtraFacts.
